(** * live_analytics: the resilient requester, the chart-data fetch and the
      cache reader of [scripts/utils.py]

    A shallow embedding of [safe_api_request], [fetch_pool_chart_data],
    [_process_timestamp_column], [load_data_from_db], [purge_database] and
    [validate_dataframe].  Python code that sleeps, prints, talks to the
    network or to SQLite is written in a small state-and-exception monad over
    an explicit [world]; what the outside answers (the network, the clock,
    pandas' date parsers, the JSON decoder's messages) is collected in an
    environment [Env].  The limits of the platform that the code can meet
    are part of the model: the longest sleep [time.sleep] takes, the range
    of [datetime], database files that may not be written, views. *)

From Stdlib Require Import ZArith QArith List String Bool Lia DecimalString.
Import ListNotations.

Open Scope string_scope.
Open Scope list_scope.
Open Scope Z_scope.

(* ================================================================= *)
(** ** config.py *)

Definition API_ENDPOINTS_defi_llama_chart : string := "https://yields.llama.fi/chart/".
Definition DEFAULT_DB_FILENAME : string := "data/defi_prime_rate.db".

(** Delays are seconds.  [RATE_LIMIT_RETRY_DELAY] is a Python int, the other
    two are the floats 2.0 and 1.5, both exact as rationals. *)
Definition RATE_LIMIT_DELAY : Q := 2 # 1.
Definition RATE_LIMIT_RETRY_DELAY : Z := 5.
Definition COINGECKO_FREE_TIER_DELAY : Q := 3 # 2.

(* ================================================================= *)
(** ** Python values, exceptions, the world *)

(** A decoded JSON document, or the content of a cell of an object column.
    [VDict] lists the fields of a [dict] in insertion order, each key once.
    [VFloat m e] is the double [m * 2^e]; no function here computes on it. *)
#[warnings="-register-all"]
Inductive value : Type :=
| VNull
| VBool (b : bool)
| VInt (z : Z)
| VFloat (m e : Z)
| VStr (s : string)
| VList (items : list value)
| VDict (fields : list (string * value)).

(** An exception instance: its class name and [str(e)].  Only subclasses of
    [Exception] are modelled. *)
Inductive exn : Type := Exn (cls msg : string).

Definition exn_str (e : exn) : string := let 'Exn _ msg := e in msg.

Inductive res (A : Type) : Type :=
| Ok (a : A)
| Raise (e : exn).
Arguments Ok {A} a.
Arguments Raise {A} e.

Record request : Type := mkRequest {
  req_url : string;
  req_headers : list (string * string);
  req_params : option (list (string * string)) }.

(** What the code reads of a [requests.Response]: [json] is [None] when
    [response.json()] raises. *)
Record response : Type := mkResponse {
  status_code : Z;
  text : string;
  json : option value }.

(** A table or a view of an SQLite database, as a [SELECT *] shows it.  A
    column is a name and a declared type. *)
Record sql_table : Type := mkTable {
  tcols : list (string * string);
  trows : list (list value);
  tview : bool }.                (* a view: [DROP TABLE] refuses it *)

(** The file behind a database path.  Tables and views share one list; SQLite
    keeps their names apart without regard to ASCII case. *)
Inductive store_state : Type :=
| Unopenable (msg : string)   (* [sqlite3.connect] raises *)
| Absent                      (* no file yet: [connect] creates an empty database *)
| NotADatabase                (* a file that is not a database: the first statement raises *)
| Database (tables : list (string * sql_table))
| ReadOnly (tables : list (string * sql_table)).   (* a database file that may not be written *)

Inductive event : Type :=
| Sleep (seconds : Q)
| HttpGet (req : request) (outcome : res response)
| SqlConnect (path : string)
| SqlExecute (stmt : string)
| SqlClose (path : string).

Record world : Type := mkWorld {
  stdout : list string;            (* lines printed so far *)
  trace : list event;              (* sleeps, requests and database calls so far *)
  gets : nat;                      (* number of [requests.get] calls so far *)
  fs : string -> store_state;      (* the database files *)
  open_conns : list string }.      (* paths of the connections that are open *)

(* ================================================================= *)
(** ** A monad for state and exceptions *)

Definition M (A : Type) : Type := world -> res A * world.

Definition ret {A} (a : A) : M A := fun w => (Ok a, w).

Definition raise {A} (e : exn) : M A := fun w => (Raise e, w).

Definition bind {A B} (m : M A) (k : A -> M B) : M B :=
  fun w => match m w with
           | (Ok a, w') => k a w'
           | (Raise e, w') => (Raise e, w')
           end.

(** [try: body / except Exception as e: handler e]; what the body did to the
    world before it raised stays done. *)
Definition try_except {A} (body : M A) (handler : exn -> M A) : M A :=
  fun w => match body w with
           | (Ok a, w') => (Ok a, w')
           | (Raise e, w') => handler e w'
           end.

Declare Scope py_scope.
Delimit Scope py_scope with py.
Notation "x <- m ;; k" := (bind m (fun x => k))
  (at level 61, m at next level, right associativity) : py_scope.
Notation "m ;; k" := (bind m (fun _ => k))
  (at level 61, right associativity) : py_scope.
Open Scope py_scope.

Definition when (c : bool) (m : M unit) : M unit := if c then m else ret tt.

(** The body of a [for] loop either falls through to the next iteration
    ([continue] included) or returns from the enclosing function. *)
Inductive flow (A : Type) : Type :=
| Next
| Return (a : A).
Arguments Next {A}.
Arguments Return {A} a.

(** [for i in items: body i] followed by [orelse] when no iteration returned. *)
Fixpoint for_each {I A} (items : list I) (body : I -> M (flow A)) (orelse : M A) : M A :=
  match items with
  | [] => orelse
  | i :: rest =>
      f <- body i ;;
      match f with
      | Return a => ret a
      | Next => for_each rest body orelse
      end
  end.

(** [range(n)]: empty when [n <= 0]. *)
Definition range (n : Z) : list Z := map Z.of_nat (seq 0 (Z.to_nat n)).

(** *** Primitive effects *)

Definition say (line : string) (w : world) : world :=
  mkWorld (stdout w ++ [line]) (trace w) (gets w) (fs w) (open_conns w).

Definition print (line : string) : M unit :=
  fun w => (Ok tt, say line w).

Definition emit (e : event) (w : world) : world :=
  mkWorld (stdout w) (trace w ++ [e]) (gets w) (fs w) (open_conns w).

(** The longest sleep: [time.sleep] keeps the duration as a signed 64-bit
    count of nanoseconds. *)
Definition SLEEP_MAX : Q := 9223372036854775807 # 1000000000.

(** [time.sleep(seconds)]: an [OverflowError] for a duration that does not
    fit, a [ValueError] for a negative one; neither sleeps. *)
Definition time_sleep (seconds : Q) : M unit :=
  fun w =>
    if negb (Qle_bool seconds SLEEP_MAX)
    then (Raise (Exn "OverflowError" "timestamp too large to convert to C _PyTime_t"), w)
    else if negb (Qle_bool 0 seconds)
    then (Raise (Exn "ValueError" "sleep length must be non-negative"), w)
    else (Ok tt, emit (Sleep seconds) w).

(* ================================================================= *)
(** ** The environment *)

(** A datetime column as pandas holds it: per entry the wall-clock reading
    in nanoseconds since 1970-01-01 00:00 ([None] is [NaT]), and the time
    zone the readings are in, if any. *)
Record DatetimeArray : Type := mkDatetimeArray {
  stamps : list (option Z);
  tz : option string }.

(** [pd.to_datetime] reports input it cannot convert as a [ValueError] (its
    parser and out-of-bounds errors are subclasses) or a [TypeError]. *)
Inductive parse_error : Type :=
| ParseValueError (msg : string)
| ParseTypeError (msg : string).

Record Env : Type := mkEnv {
  (* the outcome of the n-th [requests.get] of the run *)
  network : nat -> request -> res response;
  (* [datetime.now()]: the local wall-clock reading, in nanoseconds *)
  clock : Z;
  (* [pd.to_datetime(column, unit='s')] *)
  to_datetime_unit_s : list value -> parse_error + DatetimeArray;
  (* [pd.to_datetime(column)] *)
  to_datetime : list value -> parse_error + DatetimeArray;
  (* the message of the error [response.json()] raises for a body that is
     not JSON; it names the place in the body where decoding stopped *)
  json_error : string -> string }.

Definition requests_get (E : Env) (req : request) : M response :=
  fun w =>
    let out := network E (gets w) req in
    (out, mkWorld (stdout w) (trace w ++ [HttpGet req out]) (S (gets w)) (fs w) (open_conns w)).

(* ================================================================= *)
(** ** Formatting *)

(** [str(n)] for a Python int.  The limit CPython puts on the number of
    digits is not modelled: of the numbers printed here only the backoff
    from about attempt 14000 on meets it, where the attempt ends in the
    handler either way. *)
Definition str_int (n : Z) : string := NilZero.string_of_int (Z.to_int n).

Definition single_quote : Ascii.ascii := Ascii.ascii_of_nat 39.
Definition double_quote : Ascii.ascii := Ascii.ascii_of_nat 34.
Definition backslash : Ascii.ascii := Ascii.ascii_of_nat 92.

Definition has_char (c : Ascii.ascii) (s : string) : bool :=
  existsb (Ascii.eqb c) (list_ascii_of_string s).

Definition hex_digit (n : nat) : Ascii.ascii :=
  nth n (list_ascii_of_string "0123456789abcdef") (Ascii.ascii_of_nat 48).

(** One character of [repr(s)] between the quotes [quote]: the quote and
    the backslash are escaped, control characters are written as escapes.
    Bytes above ASCII stay: strings are UTF-8 text of printable characters. *)
Definition repr_char (quote c : Ascii.ascii) : string :=
  let n := Ascii.nat_of_ascii c in
  if Ascii.eqb c quote || Ascii.eqb c backslash then String backslash (String c "")
  else if (n =? 9)%nat then String backslash "t"
  else if (n =? 10)%nat then String backslash "n"
  else if (n =? 13)%nat then String backslash "r"
  else if ((n <? 32) || (n =? 127))%nat
       then String backslash
              ("x" ++ String (hex_digit (n / 16)) (String (hex_digit (n mod 16)) ""))
  else String c "".

(** [repr(s)] for a string: single quotes, unless the string holds a single
    quote and no double quote. *)
Definition repr_str (s : string) : string :=
  let quote := if has_char single_quote s && negb (has_char double_quote s)
               then double_quote else single_quote in
  String quote
    (String.concat "" (map (repr_char quote) (list_ascii_of_string s)) ++ String quote "").

Definition lower_ascii (c : Ascii.ascii) : Ascii.ascii :=
  let n := Ascii.nat_of_ascii c in
  if ((65 <=? n) && (n <=? 90))%nat then Ascii.ascii_of_nat (n + 32) else c.

(** [s.lower()] on ASCII. *)
Fixpoint lower (s : string) : string :=
  match s with
  | EmptyString => EmptyString
  | String c rest => String (lower_ascii c) (lower rest)
  end.

Fixpoint join (sep : string) (l : list string) : string :=
  match l with
  | [] => ""
  | [x] => x
  | x :: rest => x ++ sep ++ join sep rest
  end.

Definition repr_str_dict (d : list (string * string)) : string :=
  "{" ++ join ", " (map (fun kv => (repr_str (fst kv) ++ ": " ++ repr_str (snd kv))%string) d) ++ "}".

Definition repr_str_list (l : list string) : string :=
  "[" ++ join ", " (map repr_str l) ++ "]".

(** Truth value of an [Optional[str]]: [None] and the empty string are false. *)
Definition truthy_str (s : option string) : bool :=
  match s with
  | Some (String _ _) => true
  | _ => false
  end.

(* ================================================================= *)
(** ** safe_api_request *)

Section SafeApiRequest.
Variable E : Env.
Variables (url : string) (max_retries : Z) (is_coingecko : bool)
          (api_key : option string) (params : option (list (string * string))).

(** The body of the [try] of one iteration. *)
Definition attempt_try (attempt : Z) : M (flow (option response)) :=
  when (is_coingecko && (0 <? attempt))
    (let extra_delay := 3 * attempt in
     print ("CoinGecko free tier delay: waiting " ++ str_int extra_delay ++ " seconds...") ;;
     time_sleep (inject_Z extra_delay)) ;;
  headers <- (if truthy_str api_key
              then
                let headers := [("x-cg-pro-api-key", match api_key with Some k => k | None => "" end)] in
                print ("Making Pro API request with headers: " ++ repr_str_dict headers) ;;
                ret headers
              else
                print "Making free tier request (no API key)" ;;
                ret []) ;;
  response <- requests_get E (mkRequest url headers params) ;;
  print ("Response status: " ++ str_int (status_code response)) ;;
  when (negb (status_code response =? 200))
    (print ("Response text: " ++ substring 0 200 (text response) ++ "...")) ;;
  if status_code response =? 429
  then
    let wait_time := RATE_LIMIT_RETRY_DELAY * 2 ^ attempt in
    print ("Rate limited, waiting " ++ str_int wait_time ++ " seconds... (attempt "
           ++ str_int (attempt + 1) ++ ")") ;;
    time_sleep (inject_Z wait_time) ;;
    ret Next
  else
    when is_coingecko (time_sleep COINGECKO_FREE_TIER_DELAY) ;;
    ret (Return (Some response)).

(** The [except Exception as e] of one iteration. *)
Definition attempt_except (attempt : Z) (e : exn) : M (flow (option response)) :=
  print ("Request failed (attempt " ++ str_int (attempt + 1) ++ "): " ++ exn_str e) ;;
  when (attempt <? max_retries - 1) (time_sleep RATE_LIMIT_DELAY) ;;
  ret Next.

Definition attempt_body (attempt : Z) : M (flow (option response)) :=
  try_except (attempt_try attempt) (attempt_except attempt).

Definition safe_api_request : M (option response) :=
  for_each (range max_retries) attempt_body (ret None).
End SafeApiRequest.

(* ================================================================= *)
(** ** pandas frames *)

(** A column or index label: a string, or a position when pandas numbers the
    columns itself. *)
Inductive label : Type :=
| LStr (s : string)
| LInt (n : Z).

Definition label_eqb (a b : label) : bool :=
  match a, b with
  | LStr s, LStr t => String.eqb s t
  | LInt n, LInt m => n =? m
  | _, _ => false
  end.

Definition repr_label (l : label) : string :=
  match l with
  | LStr s => repr_str s
  | LInt n => str_int n
  end.

(** A string of ASCII characters only. *)
Definition ascii_string (s : string) : bool :=
  forallb (fun c => (Ascii.nat_of_ascii c <? 128)%nat) (list_ascii_of_string s).

Definition ascii_label (l : label) : bool :=
  match l with
  | LStr s => ascii_string s
  | LInt _ => true
  end.

(** Frames are held by column, as pandas holds them. *)
Inductive column : Type :=
| ObjCol (vals : list value)
| TimeCol (a : DatetimeArray).

Inductive Index : Type :=
| RangeIndex (n : nat)
| ObjIndex (name : option label) (vals : list value)
| DatetimeIndex (name : option label) (a : DatetimeArray).

Record DataFrame : Type := mkFrame {
  index : Index;
  cols : list (label * column) }.

Definition columns (df : DataFrame) : list label := map fst (cols df).

Definition index_len (ix : Index) : nat :=
  match ix with
  | RangeIndex n => n
  | ObjIndex _ vals => List.length vals
  | DatetimeIndex _ a => List.length (stamps a)
  end.

(** [len(df)] *)
Definition len (df : DataFrame) : nat := index_len (index df).

(** [df.empty]: no rows or no columns. *)
Definition empty (df : DataFrame) : bool :=
  match len df, cols df with
  | O, _ => true
  | _, [] => true
  | _, _ => false
  end.

(** [label in df.columns] *)
Definition has_column (l : label) (df : DataFrame) : bool :=
  existsb (label_eqb l) (columns df).

Fixpoint get_column (l : label) (cs : list (label * column)) : option column :=
  match cs with
  | [] => None
  | (k, c) :: rest => if label_eqb l k then Some c else get_column l rest
  end.

Fixpoint drop_column (l : label) (cs : list (label * column)) : list (label * column) :=
  match cs with
  | [] => []
  | (k, c) :: rest => if label_eqb l k then rest else (k, c) :: drop_column l rest
  end.

(** [df[l] = c]: replaces the column in place when it exists, appends it
    otherwise. *)
Fixpoint set_column (l : label) (c : column) (cs : list (label * column)) : list (label * column) :=
  match cs with
  | [] => [(l, c)]
  | (k, c') :: rest => if label_eqb l k then (k, c) :: rest else (k, c') :: set_column l c rest
  end.

Definition index_of_column (name : label) (c : column) : Index :=
  match c with
  | ObjCol vals => ObjIndex (Some name) vals
  | TimeCol a => DatetimeIndex (Some name) a
  end.

(** [df.set_index(l)]: a [KeyError] when there is no such column. *)
Definition set_index (l : label) (df : DataFrame) : res DataFrame :=
  match get_column l (cols df) with
  | Some c => Ok (mkFrame (index_of_column l c) (drop_column l (cols df)))
  | None => Raise (Exn "KeyError" ("None of [" ++ repr_label l ++ "] are in the columns"))
  end.

(** Boolean-mask selection, [x[mask]]. *)
Fixpoint select {A} (mask : list bool) (l : list A) : list A :=
  match mask, l with
  | b :: mask', x :: l' => if b then x :: select mask' l' else select mask' l'
  | _, _ => []
  end.

Definition select_array (mask : list bool) (a : DatetimeArray) : DatetimeArray :=
  mkDatetimeArray (select mask (stamps a)) (tz a).

Definition select_column (mask : list bool) (c : column) : column :=
  match c with
  | ObjCol vals => ObjCol (select mask vals)
  | TimeCol a => TimeCol (select_array mask a)
  end.

Definition select_index (mask : list bool) (ix : Index) : Index :=
  match ix with
  | RangeIndex n => ObjIndex None (select mask (map (fun i => VInt (Z.of_nat i)) (seq 0 n)))
  | ObjIndex name vals => ObjIndex name (select mask vals)
  | DatetimeIndex name a => DatetimeIndex name (select_array mask a)
  end.

(** [df[mask]] *)
Definition select_rows (mask : list bool) (df : DataFrame) : DataFrame :=
  mkFrame (select_index mask (index df))
          (map (fun kc => (fst kc, select_column mask (snd kc))) (cols df)).

(** [t >= cutoff] for an entry of a datetime index: false at [NaT]. *)
Definition not_before (cutoff : Z) (t : option Z) : bool :=
  match t with
  | Some t => cutoff <=? t
  | None => false
  end.

(** [df.index >= cutoff] for a naive datetime [cutoff], compared exactly
    wherever [cutoff] lies in the range of [datetime]; a [TypeError] for an
    index that does not hold naive datetimes. *)
Definition index_ge (ix : Index) (cutoff : Z) : res (list bool) :=
  match ix with
  | DatetimeIndex _ (mkDatetimeArray ts None) => Ok (map (not_before cutoff) ts)
  | _ => Raise (Exn "TypeError" "Invalid comparison between index and datetime")
  end.

(** Key lookup in a decoded JSON object. *)
Fixpoint dict_get (k : string) (d : list (string * value)) : option value :=
  match d with
  | [] => None
  | (k', v) :: rest => if String.eqb k k' then Some v else dict_get k rest
  end.

Definition is_dict (v : value) : bool :=
  match v with VDict _ => true | _ => false end.

Definition dict_fields (v : value) : list (string * value) :=
  match v with VDict d => d | _ => [] end.

(** The keys of the records in order of first appearance. *)
Fixpoint union_keys (seen : list string) (records : list value) : list string :=
  match records with
  | [] => seen
  | r :: rest =>
      union_keys
        (fold_left (fun acc k => if existsb (String.eqb k) acc then acc else acc ++ [k])
                   (map fst (dict_fields r)) seen)
        rest
  end.

(** [pd.DataFrame(data)] for a list [data].  A list of records gives one
    column per key, with the missing cells empty.  A list of plain values,
    and a list of lists, get positional columns, of which only the fact that
    their labels are integers is modelled.  Any other mix of records, lists
    and plain values is taken as refused: which of them pandas accepts
    depends on its version, and nothing below relies on one being refused.
    Cells are kept as they were decoded: the dtype pandas picks for a column
    (it holds integers next to a missing cell as floats) is not modelled,
    and no function here computes on cells. *)
Definition is_list (v : value) : bool :=
  match v with
  | VList _ => true
  | _ => false
  end.

Definition is_scalar (v : value) : bool := negb (is_dict v) && negb (is_list v).

Definition DataFrame_of_list (data : list value) : res DataFrame :=
  if forallb is_dict data
  then Ok (mkFrame (RangeIndex (List.length data))
             (map (fun k => (LStr k,
                             ObjCol (map (fun r => match dict_get k (dict_fields r) with
                                                   | Some v => v
                                                   | None => VNull
                                                   end) data)))
                  (union_keys [] data)))
  else if forallb is_scalar data || forallb is_list data
  then Ok (mkFrame (RangeIndex (List.length data)) [(LInt 0, ObjCol data)])
  else Raise (Exn "TypeError" "records and other values cannot be mixed").

Definition column_values (c : column) : list value :=
  match c with
  | ObjCol vals => vals
  | TimeCol a => map (fun t => match t with Some t => VInt t | None => VNull end) (stamps a)
  end.

(** [df[l]] as the list of its cells, for a column that exists. *)
Definition column_cells (l : label) (df : DataFrame) : list value :=
  match get_column l (cols df) with
  | Some c => column_values c
  | None => []
  end.

Definition lift {A} (r : res A) : M A := fun w => (r, w).

(* ================================================================= *)
(** ** _process_timestamp_column *)

(** Lines 93-100: epoch seconds first, any date format second; [None] when
    both raised. *)
Definition normalize_timestamps (E : Env) (cells : list value) : option DatetimeArray :=
  match to_datetime_unit_s E cells with
  | inr dates => Some dates
  | inl _ =>
      match to_datetime E cells with
      | inr dates => Some dates
      | inl _ => None
      end
  end.

(** [df.index.tz_localize(None)] when the index has a time zone. *)
Definition strip_tz (df : DataFrame) : DataFrame :=
  match index df with
  | DatetimeIndex name (mkDatetimeArray ts (Some _)) =>
      mkFrame (DatetimeIndex name (mkDatetimeArray ts None)) (cols df)
  | _ => df
  end.

Definition _process_timestamp_column (E : Env) (df : DataFrame) (pool_name : string)
  : M (option DataFrame) :=
  match normalize_timestamps E (column_cells (LStr "timestamp") df) with
  | None =>
      print ("Could not parse timestamp format for pool " ++ pool_name) ;;
      ret None
  | Some dates =>
      let df := mkFrame (index df) (set_column (LStr "date") (TimeCol dates) (cols df)) in
      df <- lift (set_index (LStr "date") df) ;;
      ret (Some (strip_tz df))
  end.

(* ================================================================= *)
(** ** fetch_pool_chart_data *)

Definition NS_PER_DAY : Z := 86400 * 1000000000.

(** [response.json()] *)
Definition response_json (E : Env) (r : response) : M value :=
  match json r with
  | Some v => ret v
  | None => raise (Exn "JSONDecodeError" (json_error E (text r)))
  end.

(** The range of [datetime]: 0001-01-01 00:00:00 to 9999-12-31
    23:59:59.999999, in nanoseconds since 1970-01-01 00:00. *)
Definition DATETIME_MIN : Z := -62135596800 * 1000000000.
Definition DATETIME_MAX : Z := 253402300799999999 * 1000.

(** The largest number of days a [timedelta] holds. *)
Definition TIMEDELTA_MAX_DAYS : Z := 999999999.

(** [datetime.now() - timedelta(days=days)]: an [OverflowError] when [days]
    is more than a [timedelta] holds, or when the difference leaves the
    range of [datetime]. *)
Definition cutoff_date (E : Env) (days : Z) : res Z :=
  if (days <? - TIMEDELTA_MAX_DAYS) || (TIMEDELTA_MAX_DAYS <? days)
  then Raise (Exn "OverflowError"
                  ("days=" ++ str_int days ++ "; must have magnitude <= 999999999"))
  else
    let t := clock E - days * NS_PER_DAY in
    if (t <? DATETIME_MIN) || (DATETIME_MAX <? t)
    then Raise (Exn "OverflowError" "date value out of range")
    else Ok t.

(** [pool_name or pool_id] *)
Definition display_name_of (pool_id : string) (pool_name : option string) : string :=
  match pool_name with
  | Some (String c s) => String c s
  | _ => pool_id
  end.

Definition chart_url (pool_id : string) : string :=
  API_ENDPOINTS_defi_llama_chart ++ pool_id.

(** Lines 41-46: the request, repeated once after a 429. *)
Definition get_chart_response (E : Env) (display_name url : string) : M response :=
  response <- requests_get E (mkRequest url [] None) ;;
  if status_code response =? 429
  then
    print ("Rate limited for " ++ display_name ++ ", waiting "
           ++ str_int RATE_LIMIT_RETRY_DELAY ++ " seconds...") ;;
    time_sleep (inject_Z RATE_LIMIT_RETRY_DELAY) ;;
    requests_get E (mkRequest url [] None)
  else ret response.

(** Lines 51-52. *)
Definition unwrap_data (data : value) : value :=
  match data with
  | VDict fields => match dict_get "data" fields with
                    | Some inner => inner
                    | None => data
                    end
  | _ => data
  end.

(** Lines 54-72. *)
Definition chart_frame (E : Env) (display_name : string) (days : Z) (data : value)
  : M (option DataFrame) :=
  match data with
  | VList (first :: more) =>
      df <- lift (DataFrame_of_list (first :: more)) ;;
      if has_column (LStr "timestamp") df
      then
        df <- _process_timestamp_column E df display_name ;;
        match df with
        | None => ret None
        | Some df =>
            cutoff <- lift (cutoff_date E days) ;;
            mask <- lift (index_ge (index df) cutoff) ;;
            let df := select_rows mask df in
            print ("Successfully fetched " ++ str_int (Z.of_nat (len df))
                   ++ " data points for " ++ display_name) ;;
            ret (Some df)
        end
      else
        print ("No timestamp found in data for " ++ display_name) ;;
        ret None
  | _ =>
      print ("Unexpected data format for " ++ display_name) ;;
      ret None
  end.

Definition fetch_pool_chart_data (E : Env) (pool_id : string) (pool_name : option string)
                                 (days : Z) : M (option DataFrame) :=
  let display_name := display_name_of pool_id pool_name in
  try_except
    (print ("Fetching data for " ++ display_name ++ "...") ;;
     response <- get_chart_response E display_name (chart_url pool_id) ;;
     if status_code response =? 200
     then
       data <- response_json E response ;;
       chart_frame E display_name days (unwrap_data data)
     else
       print ("Error fetching chart data for " ++ display_name ++ ": "
              ++ str_int (status_code response)) ;;
       ret None)
    (fun e =>
       print ("Error fetching chart data for " ++ display_name ++ ": " ++ exn_str e) ;;
       ret None).

(* ================================================================= *)
(** ** SQLite and [pd.read_sql] *)

Definition set_store (path : string) (s : store_state) (files : string -> store_state)
  : string -> store_state :=
  fun p => if String.eqb p path then s else files p.

(** [sqlite3.connect(path)]; the connection is named by its path. *)
Definition sqlite3_connect (path : string) : M unit :=
  fun w =>
    match fs w path with
    | Unopenable msg =>
        (Raise (Exn "OperationalError" msg),
         mkWorld (stdout w) (trace w ++ [SqlConnect path]) (gets w) (fs w) (open_conns w))
    | Absent =>
        (Ok tt,
         mkWorld (stdout w) (trace w ++ [SqlConnect path]) (gets w)
                 (set_store path (Database []) (fs w)) (path :: open_conns w))
    | _ =>
        (Ok tt,
         mkWorld (stdout w) (trace w ++ [SqlConnect path]) (gets w) (fs w)
                 (path :: open_conns w))
    end.

Fixpoint remove_first (path : string) (l : list string) : list string :=
  match l with
  | [] => []
  | p :: rest => if String.eqb p path then rest else p :: remove_first path rest
  end.

(** [conn.close()] *)
Definition conn_close (path : string) : M unit :=
  fun w =>
    (Ok tt,
     mkWorld (stdout w) (trace w ++ [SqlClose path]) (gets w) (fs w)
             (remove_first path (open_conns w))).

(** The tables a statement on the connection sees. *)
Definition tables_of (path : string) (stmt : string) : M (list (string * sql_table)) :=
  fun w =>
    let w' := emit (SqlExecute stmt) w in
    match fs w path with
    | Database tables => (Ok tables, w')
    | ReadOnly tables => (Ok tables, w')
    | NotADatabase => (Raise (Exn "DatabaseError" "file is not a database"), w')
    | Absent => (Ok [], w')
    | Unopenable msg => (Raise (Exn "OperationalError" msg), w')
    end.

(** Two names of tables are the same to SQLite when they differ in ASCII
    case only. *)
Definition same_table (a b : string) : bool := String.eqb (lower a) (lower b).

(** The table or view a statement finds under [name]. *)
Fixpoint find_table (name : string) (tables : list (string * sql_table)) : option sql_table :=
  match tables with
  | [] => None
  | (n, t) :: rest => if same_table n name then Some t else find_table name rest
  end.

(** [cursor.execute("SELECT name FROM sqlite_master WHERE type='table';")]
    and [cursor.fetchall()], as the list of names: the views are left out. *)
Definition select_table_names (path : string) : M (list string) :=
  tables <- tables_of path "SELECT name FROM sqlite_master WHERE type='table';" ;;
  ret (map fst (filter (fun t => negb (tview (snd t))) tables)).

(** [cursor.execute("PRAGMA table_info(t);")] and [cursor.fetchall()], as
    the name and type of each column; no rows for a table that does not
    exist. *)
Definition pragma_table_info (path : string) (t : string) : M (list (string * string)) :=
  tables <- tables_of path ("PRAGMA table_info(" ++ t ++ ");") ;;
  ret (match find_table t tables with
       | Some tbl => tcols tbl
       | None => []
       end).

(** The frame of a result set: one object column per table column. *)
Definition frame_of_table (t : sql_table) : DataFrame :=
  mkFrame (RangeIndex (List.length (trows t)))
          (map (fun ic => (LStr (fst (snd ic)),
                           ObjCol (map (fun row => nth (fst ic) row VNull) (trows t))))
               (combine (seq 0 (List.length (tcols t))) (tcols t))).

(** [pd.read_sql('SELECT * FROM t', conn, index_col=...)] *)
Definition read_sql (path : string) (t : string) (index_col : option string) : M DataFrame :=
  tables <- tables_of path ("SELECT * FROM " ++ t) ;;
  match find_table t tables with
  | None => raise (Exn "DatabaseError"
                       ("Execution failed on sql 'SELECT * FROM " ++ t ++ "': no such table: " ++ t))
  | Some tbl =>
      match index_col with
      | Some c => lift (set_index (LStr c) (frame_of_table tbl))
      | None => ret (frame_of_table tbl)
      end
  end.

(* ================================================================= *)
(** ** load_data_from_db *)

(** [sub in s] *)
Fixpoint contains (sub s : string) : bool :=
  if prefix sub s then true
  else match s with
       | EmptyString => false
       | String _ rest => contains sub rest
       end.

Definition index_cells (ix : Index) : list value :=
  match ix with
  | RangeIndex n => map (fun i => VInt (Z.of_nat i)) (seq 0 n)
  | ObjIndex _ vals => vals
  | DatetimeIndex _ a => column_values (TimeCol a)
  end.

Definition index_name (ix : Index) : option label :=
  match ix with
  | RangeIndex _ => None
  | ObjIndex name _ => name
  | DatetimeIndex name _ => name
  end.

(** [isinstance(ix, pd.DatetimeIndex)] *)
Definition is_DatetimeIndex (ix : Index) : bool :=
  match ix with DatetimeIndex _ _ => true | _ => false end.

Section LoadDataFromDb.
Variable E : Env.
Variable db_filename : string.

(** Lines 129-147: the two reads of [pool_data].  [None] stands for the
    [return None, None] of the inner handler. *)
Definition read_pool_data : M (option DataFrame) :=
  try_except
    (merged_df <- read_sql db_filename "pool_data" (Some "index") ;;
     ret (Some merged_df))
    (fun _ =>
       try_except
         (merged_df <- read_sql db_filename "pool_data" None ;;
          match columns merged_df with
          | LStr first_col :: _ =>
              if contains "date" (lower first_col) || contains "time" (lower first_col)
              then merged_df <- lift (set_index (LStr first_col) merged_df) ;; ret (Some merged_df)
              else merged_df <- lift (set_index (LStr first_col) merged_df) ;; ret (Some merged_df)
          | LInt _ :: _ => raise (Exn "AttributeError" "'int' object has no attribute 'lower'")
          | [] => ret (Some merged_df)
          end)
         (fun e =>
            print ("Error reading pool_data table: " ++ exn_str e) ;;
            table_info <- pragma_table_info db_filename "pool_data" ;;
            print "Pool_data table structure:" ;;
            for_each table_info
              (fun col => print ("  " ++ fst col ++ " (" ++ snd col ++ ")") ;; ret (@Next unit))
              (ret tt) ;;
            ret None)).

(** Lines 149-154. *)
Definition coerce_index (merged_df : DataFrame) : M DataFrame :=
  if negb (is_DatetimeIndex (index merged_df))
  then
    match to_datetime E (index_cells (index merged_df)) with
    | inr a => ret (mkFrame (DatetimeIndex (index_name (index merged_df)) a) (cols merged_df))
    | inl _ => print "Warning: Could not convert index to datetime" ;; ret merged_df
    end
  else ret merged_df.

Definition load_data_from_db : M (option DataFrame * option DataFrame) :=
  try_except
    (print ("Loading data from " ++ db_filename ++ "...") ;;
     sqlite3_connect db_filename ;;
     tables <- select_table_names db_filename ;;
     print ("Tables in database: " ++ repr_str_list tables) ;;
     merged_df <- read_pool_data ;;
     match merged_df with
     | None => ret (None, None)
     | Some merged_df =>
         merged_df <- coerce_index merged_df ;;
         metadata_df <- try_except
                          (read_sql db_filename "pool_metadata" None)
                          (fun e =>
                             print ("Error reading pool_metadata table: " ++ exn_str e) ;;
                             ret (mkFrame (RangeIndex 0) [])) ;;
         conn_close db_filename ;;
         print ("Successfully loaded data for " ++ str_int (Z.of_nat (len metadata_df))
                ++ " pools") ;;
         ret (Some merged_df, Some metadata_df)
     end)
    (fun e =>
       print ("Error loading data from database: " ++ exn_str e) ;;
       ret (None, None)).
End LoadDataFromDb.

(* ================================================================= *)
(** ** validate_dataframe *)

Definition validate_dataframe (df : option DataFrame) (required_columns : option (list label))
  : M bool :=
  match df with
  | None => ret false
  | Some df =>
      if empty df then ret false
      else
        match required_columns with
        | Some (c :: cs) =>
            let missing_cols := filter (fun col => negb (has_column col df)) (c :: cs) in
            match missing_cols with
            | _ :: _ =>
                print ("Missing required columns: [" ++ join ", " (map repr_label missing_cols) ++ "]") ;;
                ret false
            | [] => ret true
            end
        | _ => ret true
        end
  end.

(* ================================================================= *)
(** ** Vocabulary for traces of the requester *)

Definition is_get (e : event) : bool :=
  match e with HttpGet _ _ => true | _ => false end.

(** Number of requests in a stretch of trace. *)
Definition count_gets (l : list event) : nat := List.length (filter is_get l).

(** A stretch of trace without requests. *)
Definition no_gets (l : list event) : Prop := forall e, In e l -> is_get e = false.

(** The headers [safe_api_request] attaches for a key. *)
Definition headers_for (api_key : option string) : list (string * string) :=
  if truthy_str api_key
  then [("x-cg-pro-api-key", match api_key with Some k => k | None => "" end)]
  else [].


(** The first attempt whose pacing sleep [time.sleep] refuses:
    [3 * 3074457346] seconds are more than [SLEEP_MAX]. *)
Definition PACING_ATTEMPTS : Z := 3074457346.

(** The first attempt whose backoff [time.sleep] refuses: [5 * 2 ^ 31]
    seconds are more than [SLEEP_MAX]. *)
Definition BACKOFF_ATTEMPTS : Z := 31.

(** The attempts that get as far as their request: on the secondary
    provider an attempt whose pacing sleep is refused ends in the handler
    before it has sent anything. *)
Definition request_budget (is_coingecko : bool) (max_retries : Z) : Z :=
  if is_coingecko then Z.min max_retries PACING_ATTEMPTS else max_retries.

(** The same for the iterations [k .. k+n-1]: how many of them get as far
    as their request (zero when the number is not positive). *)
Definition remaining_budget (is_coingecko : bool) (k n : nat) : Z :=
  if is_coingecko
  then Z.min (Z.of_nat (k + n)) PACING_ATTEMPTS - Z.of_nat k
  else Z.of_nat n.

(** Attempt [k] gets as far as its request. *)
Definition paced (is_coingecko : bool) (k : nat) : Prop :=
  is_coingecko = true -> Z.of_nat k < PACING_ATTEMPTS.

(** The sleep before the request of attempt [k]. *)
Definition pacing (is_coingecko : bool) (k : nat) : list event :=
  if is_coingecko && (0 <? Z.of_nat k) then [Sleep (inject_Z (3 * Z.of_nat k))] else [].

(** The sleep of the handler of attempt [k]. *)
Definition fault_delay (max_retries : Z) (k : nat) : list event :=
  if Z.of_nat k <? max_retries - 1 then [Sleep RATE_LIMIT_DELAY] else [].

Definition cooldown (is_coingecko : bool) : list event :=
  if is_coingecko then [Sleep COINGECKO_FREE_TIER_DELAY] else [].

(** [attempts_run k n g r T]: the iterations [k .. k+n-1], started when [g]
    requests have been made, return [r] and add [T] to the trace.  An
    attempt ends in the handler when its request raises, and also when one
    of its sleeps is refused: the pacing sleep before the request
    ([run_unpaced]) or the backoff after a 429 ([run_backoff_refused]). *)
Inductive attempts_run (E : Env) (req : request) (is_coingecko : bool) (max_retries : Z)
  : nat -> nat -> nat -> option response -> list event -> Prop :=
| run_exhausted k g :
    attempts_run E req is_coingecko max_retries k 0 g None []
| run_unpaced k n g r T :
    is_coingecko = true ->
    PACING_ATTEMPTS <= Z.of_nat k ->
    attempts_run E req is_coingecko max_retries (S k) n g r T ->
    attempts_run E req is_coingecko max_retries k (S n) g r
      (fault_delay max_retries k ++ T)
| run_rate_limited k n g resp r T :
    paced is_coingecko k ->
    network E g req = Ok resp ->
    status_code resp = 429 ->
    Z.of_nat k < BACKOFF_ATTEMPTS ->
    attempts_run E req is_coingecko max_retries (S k) n (S g) r T ->
    attempts_run E req is_coingecko max_retries k (S n) g r
      (pacing is_coingecko k
       ++ HttpGet req (Ok resp)
       :: Sleep (inject_Z (RATE_LIMIT_RETRY_DELAY * 2 ^ Z.of_nat k)) :: T)
| run_backoff_refused k n g resp r T :
    paced is_coingecko k ->
    network E g req = Ok resp ->
    status_code resp = 429 ->
    BACKOFF_ATTEMPTS <= Z.of_nat k ->
    attempts_run E req is_coingecko max_retries (S k) n (S g) r T ->
    attempts_run E req is_coingecko max_retries k (S n) g r
      (pacing is_coingecko k ++ HttpGet req (Ok resp) :: fault_delay max_retries k ++ T)
| run_fault k n g e r T :
    paced is_coingecko k ->
    network E g req = Raise e ->
    attempts_run E req is_coingecko max_retries (S k) n (S g) r T ->
    attempts_run E req is_coingecko max_retries k (S n) g r
      (pacing is_coingecko k ++ HttpGet req (Raise e) :: fault_delay max_retries k ++ T)
| run_response k n g resp :
    paced is_coingecko k ->
    network E g req = Ok resp ->
    status_code resp <> 429 ->
    attempts_run E req is_coingecko max_retries k (S n) g (Some resp)
      (pacing is_coingecko k ++ HttpGet req (Ok resp) :: cooldown is_coingecko).

(* ================================================================= *)
(** ** Worlds and environments for worked examples *)

Definition no_files : string -> store_state := fun _ => Absent.

(** A run that has printed, requested and opened nothing yet. *)
Definition fresh_world (files : string -> store_state) : world :=
  mkWorld [] [] 0 files [].

(** A network that gives the listed answers in turn and is unreachable
    afterwards. *)
Definition canned_network (answers : list (res response)) : nat -> request -> res response :=
  fun n _ => nth n answers (Raise (Exn "ConnectionError" "Connection refused")).

(** A stand-in for [pd.to_datetime] that converts integer cells only, [scale]
    nanoseconds to the unit; an empty cell becomes [NaT]. *)
Fixpoint numeric_stamps (scale : Z) (cells : list value) : option (list (option Z)) :=
  match cells with
  | [] => Some []
  | VInt z :: rest => option_map (cons (Some (z * scale))) (numeric_stamps scale rest)
  | VNull :: rest => option_map (cons None) (numeric_stamps scale rest)
  | _ => None
  end.

Definition numeric_to_datetime (scale : Z) (cells : list value) : parse_error + DatetimeArray :=
  match numeric_stamps scale cells with
  | Some ts => inr (mkDatetimeArray ts None)
  | None => inl (ParseValueError "non convertible value")
  end.

(** An environment for worked examples.  Its decoder message is the one for
    a body that is no JSON from its first character on. *)
Definition example_env (answers : list (res response)) (now : Z) : Env :=
  mkEnv (canned_network answers) now
        (numeric_to_datetime 1000000000) (numeric_to_datetime 1)
        (fun _ => "Expecting value: line 1 column 1 (char 0)").

(** The sleeps of a trace, in order. *)
Definition sleeps (tr : list event) : list Q :=
  flat_map (fun e => match e with Sleep d => [d] | _ => [] end) tr.

Definition rate_limited_response : response := mkResponse 429 "Too Many Requests" None.

Definition pong_response : response :=
  mkResponse 200 "{}" (Some (VDict [])).

(* ================================================================= *)
(** ** Vocabulary for the chart-data fetch *)

(** The response [get_chart_response] ends up with when [g] requests have
    been made before: the first answer, or the second one when the first
    was a 429. *)
Definition answered (E : Env) (url : string) (g : nat) (resp : response) : Prop :=
  (network E g (mkRequest url [] None) = Ok resp /\ status_code resp <> 429)
  \/ (exists limited,
        network E g (mkRequest url [] None) = Ok limited
        /\ status_code limited = 429
        /\ network E (S g) (mkRequest url [] None) = Ok resp).

(** A successful answer whose body is the list [records], bare or wrapped
    in an object under [data]. *)
Definition serves_records (E : Env) (url : string) (g : nat) (records : list value) : Prop :=
  exists resp body,
    answered E url g resp
    /\ status_code resp = 200
    /\ json resp = Some body
    /\ unwrap_data body = VList records.

(** The entries of the index of a frame, for a datetime index. *)
Definition index_stamps (df : DataFrame) : list (option Z) :=
  match index df with
  | DatetimeIndex _ a => stamps a
  | _ => []
  end.

(** Strictly increasing dates, none missing. *)
Fixpoint strictly_increasing (ts : list (option Z)) : bool :=
  match ts with
  | Some a :: ((Some b :: _) as rest) => (a <? b) && strictly_increasing rest
  | [Some _] => true
  | [] => true
  | _ => false
  end.

(** Every date lies in [[lo, hi]]. *)
Definition all_within (lo hi : Z) (ts : list (option Z)) : bool :=
  forallb (fun t => match t with
                    | Some t => (lo <=? t) && (t <=? hi)
                    | None => false
                    end) ts.

(** Three chart records as the provider may send them: the first is dated
    after the other two, which share a date. *)
Definition unordered_records : list value :=
  [VDict [("timestamp", VInt 1700086400); ("tvlUsd", VInt 1200); ("apy", VFloat 5 (-1))];
   VDict [("timestamp", VInt 1699920000); ("tvlUsd", VInt 1100); ("apy", VFloat 7 (-1))];
   VDict [("timestamp", VInt 1699920000); ("tvlUsd", VInt 1000); ("apy", VFloat 3 (-1))]].

(** Records whose timestamps are neither numbers nor dates. *)
Definition unparseable_records : list value :=
  [VDict [("timestamp", VStr "yesterday-ish"); ("apy", VFloat 5 (-1))]].

Definition chart_response (records : list value) : response :=
  mkResponse 200 "" (Some (VDict [("status", VStr "success"); ("data", VList records)])).

(** The frame [_process_timestamp_column] makes of [df] and the dates it
    parsed: the dates, without time zone, as the index [date]; the columns
    of [df] except a column [date]. *)
Definition dated (df : DataFrame) (dates : DatetimeArray) : DataFrame :=
  mkFrame (DatetimeIndex (Some (LStr "date")) (mkDatetimeArray (stamps dates) None))
          (drop_column (LStr "date") (cols df)).

(** Both interpretations of the timestamp column fail. *)
Definition both_fail (E : Env) (cells : list value) : Prop :=
  exists e1 e2, to_datetime_unit_s E cells = inl e1 /\ to_datetime E cells = inl e2.

Definition frame_of_records (records : list value) : DataFrame :=
  match DataFrame_of_list records with
  | Ok df => df
  | Raise _ => mkFrame (RangeIndex 0) []
  end.

(** A clock reading: 2023-11-14 22:13:20, in nanoseconds. *)
Definition example_now : Z := 1700000000 * 1000000000.

(* ================================================================= *)
(** ** What the cache reader returns, as a function of the store *)

(** The store as a connection leaves it: a missing file has become an empty
    database. *)
Definition opened (s : store_state) : store_state :=
  match s with
  | Absent => Database []
  | _ => s
  end.

(** The tables and views a statement sees in an opened store. *)
Definition readable (s : store_state) : option (list (string * sql_table)) :=
  match s with
  | Database tables => Some tables
  | ReadOnly tables => Some tables
  | Absent => Some []
  | _ => None
  end.

(** The reads of [pool_data] in a stretch of trace. *)
Definition pool_data_reads (tr : list event) : nat :=
  List.length (filter (fun e => match e with
                                | SqlExecute stmt => String.eqb stmt "SELECT * FROM pool_data"
                                | _ => false
                                end) tr).

Definition promote_first (f : DataFrame) : option DataFrame :=
  match columns f with
  | LStr c :: _ => match set_index (LStr c) f with
                   | Ok m => Some m
                   | Raise _ => None
                   end
  | LInt _ :: _ => None
  | [] => Some f
  end.

Definition read_result (tables : list (string * sql_table)) : option DataFrame :=
  match find_table "pool_data" tables with
  | None => None
  | Some tbl =>
      match set_index (LStr "index") (frame_of_table tbl) with
      | Ok m => Some m
      | Raise _ => promote_first (frame_of_table tbl)
      end
  end.

Definition coerced (E : Env) (m : DataFrame) : DataFrame :=
  if is_DatetimeIndex (index m) then m
  else match to_datetime E (index_cells (index m)) with
       | inr a => mkFrame (DatetimeIndex (index_name (index m)) a) (cols m)
       | inl _ => m
       end.

Definition metadata_of (tables : list (string * sql_table)) : DataFrame :=
  match find_table "pool_metadata" tables with
  | Some t => frame_of_table t
  | None => mkFrame (RangeIndex 0) []
  end.

Definition load_result (E : Env) (tables : list (string * sql_table))
  : option DataFrame * option DataFrame :=
  match read_result tables with
  | None => (None, None)
  | Some m => (Some (coerced E m), Some (metadata_of tables))
  end.

Definition load_outcome (E : Env) (s : store_state) : option DataFrame * option DataFrame :=
  match s with
  | Database tables => load_result E tables
  | ReadOnly tables => load_result E tables
  | Absent => load_result E []
  | _ => (None, None)
  end.

(** The columns asked of [validate_dataframe]: none when the argument is
    [None] or empty. *)
Definition required_of (required_columns : option (list label)) : list label :=
  match required_columns with
  | Some cs => cs
  | None => []
  end.

(** A cache as a refresh leaves it: [pool_data] with the date index in the
    column [index], and [pool_metadata]. *)
Definition refreshed_cache : list (string * sql_table) :=
  [("pool_data",
    mkTable [("index", "TIMESTAMP"); ("0", "REAL"); ("1", "REAL")]
            [[VInt 1699920000000000000; VFloat 5 (-1); VFloat 7 (-2)];
             [VInt 1700006400000000000; VFloat 3 (-1); VFloat 9 (-2)]] false);
   ("pool_metadata",
    mkTable [("index", "INTEGER"); ("name", "TEXT")]
            [[VInt 0; VStr "Ethena sUSDe"]; [VInt 1; VStr "Maple USDC"]] false)].

(** A cache whose [pool_data] keeps its dates in a first column [date] and
    has no column [index]. *)
Definition dated_cache : list (string * sql_table) :=
  [("pool_data",
    mkTable [("date", "INTEGER"); ("0", "REAL")]
            [[VInt 1699920000000000000; VFloat 5 (-1)]] false)].

(** A cache whose [pool_data] has the column [index] behind a first column
    [date]. *)
Definition reordered_cache : list (string * sql_table) :=
  [("pool_data",
    mkTable [("date", "TEXT"); ("index", "INTEGER"); ("0", "REAL")]
            [[VStr "2023-11-14"; VInt 0; VFloat 5 (-1)];
             [VStr "2023-11-15"; VInt 1; VFloat 3 (-1)]] false)].

Definition with_store (s : store_state) : string -> store_state :=
  set_store DEFAULT_DB_FILENAME s no_files.

(* ================================================================= *)
(** ** purge_database *)

(** The tables left when the table [name] is dropped, names compared as
    [find_table] compares them. *)
Definition drop_table (name : string) (tables : list (string * sql_table))
  : list (string * sql_table) :=
  filter (fun t => negb (same_table (fst t) name)) tables.

(** What [DROP TABLE IF EXISTS name] makes of the tables of a database that
    may be written: nothing to do when nothing has the name, an error when a
    view has it. *)
Definition dropped (name : string) (tables : list (string * sql_table))
  : res (list (string * sql_table)) :=
  match find_table name tables with
  | None => Ok tables
  | Some t =>
      if tview t
      then Raise (Exn "OperationalError" ("use DROP VIEW to delete view " ++ name))
      else Ok (drop_table name tables)
  end.

Definition readonly_error : exn :=
  Exn "OperationalError" "attempt to write a readonly database".

(** [cursor.execute("DROP TABLE IF EXISTS name")]: no transaction is open, so
    the statement takes effect at once.  On a file that may only be read the
    statement raises as soon as there is a table to drop. *)
Definition drop_table_if_exists (path name : string) : M unit :=
  fun w =>
    let w' := emit (SqlExecute ("DROP TABLE IF EXISTS " ++ name)) w in
    match fs w path with
    | Database tables =>
        match dropped name tables with
        | Ok tables' =>
            (Ok tt,
             mkWorld (stdout w') (trace w') (gets w')
                     (set_store path (Database tables') (fs w'))
                     (open_conns w'))
        | Raise e => (Raise e, w')
        end
    | ReadOnly tables =>
        match dropped name tables with
        | Ok _ =>
            match find_table name tables with
            | Some _ => (Raise readonly_error, w')
            | None => (Ok tt, w')
            end
        | Raise e => (Raise e, w')
        end
    | Absent => (Ok tt, w')
    | NotADatabase => (Raise (Exn "DatabaseError" "file is not a database"), w')
    | Unopenable msg => (Raise (Exn "OperationalError" msg), w')
    end.

(** [cursor.execute("VACUUM")]: the tables stay as they are; the file is
    rewritten, which a file that may only be read refuses. *)
Definition vacuum (path : string) : M unit :=
  fun w =>
    let w' := emit (SqlExecute "VACUUM") w in
    match fs w path with
    | Database _ => (Ok tt, w')
    | Absent => (Ok tt, w')
    | ReadOnly _ => (Raise readonly_error, w')
    | NotADatabase => (Raise (Exn "DatabaseError" "file is not a database"), w')
    | Unopenable msg => (Raise (Exn "OperationalError" msg), w')
    end.

(** [conn.commit()] with no transaction open. *)
Definition conn_commit (path : string) : M unit := ret tt.

Definition purge_database (db_filename : string) : M unit :=
  print ("Purging existing database: " ++ db_filename) ;;
  try_except
    (sqlite3_connect db_filename ;;
     drop_table_if_exists db_filename "pool_data" ;;
     drop_table_if_exists db_filename "pool_metadata" ;;
     vacuum db_filename ;;
     conn_commit db_filename ;;
     conn_close db_filename ;;
     print "Database purged successfully")
    (fun e => print ("Warning: Could not purge database: " ++ exn_str e)).

(* ================================================================= *)
(** ** More vocabulary for traces and answers *)

(** The seconds slept in a stretch of trace. *)
Fixpoint total_sleep (tr : list event) : Q :=
  match tr with
  | [] => 0
  | Sleep d :: rest => d + total_sleep rest
  | _ :: rest => total_sleep rest
  end.

(** The request [fetch_pool_chart_data] sends for a pool. *)
Definition chart_request (pool_id : string) : request :=
  mkRequest (chart_url pool_id) [] None.

(** [get_chart_response] ends in the exception [e] when [g] requests have
    been made before: the first request raises it, or the first is answered
    429 and the second raises it. *)
Definition request_failed (E : Env) (url : string) (g : nat) (e : exn) : Prop :=
  network E g (mkRequest url [] None) = Raise e
  \/ (exists limited,
        network E g (mkRequest url [] None) = Ok limited
        /\ status_code limited = 429
        /\ network E (S g) (mkRequest url [] None) = Raise e).

(** A body that is not a list with at least one element, once unwrapped. *)
Definition no_records (data : value) : Prop :=
  match unwrap_data data with
  | VList (_ :: _) => False
  | _ => True
  end.

(** The last line printed. *)
Definition last_line (w : world) : option string :=
  match rev (stdout w) with
  | [] => None
  | line :: _ => Some line
  end.


(** A cache without [pool_metadata], its table created under a name in
    capitals. *)
Definition cache_without_metadata : list (string * sql_table) :=
  [("POOL_DATA",
    mkTable [("index", "INTEGER"); ("0", "REAL")]
            [[VInt 1699920000000000000; VFloat 5 (-1)];
             [VInt 1700006400000000000; VFloat 3 (-1)]] false)].

(** A cache whose [pool_data] is indexed by labels that are no dates, behind
    a first column that is not named [index]. *)
Definition labelled_cache : list (string * sql_table) :=
  [("pool_data",
    mkTable [("row", "TEXT"); ("0", "REAL")]
            [[VStr "row-one"; VFloat 5 (-1)];
             [VStr "row-two"; VFloat 3 (-1)]] false)].

(** A cache whose [pool_data] is a view. *)
Definition viewed_cache : list (string * sql_table) :=
  [("pool_data",
    mkTable [("index", "INTEGER"); ("0", "REAL")]
            [[VInt 1699920000000000000; VFloat 5 (-1)]] true)].

(** A computation that prints at most: it sleeps, requests and touches the
    store not at all. *)
Definition quiet {A} (m : M A) : Prop :=
  forall w,
    trace (snd (m w)) = trace w
    /\ gets (snd (m w)) = gets w
    /\ fs (snd (m w)) = fs w
    /\ open_conns (snd (m w)) = open_conns w.

(** Chart records without a timestamp field. *)
Definition undated_records : list value :=
  [VDict [("tvlUsd", VInt 1200); ("apy", VFloat 5 (-1))]].

(** The message SQLite gives for a store it cannot read, if any. *)
Definition unreadable (s : store_state) : option string :=
  match s with
  | Unopenable msg => Some msg
  | NotADatabase => Some "file is not a database"
  | _ => None
  end.

(** The tables as the two [DROP TABLE] statements of [purge_database] leave
    them, and whether both went through. *)
Definition purged_tables (tables : list (string * sql_table))
  : list (string * sql_table) * bool :=
  match dropped "pool_data" tables with
  | Raise _ => (tables, false)
  | Ok tables1 =>
      match dropped "pool_metadata" tables1 with
      | Raise _ => (tables1, false)
      | Ok tables2 => (tables2, true)
      end
  end.

(** The store as [purge_database] leaves it. *)
Definition purged (s : store_state) : store_state :=
  match s with
  | Database tables => Database (fst (purged_tables tables))
  | Absent => Database []
  | _ => s
  end.

(** [purge_database] gets through all of its statements. *)
Definition purge_succeeds (s : store_state) : bool :=
  match s with
  | Database tables => snd (purged_tables tables)
  | Absent => true
  | _ => false
  end.

(* ================================================================= *)
(** * Properties *)

(** ** The requester follows [attempts_run] *)

(** ** What [time.sleep] takes *)

Lemma fits_inject_Z (z : Z) :
  Qle_bool (inject_Z z) SLEEP_MAX = (z <=? 9223372036).
Proof.
  unfold Qle_bool, inject_Z, SLEEP_MAX. cbn [Qnum Qden].
  destruct (z <=? 9223372036) eqn:H.
  - apply Z.leb_le in H. apply Z.leb_le. lia.
  - apply Z.leb_gt in H. apply Z.leb_gt. lia.
Qed.

Lemma nonneg_inject_Z (z : Z) : 0 <= z -> Qle_bool 0 (inject_Z z) = true.
Proof.
  intros H. unfold Qle_bool, inject_Z. cbn [Qnum Qden]. apply Z.leb_le. lia.
Qed.

Lemma pacing_fits (k : nat) :
  Qle_bool (inject_Z (3 * Z.of_nat k)) SLEEP_MAX = (Z.of_nat k <? PACING_ATTEMPTS).
Proof.
  rewrite fits_inject_Z. unfold PACING_ATTEMPTS.
  destruct (Z.of_nat k <? 3074457346) eqn:H.
  - apply Z.ltb_lt in H. apply Z.leb_le. lia.
  - apply Z.ltb_ge in H. apply Z.leb_gt. lia.
Qed.

Lemma backoff_fits (k : nat) :
  Qle_bool (inject_Z (RATE_LIMIT_RETRY_DELAY * 2 ^ Z.of_nat k)) SLEEP_MAX
  = (Z.of_nat k <? BACKOFF_ATTEMPTS).
Proof.
  rewrite fits_inject_Z. unfold BACKOFF_ATTEMPTS, RATE_LIMIT_RETRY_DELAY.
  destruct (Z.of_nat k <? 31) eqn:H.
  - apply Z.ltb_lt in H. apply Z.leb_le.
    assert (2 ^ Z.of_nat k <= 2 ^ 30) by (apply Z.pow_le_mono_r; lia).
    change (2 ^ 30) with 1073741824 in *. lia.
  - apply Z.ltb_ge in H. apply Z.leb_gt.
    assert (2 ^ 31 <= 2 ^ Z.of_nat k) by (apply Z.pow_le_mono_r; lia).
    change (2 ^ 31) with 2147483648 in *. lia.
Qed.

Lemma pacing_nonneg (k : nat) : Qle_bool 0 (inject_Z (3 * Z.of_nat k)) = true.
Proof. apply nonneg_inject_Z. lia. Qed.

Lemma backoff_nonneg (k : nat) :
  Qle_bool 0 (inject_Z (RATE_LIMIT_RETRY_DELAY * 2 ^ Z.of_nat k)) = true.
Proof.
  apply nonneg_inject_Z. unfold RATE_LIMIT_RETRY_DELAY.
  assert (0 <= 2 ^ Z.of_nat k) by (apply Z.pow_nonneg; lia). lia.
Qed.

Lemma time_sleep_fits (d : Q) (w : world) :
  Qle_bool d SLEEP_MAX = true -> Qle_bool 0 d = true ->
  time_sleep d w = (Ok tt, emit (Sleep d) w).
Proof.
  intros H1 H2. unfold time_sleep. now rewrite H1, H2.
Qed.

Lemma time_sleep_refused (d : Q) (w : world) :
  Qle_bool d SLEEP_MAX = false ->
  exists e, time_sleep d w = (Raise e, w).
Proof.
  intros H. unfold time_sleep. rewrite H. eexists. reflexivity.
Qed.

Ltac step_props :=
  repeat match goal with
         | H : (_ <? _) = true |- _ => apply Z.ltb_lt in H
         | H : (_ <? _) = false |- _ => apply Z.ltb_ge in H
         | H : (_ =? _) = true |- _ => apply Z.eqb_eq in H
         | H : (_ =? _) = false |- _ => apply Z.eqb_neq in H
         | H : _ && _ = true |- _ => apply andb_true_iff in H; destruct H
         | H : _ && _ = false |- _ => apply andb_false_iff in H
         end.

Ltac step_facts :=
  repeat split;
  try (intros; unfold PACING_ATTEMPTS, BACKOFF_ATTEMPTS in *;
       first [ reflexivity | assumption | lia | discriminate | congruence
             | intuition (first [lia | discriminate | congruence])
             | rewrite <- ?app_assoc; reflexivity
             | rewrite ?app_nil_r; reflexivity ]).

Section SafeApiRequestRuns.
Variable E : Env.
Variables (url : string) (max_retries : Z) (is_coingecko : bool)
          (api_key : option string) (params : option (list (string * string))).

Let req := mkRequest url (headers_for api_key) params.
Let body := attempt_body E url max_retries is_coingecko api_key params.

(** One iteration, by what its sleeps and its request meet. *)
Lemma attempt_body_step (k : nat) (w : world) :
  exists f w',
    body (Z.of_nat k) w = (Ok f, w')
    /\ fs w' = fs w
    /\ open_conns w' = open_conns w
    /\ ((is_coingecko = true /\ PACING_ATTEMPTS <= Z.of_nat k
         /\ f = Next /\ gets w' = gets w
         /\ trace w' = trace w ++ fault_delay max_retries k)
        \/ (paced is_coingecko k /\ gets w' = S (gets w)
            /\ ((exists resp,
                   network E (gets w) req = Ok resp /\ status_code resp = 429
                   /\ Z.of_nat k < BACKOFF_ATTEMPTS /\ f = Next
                   /\ trace w' = trace w ++ pacing is_coingecko k
                        ++ HttpGet req (Ok resp)
                        :: [Sleep (inject_Z (RATE_LIMIT_RETRY_DELAY * 2 ^ Z.of_nat k))])
                \/ (exists resp,
                      network E (gets w) req = Ok resp /\ status_code resp = 429
                      /\ BACKOFF_ATTEMPTS <= Z.of_nat k /\ f = Next
                      /\ trace w' = trace w ++ pacing is_coingecko k
                           ++ HttpGet req (Ok resp) :: fault_delay max_retries k)
                \/ (exists e,
                      network E (gets w) req = Raise e /\ f = Next
                      /\ trace w' = trace w ++ pacing is_coingecko k
                           ++ HttpGet req (Raise e) :: fault_delay max_retries k)
                \/ (exists resp,
                      network E (gets w) req = Ok resp /\ status_code resp <> 429
                      /\ f = Return (Some resp)
                      /\ trace w' = trace w ++ pacing is_coingecko k
                           ++ HttpGet req (Ok resp) :: cooldown is_coingecko)))).
Proof.
  destruct w as [out tr g files conns].
  unfold body, req, headers_for, pacing, fault_delay, cooldown, paced.
  cbv beta iota zeta delta
    [attempt_body attempt_try attempt_except try_except bind ret when print say
     time_sleep requests_get emit stdout trace gets fs open_conns].
  rewrite ?pacing_fits, ?pacing_nonneg, ?backoff_fits, ?backoff_nonneg.
  change (Qle_bool RATE_LIMIT_DELAY SLEEP_MAX) with true.
  change (Qle_bool 0 RATE_LIMIT_DELAY) with true.
  change (Qle_bool COINGECKO_FREE_TIER_DELAY SLEEP_MAX) with true.
  change (Qle_bool 0 COINGECKO_FREE_TIER_DELAY) with true.
  destruct (is_coingecko && (0 <? Z.of_nat k)) eqn:Hp;
    [destruct (Z.of_nat k <? PACING_ATTEMPTS) eqn:Hpace |];
    cbv beta iota zeta delta [negb stdout trace gets fs open_conns].
  all: destruct (truthy_str api_key) eqn:Hk;
    cbv beta iota zeta delta [negb stdout trace gets fs open_conns].
  all: try (destruct (network E g _) as [resp | e] eqn:Hn;
            cbv beta iota zeta delta [stdout trace gets fs open_conns negb]).
  all: try (destruct (status_code resp =? 200) eqn:H200;
            cbv beta iota zeta delta [stdout trace gets fs open_conns negb]).
  all: try (destruct (status_code resp =? 429) eqn:H429;
            cbv beta iota zeta delta [stdout trace gets fs open_conns negb]).
  all: try (destruct (Z.of_nat k <? BACKOFF_ATTEMPTS) eqn:Hback;
            cbv beta iota zeta delta [stdout trace gets fs open_conns negb]).
  all: try (destruct is_coingecko;
            cbv beta iota zeta delta [stdout trace gets fs open_conns negb]).
  all: try (destruct (Z.of_nat k <? max_retries - 1) eqn:Hlast;
            cbv beta iota zeta delta [stdout trace gets fs open_conns negb]).
  all: cbv beta iota zeta delta [negb stdout trace gets fs open_conns].
  all: step_props.
  all: do 2 eexists; split; [reflexivity |]; split; [reflexivity |]; split; [reflexivity |].
  all: first
    [ solve [left; step_facts]
    | solve [right; split; [step_facts | split; [reflexivity |]]; left; eexists; step_facts]
    | solve [right; split; [step_facts | split; [reflexivity |]]; right; left; eexists; step_facts]
    | solve [right; split; [step_facts | split; [reflexivity |]]; right; right; left; eexists; step_facts]
    | solve [right; split; [step_facts | split; [reflexivity |]]; right; right; right; eexists; step_facts]
    ].

Qed.

Lemma attempts_follow_run (n : nat) :
  forall (k : nat) (w : world),
  exists r T w',
    for_each (map Z.of_nat (seq k n)) body (ret None) w = (Ok r, w')
    /\ trace w' = trace w ++ T
    /\ fs w' = fs w
    /\ open_conns w' = open_conns w
    /\ attempts_run E req is_coingecko max_retries k n (gets w) r T.
Proof.
  induction n as [| n IH]; intros k w.
  - exists None, [], w. cbn. rewrite app_nil_r.
    repeat split. constructor.
  - destruct (attempt_body_step k w) as (f & w1 & Hrun & Hfs & Hoc & Hout).
    cbn [seq map for_each]. unfold bind at 1. rewrite Hrun.
    destruct Hout as [(Hcg & Hp & -> & Hg & Htr)
                     | (Hpaced & Hg & [(resp & Hnet & H429 & Hb & -> & Htr)
                                      | [(resp & Hnet & H429 & Hb & -> & Htr)
                                        | [(e & Hnet & -> & Htr)
                                          | (resp & Hnet & H429 & -> & Htr)]]])].
    + destruct (IH (S k) w1) as (r & T & w2 & Hloop & Htr2 & Hfs2 & Hoc2 & Hruns).
      exists r, (fault_delay max_retries k ++ T), w2.
      rewrite Hloop, Htr2, Htr, Hfs2, Hoc2, Hfs, Hoc. rewrite Hg in Hruns.
      repeat split.
      * rewrite <- !app_assoc. reflexivity.
      * apply run_unpaced; auto.
    + destruct (IH (S k) w1) as (r & T & w2 & Hloop & Htr2 & Hfs2 & Hoc2 & Hruns).
      exists r, (pacing is_coingecko k ++ HttpGet req (Ok resp)
                 :: Sleep (inject_Z (RATE_LIMIT_RETRY_DELAY * 2 ^ Z.of_nat k)) :: T), w2.
      rewrite Hloop, Htr2, Htr, Hfs2, Hoc2, Hfs, Hoc. rewrite Hg in Hruns.
      repeat split.
      * rewrite <- !app_assoc. reflexivity.
      * apply run_rate_limited; auto.
    + destruct (IH (S k) w1) as (r & T & w2 & Hloop & Htr2 & Hfs2 & Hoc2 & Hruns).
      exists r, (pacing is_coingecko k ++ HttpGet req (Ok resp)
                 :: fault_delay max_retries k ++ T), w2.
      rewrite Hloop, Htr2, Htr, Hfs2, Hoc2, Hfs, Hoc. rewrite Hg in Hruns.
      repeat split.
      * rewrite <- !app_assoc. reflexivity.
      * apply run_backoff_refused; auto.
    + destruct (IH (S k) w1) as (r & T & w2 & Hloop & Htr2 & Hfs2 & Hoc2 & Hruns).
      exists r, (pacing is_coingecko k ++ HttpGet req (Raise e)
                 :: fault_delay max_retries k ++ T), w2.
      rewrite Hloop, Htr2, Htr, Hfs2, Hoc2, Hfs, Hoc. rewrite Hg in Hruns.
      repeat split.
      * rewrite <- !app_assoc. reflexivity.
      * apply run_fault; auto.
    + exists (Some resp), (pacing is_coingecko k ++ HttpGet req (Ok resp)
                           :: cooldown is_coingecko), w1.
      unfold ret. repeat split; auto.
      apply run_response; auto.
Qed.

(** The whole call, from any world. *)
Lemma safe_api_request_run (w : world) :
  exists r T w',
    safe_api_request E url max_retries is_coingecko api_key params w = (Ok r, w')
    /\ trace w' = trace w ++ T
    /\ fs w' = fs w
    /\ open_conns w' = open_conns w
    /\ attempts_run E req is_coingecko max_retries 0 (Z.to_nat max_retries) (gets w) r T.
Proof.
  unfold safe_api_request, range. apply attempts_follow_run.
Qed.
End SafeApiRequestRuns.

(** ** Splitting a trace at a request *)

Lemma count_gets_app (l1 l2 : list event) :
  count_gets (l1 ++ l2) = (count_gets l1 + count_gets l2)%nat.
Proof.
  unfold count_gets. rewrite filter_app, length_app. reflexivity.
Qed.

Lemma count_gets_none (l : list event) : no_gets l -> count_gets l = 0%nat.
Proof.
  unfold count_gets. induction l as [| e l IH]; intros H; cbn; auto.
  rewrite (H e (or_introl eq_refl)). apply IH. intros e' He'. apply H. now right.
Qed.

Lemma no_gets_pacing (c : bool) (k : nat) : no_gets (pacing c k).
Proof.
  unfold pacing. destruct (c && _); intros e He; cbn in He; intuition; subst; reflexivity.
Qed.

Lemma no_gets_fault_delay (m : Z) (k : nat) : no_gets (fault_delay m k).
Proof.
  unfold fault_delay. destruct (_ <? _); intros e He; cbn in He; intuition; subst; reflexivity.
Qed.

Lemma no_gets_cooldown (c : bool) : no_gets (cooldown c).
Proof.
  unfold cooldown. destruct c; intros e He; cbn in He; intuition; subst; reflexivity.
Qed.

Lemma no_gets_sleep (d : Q) : no_gets [Sleep d].
Proof.
  intros e [<- | []]; reflexivity.
Qed.

Lemma no_gets_app (l1 l2 : list event) : no_gets l1 -> no_gets l2 -> no_gets (l1 ++ l2).
Proof.
  intros H1 H2 e He. apply in_app_or in He. destruct He; auto.
Qed.

Lemma no_gets_split (l pre post : list event) (G : event) :
  no_gets l -> is_get G = true -> l <> pre ++ G :: post.
Proof.
  intros Hl HG ->. rewrite Hl in HG; [discriminate |].
  apply in_or_app. right. now left.
Qed.

Create HintDb trace.
#[local] Hint Resolve no_gets_pacing no_gets_fault_delay no_gets_cooldown no_gets_sleep
  no_gets_app : trace.

(** A request found behind a stretch without requests lies behind it. *)
Lemma split_behind (l : list event) :
  no_gets l ->
  forall X pre G post,
    is_get G = true ->
    l ++ X = pre ++ G :: post ->
    exists pre', pre = l ++ pre' /\ X = pre' ++ G :: post.
Proof.
  induction l as [| s l IH]; intros Hl X pre G post HG Heq.
  - exists pre. auto.
  - destruct pre as [| p pre].
    + cbn in Heq. injection Heq as -> _.
      rewrite (Hl G (or_introl eq_refl)) in HG. discriminate.
    + cbn in Heq. injection Heq as -> Heq.
      destruct (IH (fun e He => Hl e (or_intror He)) X pre G post HG Heq) as (pre' & -> & ->).
      exists pre'. auto.
Qed.

(** One iteration [l ++ g0 :: tail], followed by [X]: a request of the whole
    is the request [g0] of the iteration or lies in [X]. *)
Lemma split_iteration (l tail X pre post : list event) (g0 G : event) :
  no_gets l -> no_gets tail -> is_get G = true ->
  l ++ g0 :: tail ++ X = pre ++ G :: post ->
  (pre = l /\ G = g0 /\ post = tail ++ X)
  \/ (exists pre', pre = l ++ g0 :: tail ++ pre' /\ X = pre' ++ G :: post).
Proof.
  intros Hl Ht HG Heq.
  destruct (split_behind l Hl _ _ _ _ HG Heq) as (p & -> & Hp).
  destruct p as [| x p].
  - left. cbn in Hp. injection Hp as -> ->. rewrite app_nil_r. auto.
  - right. cbn in Hp. injection Hp as -> Hp.
    destruct (split_behind tail Ht _ _ _ _ HG Hp) as (p' & -> & ->).
    exists p'. auto.
Qed.

Lemma count_gets_iteration (l tail pre' : list event) (r : request) (o : res response) :
  no_gets l -> no_gets tail ->
  count_gets (l ++ HttpGet r o :: tail ++ pre') = S (count_gets pre').
Proof.
  intros Hl Ht.
  change (HttpGet r o :: tail ++ pre') with ([HttpGet r o] ++ tail ++ pre').
  rewrite !count_gets_app, (count_gets_none l Hl), (count_gets_none tail Ht).
  reflexivity.
Qed.

(** ** The budget of requests *)

Lemma remaining_budget_step (c : bool) (k n : nat) :
  remaining_budget c k (S n) = remaining_budget c (S k) n + 1.
Proof.
  unfold remaining_budget. destruct c; lia.
Qed.

Lemma remaining_budget_paced (c : bool) (k n : nat) :
  paced c k -> 0 < remaining_budget c k (S n).
Proof.
  unfold remaining_budget, paced. destruct c; intros H; [specialize (H eq_refl) |]; lia.
Qed.

Lemma remaining_budget_unpaced (k n : nat) :
  PACING_ATTEMPTS <= Z.of_nat k -> remaining_budget true k n <= 0.
Proof.
  unfold remaining_budget. lia.
Qed.

Lemma remaining_budget_none (c : bool) (k : nat) : remaining_budget c k 0 <= 0.
Proof.
  unfold remaining_budget. destruct c; lia.
Qed.

Lemma remaining_budget_le (c : bool) (k n : nat) : remaining_budget c k n <= Z.of_nat n.
Proof.
  unfold remaining_budget. destruct c; lia.
Qed.

Lemma PACING_ATTEMPTS_pos : 0 < PACING_ATTEMPTS.
Proof. reflexivity. Qed.


Lemma remaining_budget_top (c : bool) (max_retries : Z) :
  Z.max 0 (remaining_budget c 0 (Z.to_nat max_retries))
  = Z.max 0 (request_budget c max_retries).
Proof.
  pose proof PACING_ATTEMPTS_pos.
  unfold remaining_budget, request_budget. destruct c; lia.
Qed.


Lemma paced_next (c : bool) (k j : nat) :
  paced c (S k) -> paced c (S k + j) -> paced c (k + S j).
Proof.
  unfold paced. intros _ H Hc. specialize (H Hc). lia.
Qed.

(** ** What a run of the loop looks like *)

Ltac run_cases H :=
  induction H as [k g
                 | k n g r T Hcg Hp Hrun IH
                 | k n g resp0 r T Hpaced Hnet H429 Hb Hrun IH
                 | k n g resp0 r T Hpaced Hnet H429 Hb Hrun IH
                 | k n g e0 r T Hpaced Hnet Hrun IH
                 | k n g resp0 Hpaced Hnet H429].

Section RunProperties.
Variable E : Env.
Variable req : request.
Variable is_coingecko : bool.
Variable max_retries : Z.

Let run := attempts_run E req is_coingecko max_retries.

(** Once a pacing sleep has been refused, so are all that follow: the rest
    of the loop sends nothing and returns nothing. *)
Lemma run_silent k n g r T :
  run k n g r T ->
  is_coingecko = true -> PACING_ATTEMPTS <= Z.of_nat k ->
  r = None /\ no_gets T.
Proof.
  intros H. run_cases H; intros Hc Hk.
  - split; [reflexivity | intros e []].
  - destruct IH as [-> Hno]; [assumption | lia |].
    split; [reflexivity |]. auto with trace.
  - specialize (Hpaced Hc). lia.
  - specialize (Hpaced Hc). lia.
  - specialize (Hpaced Hc). lia.
  - specialize (Hpaced Hc). lia.
Qed.

Lemma run_unpaced_no_request k n g r T pre G post :
  run (S k) n g r T ->
  is_coingecko = true -> PACING_ATTEMPTS <= Z.of_nat k ->
  is_get G = true ->
  fault_delay max_retries k ++ T <> pre ++ G :: post.
Proof.
  intros Hrun Hc Hk HG. apply no_gets_split; [| exact HG].
  apply no_gets_app; [auto with trace |].
  apply (run_silent _ _ _ _ _ Hrun Hc). lia.
Qed.

(** Every request of the run is [req], answered by the network in order,
    and it is the request of the attempt counted by the requests before
    it. *)
Lemma run_requests k n g r T :
  run k n g r T ->
  forall pre rq o post,
    T = pre ++ HttpGet rq o :: post ->
    rq = req /\ o = network E (g + count_gets pre) req
    /\ Z.of_nat (count_gets pre) < remaining_budget is_coingecko k n.
Proof.
  intros H. run_cases H; intros pre rq o post Heq.
  - destruct pre; discriminate.
  - exfalso. revert Heq. eapply run_unpaced_no_request; eauto.
  - change (Sleep ?d :: T) with ([Sleep d] ++ T) in Heq.
    apply split_iteration in Heq; auto with trace.
    pose proof (remaining_budget_paced _ _ n Hpaced).
    destruct Heq as [(-> & Hg & _) | (pre' & -> & HT)].
    + injection Hg as -> ->. rewrite count_gets_none by auto with trace.
      rewrite Nat.add_0_r. repeat split; auto.
    + rewrite count_gets_iteration by auto with trace.
      destruct (IH _ _ _ _ HT) as (-> & -> & Hlt).
      rewrite remaining_budget_step.
      repeat split; [f_equal; lia | lia].
  - apply split_iteration in Heq; auto with trace.
    pose proof (remaining_budget_paced _ _ n Hpaced).
    destruct Heq as [(-> & Hg & _) | (pre' & -> & HT)].
    + injection Hg as -> ->. rewrite count_gets_none by auto with trace.
      rewrite Nat.add_0_r. repeat split; auto.
    + rewrite count_gets_iteration by auto with trace.
      destruct (IH _ _ _ _ HT) as (-> & -> & Hlt).
      rewrite remaining_budget_step.
      repeat split; [f_equal; lia | lia].
  - apply split_iteration in Heq; auto with trace.
    pose proof (remaining_budget_paced _ _ n Hpaced).
    destruct Heq as [(-> & Hg & _) | (pre' & -> & HT)].
    + injection Hg as -> ->. rewrite count_gets_none by auto with trace.
      rewrite Nat.add_0_r. repeat split; auto.
    + rewrite count_gets_iteration by auto with trace.
      destruct (IH _ _ _ _ HT) as (-> & -> & Hlt).
      rewrite remaining_budget_step.
      repeat split; [f_equal; lia | lia].
  - rewrite <- (app_nil_r (cooldown is_coingecko)) in Heq.
    apply split_iteration in Heq; auto with trace.
    pose proof (remaining_budget_paced _ _ n Hpaced).
    destruct Heq as [(-> & Hg & _) | (pre' & -> & HT)].
    + injection Hg as -> ->. rewrite count_gets_none by auto with trace.
      rewrite Nat.add_0_r. repeat split; auto.
    + destruct pre'; discriminate.
Qed.




End RunProperties.

Section RunCounts.
Variable E : Env.
Variable req : request.
Variable is_coingecko : bool.
Variable max_retries : Z.

Let run := attempts_run E req is_coingecko max_retries.


(** The requests never exceed the budget, and use it up when no response is
    returned. *)
Lemma run_count k n g r T :
  run k n g r T ->
  Z.of_nat (count_gets T) <= Z.max 0 (remaining_budget is_coingecko k n)
  /\ (r = None -> Z.of_nat (count_gets T) = Z.max 0 (remaining_budget is_coingecko k n)).
Proof.
  intros H. run_cases H.
  - pose proof (remaining_budget_none is_coingecko k). cbn. split; [lia | intros _; lia].
  - destruct (run_silent _ _ _ _ _ _ _ _ _ Hrun Hcg) as [_ Hno]; [lia |].
    rewrite count_gets_none by auto with trace.
    rewrite Hcg. pose proof (remaining_budget_unpaced k (S n) Hp).
    split; [lia | intros _; lia].
  - destruct IH as [IHle IHeq].
    change (Sleep ?d :: T) with ([Sleep d] ++ T).
    rewrite count_gets_iteration by auto with trace.
    rewrite remaining_budget_step.
    pose proof (remaining_budget_paced _ _ n Hpaced) as Hpos.
    rewrite remaining_budget_step in Hpos.
    split; [lia | intros Hr; specialize (IHeq Hr); lia].
  - destruct IH as [IHle IHeq].
    rewrite count_gets_iteration by auto with trace.
    rewrite remaining_budget_step.
    pose proof (remaining_budget_paced _ _ n Hpaced) as Hpos.
    rewrite remaining_budget_step in Hpos.
    split; [lia | intros Hr; specialize (IHeq Hr); lia].
  - destruct IH as [IHle IHeq].
    rewrite count_gets_iteration by auto with trace.
    rewrite remaining_budget_step.
    pose proof (remaining_budget_paced _ _ n Hpaced) as Hpos.
    rewrite remaining_budget_step in Hpos.
    split; [lia | intros Hr; specialize (IHeq Hr); lia].
  - rewrite <- (app_nil_r (cooldown is_coingecko)).
    rewrite count_gets_iteration by auto with trace.
    pose proof (remaining_budget_paced _ _ n Hpaced) as Hpos.
    split; [cbn; lia | discriminate].
Qed.


Lemma run_zero k g r T : run k 0 g r T -> r = None /\ T = [].
Proof.
  intros H. inversion H. auto.
Qed.

(** Nothing follows an attempt that ends in the handler when it is the last
    one. *)
Lemma run_last_handled k n g r T :
  max_retries = Z.of_nat (k + n) ->
  run k n g r T ->
  forall pre rq o post,
    T = pre ++ HttpGet rq o :: post ->
    max_retries - 1 <= Z.of_nat (k + count_gets pre) ->
    (forall e, o = Raise e -> post = [])
    /\ (forall resp, o = Ok resp -> status_code resp = 429 ->
          BACKOFF_ATTEMPTS <= Z.of_nat (k + count_gets pre) -> post = []).
Proof.
  intros Hmax Hrun. revert Hmax.
  run_cases Hrun; intros Hmax pre rq o post Heq Hlast.
  - destruct pre; discriminate.
  - exfalso. revert Heq. eapply run_unpaced_no_request; eauto.
  - change (Sleep ?d :: T) with ([Sleep d] ++ T) in Heq.
    apply split_iteration in Heq; auto with trace.
    destruct Heq as [(-> & Hg & ->) | (pre' & -> & HT)].
    + rewrite count_gets_none, Nat.add_0_r in * by auto with trace.
      injection Hg as -> ->. split; [discriminate |]. intros resp _ _ Hge. lia.
    + rewrite count_gets_iteration in * by auto with trace.
      rewrite Nat.add_succ_r in *.
      apply (IH ltac:(lia) _ _ _ _ HT). lia.
  - apply split_iteration in Heq; auto with trace.
    destruct Heq as [(-> & Hg & ->) | (pre' & -> & HT)].
    + rewrite count_gets_none, Nat.add_0_r in * by auto with trace.
      assert (n = 0%nat) by lia. subst n.
      destruct (run_zero _ _ _ _ Hrun) as [_ ->].
      unfold fault_delay.
      replace (Z.of_nat k <? max_retries - 1) with false
        by (symmetry; apply Z.ltb_ge; lia).
      split; reflexivity.
    + rewrite count_gets_iteration in * by auto with trace.
      rewrite Nat.add_succ_r in *.
      apply (IH ltac:(lia) _ _ _ _ HT). lia.
  - apply split_iteration in Heq; auto with trace.
    destruct Heq as [(-> & Hg & ->) | (pre' & -> & HT)].
    + rewrite count_gets_none, Nat.add_0_r in * by auto with trace.
      assert (n = 0%nat) by lia. subst n.
      destruct (run_zero _ _ _ _ Hrun) as [_ ->].
      unfold fault_delay.
      replace (Z.of_nat k <? max_retries - 1) with false
        by (symmetry; apply Z.ltb_ge; lia).
      split; reflexivity.
    + rewrite count_gets_iteration in * by auto with trace.
      rewrite Nat.add_succ_r in *.
      apply (IH ltac:(lia) _ _ _ _ HT). lia.
  - rewrite <- (app_nil_r (cooldown is_coingecko)) in Heq.
    apply split_iteration in Heq; auto with trace.
    destruct Heq as [(-> & Hg & ->) | (pre' & -> & HT)].
    + injection Hg as -> ->. split; [discriminate |].
      intros resp Hr Hs. injection Hr as <-. contradiction.
    + destruct pre'; discriminate.
Qed.

(** A returned response is the answer to the last request, and after it
    comes the cooldown only. *)
Lemma run_returns_last k n g r T :
  run k n g r T ->
  forall resp, r = Some resp ->
    exists pre, T = pre ++ HttpGet req (Ok resp) :: cooldown is_coingecko.
Proof.
  intros H. run_cases H; intros resp Hr.
  - discriminate.
  - destruct (IH resp Hr) as (pre & ->).
    exists (fault_delay max_retries k ++ pre). now rewrite <- app_assoc.
  - destruct (IH resp Hr) as (pre & ->).
    exists (pacing is_coingecko k ++ HttpGet req (Ok resp0)
            :: Sleep (inject_Z (RATE_LIMIT_RETRY_DELAY * 2 ^ Z.of_nat k)) :: pre).
    rewrite <- app_assoc. reflexivity.
  - destruct (IH resp Hr) as (pre & ->).
    exists (pacing is_coingecko k ++ HttpGet req (Ok resp0)
            :: fault_delay max_retries k ++ pre).
    repeat (rewrite <- app_assoc || rewrite <- app_comm_cons). reflexivity.
  - destruct (IH resp Hr) as (pre & ->).
    exists (pacing is_coingecko k ++ HttpGet req (Raise e0)
            :: fault_delay max_retries k ++ pre).
    repeat (rewrite <- app_assoc || rewrite <- app_comm_cons). reflexivity.
  - injection Hr as <-. exists (pacing is_coingecko k). reflexivity.
Qed.
End RunCounts.

Section RunPacing.
Variable E : Env.
Variable req : request.
Variable is_coingecko : bool.
Variable max_retries : Z.

Let run := attempts_run E req is_coingecko max_retries.


End RunPacing.

(* ================================================================= *)
(** ** safe_api_request: the claims *)








(** C10.  With [max_retries <= 0] the call returns [None] and leaves the
    world as it found it: nothing requested, nothing slept, nothing
    printed. *)
Theorem safe_api_request_no_budget
    (E : Env) (url : string) (max_retries : Z) (is_coingecko : bool)
    (api_key : option string) (params : option (list (string * string))) (w : world) :
  max_retries <= 0 ->
  safe_api_request E url max_retries is_coingecko api_key params w = (Ok None, w).
Proof.
  intros Hle. unfold safe_api_request, range.
  replace (Z.to_nat max_retries) with 0%nat by lia. reflexivity.
Qed.

Lemma safe_api_request_no_budget_witness :
  (-2 <= 0)
  /\ safe_api_request (example_env [] 0) "https://api.coingecko.com/api/v3/ping" (-2) true None None
       (fresh_world no_files)
     = (Ok None, fresh_world no_files).
Proof.
  split; [lia |].
  apply (safe_api_request_no_budget (example_env [] 0)
           "https://api.coingecko.com/api/v3/ping" (-2) true None None (fresh_world no_files)).
  lia.
Defined.

(* ================================================================= *)
(** ** validate_dataframe: the claim *)

Lemma filter_nil_iff {A} (p : A -> bool) (l : list A) :
  filter p l = [] <-> forall x, In x l -> p x = false.
Proof.
  induction l as [| a l IH]; cbn.
  - split; auto. intros _ x [].
  - destruct (p a) eqn:Hp; split.
    + discriminate.
    + intros H. specialize (H a (or_introl eq_refl)). congruence.
    + intros H x [<- | Hx]; auto. now apply IH.
    + intros H. apply IH. intros x Hx. apply H. now right.
Qed.

(** C9.  [validate_dataframe] always returns, and it returns [True] exactly
    when the frame is not [None], is not empty, and holds every required
    column; so [False] for [None], for an empty frame and for a missing
    required column, and [True] for a non-empty frame when no columns are
    required. *)
Theorem validate_dataframe_spec
    (df : option DataFrame) (required_columns : option (list label)) (w : world) :
  exists b,
    fst (validate_dataframe df required_columns w) = Ok b
    /\ (b = true <->
        exists d, df = Some d
                  /\ empty d = false
                  /\ forall c, In c (required_of required_columns) -> has_column c d = true)
    /\ (df = None -> b = false)
    /\ (forall d, df = Some d -> empty d = true -> b = false)
    /\ (forall d c, df = Some d -> In c (required_of required_columns) ->
                    has_column c d = false -> b = false)
    /\ (forall d, df = Some d -> empty d = false -> required_columns = None -> b = true).
Proof.
  assert (Hmain : exists b,
    fst (validate_dataframe df required_columns w) = Ok b
    /\ (b = true <->
        exists d, df = Some d
                  /\ empty d = false
                  /\ forall c, In c (required_of required_columns) -> has_column c d = true)).
  { unfold validate_dataframe.
    destruct df as [d |].
    2:{ exists false. split; [reflexivity |]. split; [discriminate |].
        intros (d & Hd & _). discriminate. }
    destruct (empty d) eqn:Hempty.
    { exists false. split; [reflexivity |]. split; [discriminate |].
      intros (d' & Hd & He & _). injection Hd as <-. congruence. }
    destruct required_columns as [[| c cs] |].
    - exists true. split; [reflexivity |]. split; auto.
      intros _. exists d. repeat split; auto; intros c' [].
    - destruct (filter (fun col => negb (has_column col d)) (c :: cs)) as [| m ms] eqn:Hf.
      + exists true. split; [reflexivity |]. split; auto.
        intros _. exists d. repeat split; auto.
        intros c' Hc'. apply filter_nil_iff with (x := c') in Hf; auto.
        now apply negb_false_iff in Hf.
      + exists false. split; [reflexivity |]. split; [discriminate |].
        intros (d' & Hd & _ & Hall). injection Hd as <-.
        assert (Hm : In m (filter (fun col => negb (has_column col d)) (c :: cs)))
          by (rewrite Hf; now left).
        apply filter_In in Hm. destruct Hm as [Hin Hneg].
        rewrite (Hall m Hin) in Hneg. discriminate.
    - exists true. split; [reflexivity |]. split; auto.
      intros _. exists d. repeat split; auto; intros c' []. }
  destruct Hmain as (b & Hrun & Hiff).
  exists b. split; [exact Hrun |]. split; [exact Hiff |].
  repeat split.
  - intros ->. destruct b; auto. destruct (proj1 Hiff eq_refl) as (d & Hd & _). discriminate.
  - intros d -> He. destruct b; auto.
    destruct (proj1 Hiff eq_refl) as (d' & Hd & He' & _). injection Hd as <-. congruence.
  - intros d c -> Hin Hc. destruct b; auto.
    destruct (proj1 Hiff eq_refl) as (d' & Hd & _ & Hall). injection Hd as <-.
    rewrite (Hall c Hin) in Hc. discriminate.
  - intros d -> He ->. apply Hiff. exists d. repeat split; auto; intros c' [].
Qed.

(* ================================================================= *)
(** ** load_data_from_db: what a call does *)

Ltac crank H :=
  repeat (progress (rewrite ?H;
    cbv beta iota zeta delta
      [try_except bind ret print say sqlite3_connect select_table_names tables_of emit
       read_pool_data read_sql lift raise pragma_table_info coerce_index conn_close
       stdout trace gets fs open_conns])).

Ltac crank_in Hrun :=
  cbv beta iota zeta delta
    [try_except bind ret print say sqlite3_connect select_table_names tables_of emit
     read_pool_data read_sql lift raise pragma_table_info coerce_index conn_close
     stdout trace gets fs open_conns] in Hrun.

(** Printing the table layout touches nothing but the output. *)
Lemma print_table_info (info : list (string * string)) :
  forall w,
  exists w',
    for_each info
      (fun col => print ("  " ++ fst col ++ " (" ++ snd col ++ ")") ;; ret (@Next unit))
      (ret tt) w = (Ok tt, w')
    /\ trace w' = trace w /\ fs w' = fs w /\ open_conns w' = open_conns w.
Proof.
  induction info as [| c info IH]; intros w.
  - exists w. cbn. auto.
  - cbn [for_each]. do 2 (unfold bind at 1). unfold print at 1. unfold say at 1. unfold ret at 1.
    destruct (IH (mkWorld (stdout w ++ [("  " ++ fst c ++ " (" ++ snd c ++ ")")%string])
                          (trace w) (gets w) (fs w) (open_conns w)))
      as (w' & Hrun & H).
    exists w'. split; [exact Hrun | exact H].
Qed.

Lemma label_eqb_refl (l : label) : label_eqb l l = true.
Proof.
  destruct l; cbn; [apply String.eqb_refl | apply Z.eqb_refl].
Qed.

Lemma label_eqb_eq (a b : label) : label_eqb a b = true <-> a = b.
Proof.
  destruct a, b; cbn; split; try discriminate; intros H.
  - apply String.eqb_eq in H. now subst.
  - injection H as ->. apply String.eqb_refl.
  - apply Z.eqb_eq in H. now subst.
  - injection H as ->. apply Z.eqb_refl.
Qed.

(** Promoting the first column of a frame cannot fail. *)
Lemma set_index_first (l : label) (x : column) (rest : list (label * column)) (ix : Index) :
  set_index l (mkFrame ix ((l, x) :: rest)) = Ok (mkFrame (index_of_column l x) rest).
Proof.
  unfold set_index. cbn. rewrite label_eqb_refl. reflexivity.
Qed.

Lemma map_snd_combine_seq {A} (l : list A) :
  forall k, map snd (combine (seq k (List.length l)) l) = l.
Proof.
  induction l as [| a l IH]; intros k; cbn; [reflexivity | now rewrite IH].
Qed.

Lemma columns_frame_of_table (t : sql_table) :
  columns (frame_of_table t) = map (fun c => LStr (fst c)) (tcols t).
Proof.
  unfold columns, frame_of_table. cbn [cols].
  rewrite map_map. cbn [fst].
  transitivity (map (fun c : string * string => LStr (fst c))
                    (map snd (combine (seq 0 (List.length (tcols t))) (tcols t)))).
  - rewrite map_map. reflexivity.
  - now rewrite map_snd_combine_seq.
Qed.

(** Reading a table that exists always yields a frame to return. *)
Lemma read_result_found (tables : list (string * sql_table)) (tbl : sql_table) :
  find_table "pool_data" tables = Some tbl ->
  exists m, read_result tables = Some m.
Proof.
  intros Hf. unfold read_result. rewrite Hf.
  destruct (set_index (LStr "index") (frame_of_table tbl)) as [m | e]; [eauto |].
  unfold promote_first.
  pose proof (columns_frame_of_table tbl) as Hc.
  unfold columns in *.
  destruct (frame_of_table tbl) as [ix [| [l x] rest]]; cbn [cols map fst] in *; [eauto |].
  destruct (tcols tbl) as [| [c ty] more]; [discriminate |].
  cbn in Hc. injection Hc as -> _.
  rewrite set_index_first. eauto.
Qed.

Lemma pool_data_reads_app (l1 l2 : list event) :
  pool_data_reads (l1 ++ l2) = (pool_data_reads l1 + pool_data_reads l2)%nat.
Proof.
  unfold pool_data_reads. now rewrite filter_app, length_app.
Qed.

Ltac load_finish Hafter m :=
  let T := fresh "T" in
  let w' := fresh "w'" in
  let Hrun := fresh "Hrun" in
  let Htr := fresh "Htr" in
  let Hreads := fresh "Hreads" in
  let Hfs := fresh "Hfs" in
  let Hoc := fresh "Hoc" in
  let o1 := fresh "o" in
  let t1 := fresh "t" in
  let g1 := fresh "g" in
  let f1 := fresh "f" in
  let c1 := fresh "c" in
  match goal with
  | |- context [mkWorld ?o ?t _ _ (_ :: _)] =>
      destruct (Hafter m o t) as (T & w' & Hrun & Htr & Hreads & Hfs & Hoc)
  end;
  crank_in Hrun; rewrite Hrun;
  destruct w' as [o1 t1 g1 f1 c1];
  cbn [trace fs open_conns] in Htr, Hfs, Hoc; subst t1 f1 c1;
  eexists _, _; (split; [reflexivity |]); cbv beta iota;
  (split; [rewrite <- ?app_assoc; reflexivity |]);
  (split; [rewrite !pool_data_reads_app, Hreads; reflexivity |]);
  split; reflexivity.

Section LoadRuns.
Variable E : Env.
Variable path : string.

(** Lines 149-164, from any frame read and any output so far. *)
Lemma load_after_read (tables : list (string * sql_table)) (m : DataFrame) (w : world) :
  readable (fs w path) = Some tables ->
  exists T w',
    (merged_df <- coerce_index E m ;;
     metadata_df <- try_except
                      (read_sql path "pool_metadata" None)
                      (fun e =>
                         print ("Error reading pool_metadata table: " ++ exn_str e) ;;
                         ret (mkFrame (RangeIndex 0) [])) ;;
     conn_close path ;;
     print ("Successfully loaded data for " ++ str_int (Z.of_nat (len metadata_df))
            ++ " pools") ;;
     ret (Some merged_df, Some metadata_df)) w
    = (Ok (Some (coerced E m), Some (metadata_of tables)), w')
    /\ trace w' = trace w ++ T
    /\ pool_data_reads T = 0%nat
    /\ fs w' = fs w
    /\ open_conns w' = remove_first path (open_conns w).
Proof.
  intros H. destruct w as [out tr g files conns]. cbn [fs] in H.
  unfold coerced, metadata_of.
  destruct (files path) as [msg | | | ts | ts] eqn:Hs; try discriminate;
    injection H as <-; crank Hs.
  all: destruct (is_DatetimeIndex (index m)); cbv [negb]; crank Hs;
    [| destruct (to_datetime E (index_cells (index m))); crank Hs ].
  all: cbn [find_table]; try (destruct (find_table "pool_metadata" ts)); crank Hs.
  all: eexists _, _; (split; [reflexivity |]);
    (split; [cbn [trace]; rewrite <- ?app_assoc; reflexivity |]);
    repeat split.
Qed.

(** What the call does to a store that opens and can be read. *)
Lemma load_database (w : world) (tables : list (string * sql_table)) :
  fs w path = Database tables \/ fs w path = ReadOnly tables ->
  exists T w',
    load_data_from_db E path w = (Ok (load_result E tables), w')
    /\ trace w' = trace w ++ T
    /\ pool_data_reads T
       = match find_table "pool_data" tables with
         | Some tbl => match set_index (LStr "index") (frame_of_table tbl) with
                       | Ok _ => 1%nat
                       | Raise _ => 2%nat
                       end
         | None => 2%nat
         end
    /\ fs w' = fs w
    /\ open_conns w' = match read_result tables with
                       | Some _ => remove_first path (path :: open_conns w)
                       | None => path :: open_conns w
                       end.
Proof.
  intros H.
  assert (Hread : readable (fs w path) = Some tables) by (destruct H as [-> | ->]; reflexivity).
  destruct w as [out tr g files conns]. cbn [fs] in H, Hread.
  assert (Hafter : forall (m : DataFrame) (out' : list string) (tr' : list event),
            exists T w',
              (merged_df <- coerce_index E m ;;
               metadata_df <- try_except
                                (read_sql path "pool_metadata" None)
                                (fun e =>
                                   print ("Error reading pool_metadata table: " ++ exn_str e) ;;
                                   ret (mkFrame (RangeIndex 0) [])) ;;
               conn_close path ;;
               print ("Successfully loaded data for " ++ str_int (Z.of_nat (len metadata_df))
                      ++ " pools") ;;
               ret (Some merged_df, Some metadata_df))
                (mkWorld out' tr' g files (path :: conns))
              = (Ok (Some (coerced E m), Some (metadata_of tables)), w')
              /\ trace w' = tr' ++ T
              /\ pool_data_reads T = 0%nat
              /\ fs w' = files
              /\ open_conns w' = remove_first path (path :: conns)).
  { intros m out' tr'.
    exact (load_after_read tables m (mkWorld out' tr' g files (path :: conns)) Hread). }
  clear Hread.
  unfold load_result, read_result, load_data_from_db.
  destruct H as [H | H]; crank H;
    (destruct (find_table "pool_data" tables) as [tbl |] eqn:Hf;
     [ destruct (set_index (LStr "index") (frame_of_table tbl)) as [m | e] eqn:Hs |]).
  1, 4: crank H; load_finish Hafter m.
  1, 3: destruct (read_result_found tables tbl Hf) as (m & Hm);
    unfold read_result in Hm; rewrite Hf, Hs in Hm;
    rewrite Hm; unfold promote_first in Hm;
    crank H; rewrite Hf;
    (destruct (columns (frame_of_table tbl)) as [| [c | n] more] eqn:Hc;
     try discriminate;
     [ injection Hm as <-; crank H; load_finish Hafter (frame_of_table tbl)
     | destruct (set_index (LStr c) (frame_of_table tbl)) as [m' | e'] eqn:Hs';
       [| discriminate];
       injection Hm as <-;
       destruct (contains "date" (lower c) || contains "time" (lower c));
       crank H; load_finish Hafter m' ]).
  all: repeat (progress (crank H; rewrite ?Hf; cbn [for_each]));
    eexists _, _; (split; [reflexivity |]);
    (split; [cbn [trace]; rewrite <- ?app_assoc; reflexivity |]);
    repeat split.
Qed.

Lemma load_absent (w : world) :
  fs w path = Absent ->
  exists T w',
    load_data_from_db E path w = (Ok (None, None), w')
    /\ trace w' = trace w ++ T
    /\ pool_data_reads T = 2%nat
    /\ fs w' = set_store path (Database []) (fs w)
    /\ open_conns w' = path :: open_conns w.
Proof.
  intros H. destruct w as [out tr g files conns]. cbn in H.
  unfold load_data_from_db.
  repeat (progress (crank H; unfold set_store; rewrite ?String.eqb_refl;
                    cbn [find_table for_each map filter])).
  eexists _, _. split; [reflexivity |].
  split; [cbn [trace]; rewrite <- ?app_assoc; reflexivity |].
  repeat split.
Qed.

Lemma load_unopenable (w : world) (msg : string) :
  fs w path = Unopenable msg ->
  exists T w',
    load_data_from_db E path w = (Ok (None, None), w')
    /\ trace w' = trace w ++ T
    /\ pool_data_reads T = 0%nat
    /\ fs w' = fs w
    /\ open_conns w' = open_conns w.
Proof.
  intros H. destruct w as [out tr g files conns]. cbn in H.
  unfold load_data_from_db. crank H.
  eexists _, _. split; [reflexivity |].
  split; [cbn [trace]; rewrite <- ?app_assoc; reflexivity |].
  repeat split.
Qed.

Lemma load_not_a_database (w : world) :
  fs w path = NotADatabase ->
  exists T w',
    load_data_from_db E path w = (Ok (None, None), w')
    /\ trace w' = trace w ++ T
    /\ pool_data_reads T = 0%nat
    /\ fs w' = fs w
    /\ open_conns w' = path :: open_conns w.
Proof.
  intros H. destruct w as [out tr g files conns]. cbn in H.
  unfold load_data_from_db. crank H.
  eexists _, _. split; [reflexivity |].
  split; [cbn [trace]; rewrite <- ?app_assoc; reflexivity |].
  repeat split.
Qed.

(** The call always returns; what it returns is a function of the store,
    and it leaves the store as the connection left it. *)
Lemma load_data_from_db_run (w : world) :
  exists w',
    load_data_from_db E path w = (Ok (load_outcome E (fs w path)), w')
    /\ fs w' path = opened (fs w path).
Proof.
  destruct (fs w path) as [msg | | | tables | tables] eqn:Hs; cbn [load_outcome opened].
  - destruct (load_unopenable w msg Hs) as (T & w' & Hrun & _ & _ & Hfs & _).
    exists w'. rewrite Hfs, Hs. auto.
  - destruct (load_absent w Hs) as (T & w' & Hrun & _ & _ & Hfs & _).
    exists w'. rewrite Hfs. unfold set_store. rewrite String.eqb_refl. auto.
  - destruct (load_not_a_database w Hs) as (T & w' & Hrun & _ & _ & Hfs & _).
    exists w'. rewrite Hfs, Hs. auto.
  - destruct (load_database w tables (or_introl Hs)) as (T & w' & Hrun & _ & _ & Hfs & _).
    exists w'. rewrite Hfs, Hs. auto.
  - destruct (load_database w tables (or_intror Hs)) as (T & w' & Hrun & _ & _ & Hfs & _).
    exists w'. rewrite Hfs, Hs. auto.
Qed.

End LoadRuns.

Lemma load_outcome_opened (E : Env) (s : store_state) :
  load_outcome E (opened s) = load_outcome E s.
Proof.
  destruct s; reflexivity.
Qed.

Lemma get_column_none (l : label) (cs : list (label * column)) :
  get_column l cs = None <-> ~ In l (map fst cs).
Proof.
  induction cs as [| [k c] cs IH]; cbn.
  - split; auto.
  - destruct (label_eqb l k) eqn:Hlk.
    + apply label_eqb_eq in Hlk. subst. split; [discriminate | intros H; exfalso; auto].
    + rewrite IH. split.
      * intros Hn [-> | Hin]; auto. rewrite label_eqb_refl in Hlk. discriminate.
      * intros Hn Hin. apply Hn. now right.
Qed.

Lemma index_name_coerced (E : Env) (m : DataFrame) :
  index_name (index (coerced E m)) = index_name (index m)
  /\ columns (coerced E m) = columns m.
Proof.
  unfold coerced.
  destruct (is_DatetimeIndex (index m)); [auto |].
  destruct (to_datetime E (index_cells (index m))); auto.
Qed.

Lemma index_name_set_index (l : label) (f m : DataFrame) :
  set_index l f = Ok m -> index_name (index m) = Some l.
Proof.
  unfold set_index. destruct (get_column l (cols f)) as [c |]; [| discriminate].
  intros H. injection H as <-. destruct c; reflexivity.
Qed.

(* ================================================================= *)
(** ** load_data_from_db: the claims *)

(** C3.  On an empty database, such as [purge_database] leaves behind, the
    call returns [(None, None)] through the inner handler, and the
    connection it opened is still open when it returns: no [close] was
    issued. *)
Theorem load_data_from_db_leaves_connection_open :
  let run := load_data_from_db (example_env [] 0) DEFAULT_DB_FILENAME
               (fresh_world (with_store (Database []))) in
  fst run = Ok (None, None)
  /\ In (SqlConnect DEFAULT_DB_FILENAME) (trace (snd run))
  /\ ~ In (SqlClose DEFAULT_DB_FILENAME) (trace (snd run))
  /\ open_conns (snd run) = [DEFAULT_DB_FILENAME].
Proof.
  vm_compute. repeat split.
  - now left.
  - intros H. repeat (destruct H as [H | H]; [discriminate |]). exact H.
Qed.

(** On the paths that return the two tables the connection is closed, and
    on the path through the inner handler it is not. *)
Lemma load_data_from_db_close_paths
    (E : Env) (db_filename : string) (w : world) (tables : list (string * sql_table)) :
  fs w db_filename = Database tables \/ fs w db_filename = ReadOnly tables ->
  exists w',
    load_data_from_db E db_filename w = (Ok (load_result E tables), w')
    /\ (find_table "pool_data" tables <> None -> open_conns w' = open_conns w)
    /\ (find_table "pool_data" tables = None ->
        open_conns w' = db_filename :: open_conns w).
Proof.
  intros Hs.
  destruct (load_database E db_filename w tables Hs) as (T & w' & Hrun & _ & _ & _ & Hoc).
  exists w'. split; [exact Hrun |]. split.
  - intros Hf. destruct (find_table "pool_data" tables) as [tbl |] eqn:Hft; [| congruence].
    destruct (read_result_found tables tbl Hft) as (m & Hm). rewrite Hm in Hoc.
    cbn in Hoc. now rewrite String.eqb_refl in Hoc.
  - intros Hf. unfold read_result in Hoc. now rewrite Hf in Hoc.
Qed.

(** What the call reads and returns, by what a statement sees in the
    store. *)
Lemma load_data_from_db_reads
    (E : Env) (db_filename : string) (w : world) :
  exists T,
    trace (snd (load_data_from_db E db_filename w)) = trace w ++ T
    /\ match readable (fs w db_filename) with
       | Some tables =>
           fst (load_data_from_db E db_filename w) = Ok (load_result E tables)
           /\ pool_data_reads T
              = match find_table "pool_data" tables with
                | Some tbl => match set_index (LStr "index") (frame_of_table tbl) with
                              | Ok _ => 1%nat
                              | Raise _ => 2%nat
                              end
                | None => 2%nat
                end
       | None =>
           fst (load_data_from_db E db_filename w) = Ok (None, None)
           /\ pool_data_reads T = 0%nat
       end.
Proof.
  destruct (fs w db_filename) as [msg | | | tables | tables] eqn:Hs; cbn [readable].
  - destruct (load_unopenable E db_filename w msg Hs) as (T & w' & -> & Htr & Hn & _).
    exists T. auto.
  - destruct (load_absent E db_filename w Hs) as (T & w' & -> & Htr & Hn & _).
    exists T. auto.
  - destruct (load_not_a_database E db_filename w Hs) as (T & w' & -> & Htr & Hn & _).
    exists T. auto.
  - destruct (load_database E db_filename w tables (or_introl Hs))
      as (T & w' & -> & Htr & Hn & _).
    exists T. auto.
  - destruct (load_database E db_filename w tables (or_intror Hs))
      as (T & w' & -> & Htr & Hn & _).
    exists T. auto.
Qed.

Lemma set_index_names (tbl : sql_table) :
  In "index" (map fst (tcols tbl)) <->
  exists raw, set_index (LStr "index") (frame_of_table tbl) = Ok raw.
Proof.
  unfold set_index.
  destruct (get_column (LStr "index") (cols (frame_of_table tbl))) eqn:Hg.
  - split; [eauto |]. intros _.
    destruct (in_dec string_dec "index" (map fst (tcols tbl))) as [Hin | Hnin]; [exact Hin |].
    exfalso.
    assert (Hnone : get_column (LStr "index") (cols (frame_of_table tbl)) = None).
    { apply get_column_none.
      change (map fst (cols (frame_of_table tbl))) with (columns (frame_of_table tbl)).
      rewrite columns_frame_of_table, <- map_map. intros Hin.
      apply in_map_iff in Hin. destruct Hin as (x & Hx & Hin).
      injection Hx as ->. contradiction. }
    congruence.
  - split; [| intros (raw & Hraw); discriminate].
    intros Hin. exfalso.
    apply get_column_none in Hg. apply Hg.
    change (map fst (cols (frame_of_table tbl))) with (columns (frame_of_table tbl)).
    rewrite columns_frame_of_table, <- map_map. now apply in_map.
Qed.

(** C4, as the code has it.  In a store that opens as a database (a missing
    file opens as an empty one) the first read of [pool_data], a table or a
    view found under that name in any letter case, takes the column named
    [index] as the index, wherever it stands, and is the only read.  When
    the table has no such column a second read follows and promotes the
    first column, whatever its name.  When there is no [pool_data] both
    reads fail and the call returns [(None, None)].  A store that cannot be
    opened, or is not a database, is not read at all, and the call returns
    [(None, None)] as well. *)
Theorem load_data_from_db_index_recovery
    (E : Env) (db_filename : string) (w : world) :
  let run := load_data_from_db E db_filename w in
  exists T,
    trace (snd run) = trace w ++ T
    /\ (forall tables,
          readable (fs w db_filename) = Some tables ->
          (forall tbl,
              find_table "pool_data" tables = Some tbl ->
              In "index" (map fst (tcols tbl)) ->
              pool_data_reads T = 1%nat
              /\ exists raw meta,
                   set_index (LStr "index") (frame_of_table tbl) = Ok raw
                   /\ fst run = Ok (Some (coerced E raw), Some meta)
                   /\ index_name (index (coerced E raw)) = Some (LStr "index"))
          /\ (forall tbl first rest,
              find_table "pool_data" tables = Some tbl ->
              ~ In "index" (map fst (tcols tbl)) ->
              map fst (tcols tbl) = first :: rest ->
              pool_data_reads T = 2%nat
              /\ exists raw meta,
                   set_index (LStr first) (frame_of_table tbl) = Ok raw
                   /\ fst run = Ok (Some (coerced E raw), Some meta)
                   /\ index_name (index (coerced E raw)) = Some (LStr first)
                   /\ columns (coerced E raw) = map LStr rest)
          /\ (find_table "pool_data" tables = None ->
              pool_data_reads T = 2%nat /\ fst run = Ok (None, None)))
    /\ (readable (fs w db_filename) = None ->
        pool_data_reads T = 0%nat /\ fst run = Ok (None, None)).
Proof.
  intros run. unfold run.
  destruct (load_data_from_db_reads E db_filename w) as (T & Htr & Hcase).
  exists T. split; [exact Htr |]. split.
  - intros tables Hread. rewrite Hread in Hcase. destruct Hcase as [Hrun Hreads].
    rewrite Hrun. unfold load_result, read_result.
    split; [| split].
    + intros tbl Hf Hin. rewrite Hf in *.
      destruct (proj1 (set_index_names tbl) Hin) as (raw & Hset).
      rewrite Hset in *. split; [exact Hreads |].
      exists raw, (metadata_of tables). repeat split.
      rewrite (proj1 (index_name_coerced E raw)).
      apply (index_name_set_index _ _ _ Hset).
    + intros tbl first rest Hf Hnin Hnames. rewrite Hf in *.
      pose proof (columns_frame_of_table tbl) as Hc.
      rewrite <- map_map, Hnames in Hc. cbn [map] in Hc.
      destruct (set_index (LStr "index") (frame_of_table tbl)) as [raw0 | e0] eqn:Hset.
      { exfalso. apply Hnin. apply set_index_names. eauto. }
      split; [exact Hreads |].
      unfold promote_first. rewrite Hc.
      unfold columns in Hc.
      destruct (frame_of_table tbl) as [ix [| [l x] more]]; cbn [cols map fst] in *;
        [discriminate |].
      injection Hc as -> Hmore.
      rewrite set_index_first.
      eexists _, (metadata_of tables). split; [reflexivity |]. split; [reflexivity |].
      rewrite (proj1 (index_name_coerced E _)), (proj2 (index_name_coerced E _)).
      split; [destruct x; reflexivity | exact Hmore].
    + intros Hf. rewrite Hf in *. split; [exact Hreads | reflexivity].
  - intros Hread. rewrite Hread in Hcase. destruct Hcase as [Hrun Hreads].
    split; [exact Hreads | exact Hrun].
Qed.

Lemma load_data_from_db_index_recovery_witness :
  let E := example_env [] 0 in
  let run := load_data_from_db E DEFAULT_DB_FILENAME
               (fresh_world (with_store (Database dated_cache))) in
  exists T,
    trace (snd run) = T
    /\ pool_data_reads T = 2%nat
    /\ exists raw meta,
         fst run = Ok (Some (coerced E raw), Some meta)
         /\ index_name (index (coerced E raw)) = Some (LStr "date")
         /\ columns (coerced E raw) = [LStr "0"].
Proof.
  intros E run.
  destruct (load_data_from_db_index_recovery E DEFAULT_DB_FILENAME
              (fresh_world (with_store (Database dated_cache))))
    as (T & Htr & Hread & _).
  destruct (Hread dated_cache eq_refl) as (_ & Hsecond & _).
  destruct (Hsecond (mkTable [("date", "INTEGER"); ("0", "REAL")]
                             [[VInt 1699920000000000000; VFloat 5 (-1)]] false)
                    "date" ["0"] eq_refl) as (Hreads & raw & meta & _ & Hrun & Hname & Hcols).
  - cbn. intros [H | [H | []]]; discriminate.
  - reflexivity.
  - exists T. split; [exact Htr |]. split; [exact Hreads |].
    exists raw, meta. split; [exact Hrun |]. split; [exact Hname | exact Hcols].
Defined.

(** C4 as stated fails: with the column [index] standing behind a first
    column [date], the table comes back indexed by [index], and [date], the
    first column, is left among the data columns. *)
Lemma load_data_from_db_index_not_first_column :
  exists merged meta,
    fst (load_data_from_db (example_env [] 0) DEFAULT_DB_FILENAME
           (fresh_world (with_store (Database reordered_cache))))
    = Ok (Some merged, Some meta)
    /\ option_map (fun t => map fst (tcols t)) (find_table "pool_data" reordered_cache)
       = Some ["date"; "index"; "0"]
    /\ index_name (index merged) = Some (LStr "index")
    /\ index_name (index merged) <> Some (LStr "date")
    /\ columns merged = [LStr "date"; LStr "0"].
Proof.
  eexists _, _. split; [vm_compute; reflexivity |].
  repeat split. discriminate.
Qed.

(** C8.  A second call that finds the store as the first call left it
    returns what the first call returned, and both calls do return:
    [(None, None)] on a failure path, the two tables otherwise. *)
Theorem load_data_from_db_idempotent
    (E : Env) (db_filename : string) (w w2 : world) :
  fs w2 db_filename = fs (snd (load_data_from_db E db_filename w)) db_filename ->
  fst (load_data_from_db E db_filename w2) = fst (load_data_from_db E db_filename w)
  /\ exists tables, fst (load_data_from_db E db_filename w) = Ok tables.
Proof.
  intros Hsame.
  destruct (load_data_from_db_run E db_filename w) as (w1 & Hrun1 & Hfs1).
  destruct (load_data_from_db_run E db_filename w2) as (w2' & Hrun2 & _).
  rewrite Hrun1 in Hsame. cbn [snd] in Hsame.
  rewrite Hrun1, Hrun2. cbn [fst].
  rewrite Hsame, Hfs1, load_outcome_opened. eauto.
Qed.

Lemma load_data_from_db_idempotent_witness :
  let E := example_env [] 0 in
  let w := fresh_world (with_store (Database refreshed_cache)) in
  let w2 := snd (load_data_from_db E DEFAULT_DB_FILENAME w) in
  fs w2 DEFAULT_DB_FILENAME = fs (snd (load_data_from_db E DEFAULT_DB_FILENAME w)) DEFAULT_DB_FILENAME
  /\ fst (load_data_from_db E DEFAULT_DB_FILENAME w2)
     = fst (load_data_from_db E DEFAULT_DB_FILENAME w).
Proof.
  intros E w w2. split; [reflexivity |].
  apply (load_data_from_db_idempotent E DEFAULT_DB_FILENAME w w2). reflexivity.
Defined.

(* ================================================================= *)
(** ** fetch_pool_chart_data: what a call does *)

Lemma bind_eq {A B} (m : M A) (k : A -> M B) (w : world) :
  bind m k w = match m w with
               | (Ok a, w') => k a w'
               | (Raise e, w') => (Raise e, w')
               end.
Proof. reflexivity. Qed.

Lemma get_column_set_column (l : label) (c : column) (cs : list (label * column)) :
  get_column l (set_column l c cs) = Some c.
Proof.
  induction cs as [| [k c'] cs IH]; cbn.
  - now rewrite label_eqb_refl.
  - destruct (label_eqb l k) eqn:H; cbn; rewrite H; auto.
Qed.

Lemma drop_column_set_column (l : label) (c : column) (cs : list (label * column)) :
  drop_column l (set_column l c cs) = drop_column l cs.
Proof.
  induction cs as [| [k c'] cs IH]; cbn.
  - now rewrite label_eqb_refl.
  - destruct (label_eqb l k) eqn:H; cbn; rewrite H; [reflexivity | now rewrite IH].
Qed.

Lemma process_timestamp_column_run (E : Env) (df : DataFrame) (pool_name : string) (w : world) :
  _process_timestamp_column E df pool_name w =
  match normalize_timestamps E (column_cells (LStr "timestamp") df) with
  | None => (Ok None, say ("Could not parse timestamp format for pool " ++ pool_name) w)
  | Some dates => (Ok (Some (dated df dates)), w)
  end.
Proof.
  unfold _process_timestamp_column.
  destruct (normalize_timestamps E _) as [[ts z] |]; [| reflexivity].
  rewrite bind_eq. unfold lift, set_index. cbn [cols].
  rewrite get_column_set_column, drop_column_set_column.
  unfold dated, strip_tz, ret. cbn. destruct z; reflexivity.
Qed.

Lemma chart_frame_run (E : Env) (display_name : string) (days : Z)
      (records : list value) (df : DataFrame) (w : world) :
  DataFrame_of_list records = Ok df ->
  has_column (LStr "timestamp") df = true ->
  chart_frame E display_name days (VList records) w =
  match normalize_timestamps E (column_cells (LStr "timestamp") df) with
  | None => (Ok None, say ("Could not parse timestamp format for pool " ++ display_name) w)
  | Some dates =>
      match cutoff_date E days with
      | Ok cutoff =>
          let out := select_rows (map (not_before cutoff) (stamps dates)) (dated df dates) in
          (Ok (Some out),
           say ("Successfully fetched " ++ str_int (Z.of_nat (len out))
                ++ " data points for " ++ display_name) w)
      | Raise e => (Raise e, w)
      end
  end.
Proof.
  intros Hdf Hts. unfold chart_frame.
  destruct records as [| first more].
  - cbn in Hdf. injection Hdf as <-. discriminate.
  - rewrite bind_eq. unfold lift at 1. rewrite Hdf, Hts.
    rewrite bind_eq, process_timestamp_column_run.
    destruct (normalize_timestamps E _) as [dates |]; [| reflexivity].
    rewrite bind_eq. unfold lift at 1.
    destruct (cutoff_date E days) as [cutoff | e]; [| reflexivity].
    rewrite bind_eq. reflexivity.
Qed.

Lemma get_chart_response_run (E : Env) (display_name url : string) (w : world) (resp : response) :
  answered E url (gets w) resp ->
  exists w' lines,
    get_chart_response E display_name url w = (Ok resp, w')
    /\ stdout w' = stdout w ++ lines
    /\ (lines = []
        \/ lines = [("Rate limited for " ++ display_name ++ ", waiting "
                     ++ str_int RATE_LIMIT_RETRY_DELAY ++ " seconds...")%string]).
Proof.
  intros [[Hnet Hst] | (limited & Hnet & Hst & Hnet2)];
    unfold get_chart_response; rewrite bind_eq; unfold requests_get at 1; rewrite Hnet.
  - apply Z.eqb_neq in Hst. rewrite Hst.
    eexists _, []. split; [reflexivity |]. split; [| now left]. cbn. now rewrite app_nil_r.
  - apply Z.eqb_eq in Hst. rewrite Hst.
    rewrite bind_eq. unfold print at 1. rewrite bind_eq.
    rewrite time_sleep_fits by reflexivity.
    unfold requests_get. cbn [gets say emit]. rewrite Hnet2.
    eexists _, [_]. split; [reflexivity |]. split; [reflexivity | now right].
Qed.

Lemma fetch_records_run (E : Env) (pool_id : string) (pool_name : option string) (days : Z)
      (w : world) (records : list value) (df : DataFrame) :
  serves_records E (chart_url pool_id) (gets w) records ->
  DataFrame_of_list records = Ok df ->
  has_column (LStr "timestamp") df = true ->
  exists w' lines,
    stdout w' = stdout w ++ lines
    /\ ~ In ("Could not parse timestamp format for pool "
             ++ display_name_of pool_id pool_name)%string lines
    /\ fetch_pool_chart_data E pool_id pool_name days w =
       try_except
         (chart_frame E (display_name_of pool_id pool_name) days (VList records))
         (fun e =>
            print ("Error fetching chart data for " ++ display_name_of pool_id pool_name
                   ++ ": " ++ exn_str e) ;;
            ret None) w'.
Proof.
  intros (resp & body & Hans & H200 & Hjson & Hbody) Hdf Hts.
  destruct (get_chart_response_run E (display_name_of pool_id pool_name) (chart_url pool_id)
              (say ("Fetching data for " ++ display_name_of pool_id pool_name ++ "...") w)
              resp Hans) as (w' & lines & Hget & Hout & Hlines).
  exists w', (("Fetching data for " ++ display_name_of pool_id pool_name ++ "...")%string :: lines).
  split; [| split].
  - rewrite Hout. cbn. now rewrite <- app_assoc.
  - intros [H | H]; [discriminate |].
    destruct Hlines as [-> | ->]; [destruct H |].
    destruct H as [H | []]. discriminate.
  - unfold fetch_pool_chart_data, try_except.
    rewrite bind_eq. unfold print at 1.
    rewrite bind_eq, Hget.
    apply Z.eqb_eq in H200. rewrite H200.
    rewrite bind_eq. unfold response_json. rewrite Hjson. unfold ret at 1.
    rewrite Hbody. reflexivity.
Qed.

(** A successful answer with a timestamp column, once the request is
    through: the three ways the call can end. *)
Lemma fetch_served_run (E : Env) (pool_id : string) (pool_name : option string) (days : Z)
      (w : world) (records : list value) (df : DataFrame) :
  serves_records E (chart_url pool_id) (gets w) records ->
  DataFrame_of_list records = Ok df ->
  has_column (LStr "timestamp") df = true ->
  let name := display_name_of pool_id pool_name in
  exists w' lines,
    stdout w' = stdout w ++ lines
    /\ ~ In ("Could not parse timestamp format for pool " ++ name)%string lines
    /\ fetch_pool_chart_data E pool_id pool_name days w =
       match normalize_timestamps E (column_cells (LStr "timestamp") df) with
       | None => (Ok None, say ("Could not parse timestamp format for pool " ++ name) w')
       | Some dates =>
           match cutoff_date E days with
           | Ok cutoff =>
               let out := select_rows (map (not_before cutoff) (stamps dates))
                                      (dated df dates) in
               (Ok (Some out),
                say ("Successfully fetched " ++ str_int (Z.of_nat (len out))
                     ++ " data points for " ++ name) w')
           | Raise e =>
               (Ok None,
                say ("Error fetching chart data for " ++ name ++ ": " ++ exn_str e) w')
           end
       end.
Proof.
  intros Hserved Hdf Hts name.
  destruct (fetch_records_run E pool_id pool_name days w records df Hserved Hdf Hts)
    as (w' & lines & Hout & Hnodiag & Hrun).
  exists w', lines. split; [exact Hout |]. split; [exact Hnodiag |].
  rewrite Hrun. unfold try_except.
  rewrite (chart_frame_run E _ days records df w' Hdf Hts).
  destruct (normalize_timestamps E _); [| reflexivity].
  destruct (cutoff_date E days); reflexivity.
Qed.

(** ** Selecting by a mask computed from the dates *)

Lemma select_map_filter {A} (p : A -> bool) (l : list A) :
  select (map p l) l = filter p l.
Proof.
  induction l as [| a l IH]; cbn; [reflexivity |].
  destruct (p a); now rewrite IH.
Qed.

Lemma select_by_dates {A B} (p : A -> bool) (ts : list A) :
  forall vals : list B,
    select (map p ts) vals = map snd (filter (fun x => p (fst x)) (combine ts vals)).
Proof.
  induction ts as [| t ts IH]; intros [| v vals]; cbn; try reflexivity.
  destruct (p t); cbn; now rewrite IH.
Qed.

Lemma get_column_select (mask : list bool) (l : label) (cs : list (label * column)) :
  get_column l (map (fun kc => (fst kc, select_column mask (snd kc))) cs)
  = option_map (select_column mask) (get_column l cs).
Proof.
  induction cs as [| [k c] cs IH]; cbn; [reflexivity |].
  destruct (label_eqb l k); [reflexivity | exact IH].
Qed.

Lemma get_column_drop_other (l d : label) (cs : list (label * column)) :
  l <> d -> get_column l (drop_column d cs) = get_column l cs.
Proof.
  intros Hne. induction cs as [| [k c] cs IH]; cbn; [reflexivity |].
  destruct (label_eqb d k) eqn:Hd.
  - apply label_eqb_eq in Hd. subst k.
    destruct (label_eqb l d) eqn:Hl; [| reflexivity].
    apply label_eqb_eq in Hl. contradiction.
  - cbn. now rewrite IH.
Qed.

(* ================================================================= *)
(** ** fetch_pool_chart_data: the claims *)

(** C1, as the code has it.  For a successful answer whose body is a list of
    records with a timestamp column that parses to [dates], and a window
    whose start [now - days] is a date [datetime] can hold, the call returns
    a table indexed by exactly the dates that are not before
    [now - days], in the order of the payload, and each column keeps the
    cells of exactly those records, in that order: no upper bound on the
    dates, no sorting, duplicate dates kept. *)
Theorem fetch_pool_chart_data_window
    (E : Env) (pool_id : string) (pool_name : option string) (days : Z) (w : world)
    (records : list value) (df : DataFrame) (dates : DatetimeArray) (cutoff : Z) :
  serves_records E (chart_url pool_id) (gets w) records ->
  DataFrame_of_list records = Ok df ->
  has_column (LStr "timestamp") df = true ->
  normalize_timestamps E (column_cells (LStr "timestamp") df) = Some dates ->
  cutoff_date E days = Ok cutoff ->
  exists out,
    fst (fetch_pool_chart_data E pool_id pool_name days w) = Ok (Some out)
    /\ index out
       = DatetimeIndex (Some (LStr "date"))
           (mkDatetimeArray (filter (not_before cutoff) (stamps dates)) None)
    /\ columns out = map fst (drop_column (LStr "date") (cols df))
    /\ forall l vals,
         l <> LStr "date" ->
         get_column l (cols df) = Some (ObjCol vals) ->
         get_column l (cols out)
         = Some (ObjCol (map snd (filter (fun p => not_before cutoff (fst p))
                                         (combine (stamps dates) vals)))).
Proof.
  intros Hserved Hdf Hts Hdates Hcutoff.
  destruct (fetch_served_run E pool_id pool_name days w records df Hserved Hdf Hts)
    as (w' & lines & _ & _ & Hrun).
  rewrite Hrun, Hdates, Hcutoff.
  cbv zeta. cbn [fst].
  eexists. split; [reflexivity |].
  unfold select_rows, dated. cbn [index cols select_index select_array stamps tz].
  split; [| split].
  - unfold select_array. cbn [stamps tz]. now rewrite select_map_filter.
  - unfold columns. cbn [cols]. rewrite map_map. reflexivity.
  - intros l vals Hne Hcol.
    rewrite get_column_select, (get_column_drop_other _ _ _ Hne), Hcol.
    cbn. now rewrite select_by_dates.
Qed.

Lemma fetch_pool_chart_data_window_witness :
  let E := example_env [Ok (chart_response unordered_records)] example_now in
  let w := fresh_world no_files in
  let df := frame_of_records unordered_records in
  serves_records E (chart_url "aa70268e") (gets w) unordered_records
  /\ DataFrame_of_list unordered_records = Ok df
  /\ has_column (LStr "timestamp") df = true
  /\ normalize_timestamps E (column_cells (LStr "timestamp") df)
     = Some (mkDatetimeArray [Some 1700086400000000000; Some 1699920000000000000;
                              Some 1699920000000000000] None)
  /\ cutoff_date E 30 = Ok 1697408000000000000
  /\ exists out,
       fst (fetch_pool_chart_data E "aa70268e" (Some "USDC") 30 w) = Ok (Some out)
       /\ index_stamps out = [Some 1700086400000000000; Some 1699920000000000000;
                              Some 1699920000000000000].
Proof.
  intros E w df.
  assert (Hserved : serves_records E (chart_url "aa70268e") (gets w) unordered_records).
  { exists (chart_response unordered_records),
      (VDict [("status", VStr "success"); ("data", VList unordered_records)]).
    repeat split. left. split; [reflexivity | discriminate]. }
  assert (Hdf : DataFrame_of_list unordered_records = Ok df) by reflexivity.
  assert (Hts : has_column (LStr "timestamp") df = true) by reflexivity.
  assert (Hdates : normalize_timestamps E (column_cells (LStr "timestamp") df)
                   = Some (mkDatetimeArray [Some 1700086400000000000;
                                            Some 1699920000000000000;
                                            Some 1699920000000000000] None))
    by reflexivity.
  assert (Hcutoff : cutoff_date E 30 = Ok 1697408000000000000) by reflexivity.
  repeat (split; [assumption |]).
  destruct (fetch_pool_chart_data_window E "aa70268e" (Some "USDC") 30 w
              unordered_records df _ _ Hserved Hdf Hts Hdates Hcutoff)
    as (out & Hrun & Hindex & _).
  exists out. split; [exact Hrun |].
  unfold index_stamps. rewrite Hindex. reflexivity.
Defined.

(** C1 as stated fails: the provider's records come back in the order
    sent, here with a later date first and a date twice, and the first date
    lies after [now]. *)
Lemma fetch_pool_chart_data_not_sorted_not_unique :
  let E := example_env [Ok (chart_response unordered_records)] example_now in
  exists out,
    fst (fetch_pool_chart_data E "aa70268e" (Some "USDC") 30 (fresh_world no_files))
    = Ok (Some out)
    /\ index_stamps out = [Some 1700086400000000000; Some 1699920000000000000;
                           Some 1699920000000000000]
    /\ strictly_increasing (index_stamps out) = false
    /\ ~ NoDup (index_stamps out)
    /\ cutoff_date E 30 = Ok 1697408000000000000
    /\ all_within 1697408000000000000 (clock E) (index_stamps out) = false.
Proof.
  intros E. eexists. split; [vm_compute; reflexivity |].
  repeat split.
  intros Hnd. inversion Hnd as [| x l Hx Hl]; subst.
  inversion Hl as [| y l' Hy Hl']; subst. apply Hy. now left.
Qed.

(** C5, as the code has it.  For a successful answer whose records have a
    timestamp column, the epoch-seconds reading is tried first and decides
    the index when it succeeds; the general reading is tried second and
    decides the index when only it succeeds.  The line that says the
    timestamps could not be parsed, naming the pool by its display name, is
    printed exactly when both readings fail, and then [None] is returned.
    When a reading succeeds the call returns a table, provided the start of
    the window, [now - days], is a date [datetime] can hold; when it is not,
    the call returns [None] as well. *)
Theorem fetch_pool_chart_data_timestamp_normalization
    (E : Env) (pool_id : string) (pool_name : option string) (days : Z) (w : world)
    (records : list value) (df : DataFrame) :
  serves_records E (chart_url pool_id) (gets w) records ->
  DataFrame_of_list records = Ok df ->
  has_column (LStr "timestamp") df = true ->
  let cells := column_cells (LStr "timestamp") df in
  let run := fetch_pool_chart_data E pool_id pool_name days w in
  let diag := ("Could not parse timestamp format for pool "
               ++ display_name_of pool_id pool_name)%string in
  (forall cutoff,
      cutoff_date E days = Ok cutoff ->
      (forall dates,
          to_datetime_unit_s E cells = inr dates ->
          exists out,
            fst run = Ok (Some out)
            /\ index_stamps out = filter (not_before cutoff) (stamps dates))
      /\ (forall err dates,
          to_datetime_unit_s E cells = inl err ->
          to_datetime E cells = inr dates ->
          exists out,
            fst run = Ok (Some out)
            /\ index_stamps out = filter (not_before cutoff) (stamps dates))
      /\ (fst run = Ok None <-> both_fail E cells))
  /\ (forall e, cutoff_date E days = Raise e -> fst run = Ok None)
  /\ (both_fail E cells -> fst run = Ok None)
  /\ exists lines,
       stdout (snd run) = stdout w ++ lines
       /\ (In diag lines <-> both_fail E cells).
Proof.
  intros Hserved Hdf Hts cells run diag.
  destruct (fetch_served_run E pool_id pool_name days w records df Hserved Hdf Hts)
    as (w' & lines & Hout & Hnodiag & Hrun).
  fold cells in Hrun. fold diag in Hrun, Hnodiag.
  assert (Hboth : both_fail E cells <-> normalize_timestamps E cells = None).
  { unfold both_fail, normalize_timestamps.
    destruct (to_datetime_unit_s E cells) as [e1 | d1];
      [destruct (to_datetime E cells) as [e2 | d2] |].
    - split; eauto.
    - split; [intros (x & y & _ & Hy); discriminate | discriminate].
    - split; [intros (x & y & Hx & _); discriminate | discriminate]. }
  assert (Hparsed : forall dates cutoff,
    normalize_timestamps E cells = Some dates ->
    cutoff_date E days = Ok cutoff ->
    exists out,
      fst run = Ok (Some out)
      /\ index_stamps out = filter (not_before cutoff) (stamps dates)).
  { intros dates cutoff Hn Hc. unfold run. rewrite Hrun, Hn, Hc. cbv zeta. cbn [fst].
    eexists. split; [reflexivity |].
    unfold index_stamps, select_rows, dated, select_array.
    cbn [index select_index stamps tz]. unfold select_array. cbn [stamps tz].
    apply select_map_filter. }
  split; [| split; [| split]].
  - intros cutoff Hc. split; [| split].
    + intros dates Hd. apply Hparsed; [| exact Hc].
      unfold normalize_timestamps. now rewrite Hd.
    + intros err dates He Hd. apply Hparsed; [| exact Hc].
      unfold normalize_timestamps. now rewrite He, Hd.
    + rewrite Hboth. unfold run. rewrite Hrun, Hc.
      destruct (normalize_timestamps E cells); cbn [fst]; split; congruence.
  - intros e He. unfold run. rewrite Hrun, He.
    destruct (normalize_timestamps E cells); reflexivity.
  - intros Hfail. apply Hboth in Hfail. unfold run. now rewrite Hrun, Hfail.
  - unfold run. rewrite Hrun.
    destruct (normalize_timestamps E cells) as [dates |] eqn:Hn.
    + destruct (cutoff_date E days) as [cutoff | e]; cbv zeta; cbn [snd];
        (eexists (lines ++ [_]); split;
         [ unfold say; cbn [stdout]; rewrite Hout, <- app_assoc; reflexivity
         | rewrite Hboth; split; [| discriminate];
           intros Hin; apply in_app_or in Hin; destruct Hin as [Hin | [Hin | []]];
           [ contradiction | unfold diag in Hin; discriminate ] ]).
    + cbn [snd]. exists (lines ++ [diag]). split.
      * unfold say. cbn [stdout]. rewrite Hout, <- app_assoc. reflexivity.
      * rewrite Hboth. split; [reflexivity |]. intros _.
        apply in_or_app. right. now left.
Qed.

Lemma fetch_pool_chart_data_timestamp_normalization_witness :
  let E := example_env [Ok (mkResponse 429 "" None); Ok (chart_response unparseable_records)]
                       example_now in
  let w := fresh_world no_files in
  let df := frame_of_records unparseable_records in
  serves_records E (chart_url "aa70268e") (gets w) unparseable_records
  /\ DataFrame_of_list unparseable_records = Ok df
  /\ has_column (LStr "timestamp") df = true
  /\ both_fail E (column_cells (LStr "timestamp") df)
  /\ fst (fetch_pool_chart_data E "aa70268e" None 30 w) = Ok None.
Proof.
  intros E w df.
  assert (Hserved : serves_records E (chart_url "aa70268e") (gets w) unparseable_records).
  { exists (chart_response unparseable_records),
      (VDict [("status", VStr "success"); ("data", VList unparseable_records)]).
    repeat split. right. exists (mkResponse 429 "" None). repeat split. }
  assert (Hdf : DataFrame_of_list unparseable_records = Ok df) by reflexivity.
  assert (Hts : has_column (LStr "timestamp") df = true) by reflexivity.
  assert (Hfail : both_fail E (column_cells (LStr "timestamp") df))
    by (do 2 eexists; split; reflexivity).
  repeat (split; [assumption |]).
  exact (proj1 (proj2 (proj2
           (fetch_pool_chart_data_timestamp_normalization E "aa70268e" None 30 w
              unparseable_records df Hserved Hdf Hts))) Hfail).
Defined.

(** C5 as stated fails: with a window of a million days the start of the
    window lies before the year 1, which [datetime] cannot hold.  The
    timestamps are read as epoch seconds without trouble, and yet the call
    returns [None]; the line about unparseable timestamps is not printed. *)
Lemma fetch_pool_chart_data_none_though_parsed :
  let E := example_env [Ok (chart_response unordered_records)] example_now in
  let run := fetch_pool_chart_data E "aa70268e" (Some "USDC") 1000000 (fresh_world no_files) in
  fst run = Ok None
  /\ to_datetime_unit_s E (column_cells (LStr "timestamp") (frame_of_records unordered_records))
     = inr (mkDatetimeArray [Some 1700086400000000000; Some 1699920000000000000;
                             Some 1699920000000000000] None)
  /\ ~ both_fail E (column_cells (LStr "timestamp") (frame_of_records unordered_records))
  /\ ~ In "Could not parse timestamp format for pool USDC" (stdout (snd run)).
Proof.
  intros E run. split; [vm_compute; reflexivity |].
  split; [vm_compute; reflexivity |]. split.
  - intros (e1 & e2 & H1 & _). vm_compute in H1. discriminate.
  - vm_compute. intros H. repeat (destruct H as [H | H]; [discriminate |]). exact H.
Qed.

(* ================================================================= *)
(** ** Worked examples *)

(** A 429, then a timeout, then a good answer from the secondary provider:
    5 s of backoff, 3 s of pacing, the fixed 2.0 s after the fault, 6 s of
    pacing, and the cooldown of 1.5 s before the response is returned. *)
Example three_attempts_secondary :
  let E := example_env [Ok rate_limited_response; Raise (Exn "Timeout" "timed out");
                        Ok pong_response] example_now in
  let run := safe_api_request E "https://api.coingecko.com/api/v3/ping" 3 true None None
               (fresh_world no_files) in
  fst run = Ok (Some pong_response)
  /\ sleeps (trace (snd run)) = [inject_Z 5; inject_Z 3; RATE_LIMIT_DELAY; inject_Z 6;
                                 COINGECKO_FREE_TIER_DELAY]
  /\ count_gets (trace (snd run)) = 3%nat.
Proof.
  vm_compute. repeat split.
Qed.

(** The same answers with a budget of two attempts: no response, and no
    sleep after the fault that used the last attempt. *)
Example two_attempts_primary :
  let E := example_env [Ok rate_limited_response; Raise (Exn "Timeout" "timed out");
                        Ok pong_response] example_now in
  let run := safe_api_request E "https://yields.llama.fi/pools" 2 false None None
               (fresh_world no_files) in
  fst run = Ok None
  /\ sleeps (trace (snd run)) = [inject_Z 5]
  /\ count_gets (trace (snd run)) = 2%nat.
Proof.
  vm_compute. repeat split.
Qed.

(** A cache with both tables is read through the first strategy and the
    connection is closed. *)
Example load_refreshed_cache :
  let run := load_data_from_db (example_env [] example_now) DEFAULT_DB_FILENAME
               (fresh_world (with_store (Database refreshed_cache))) in
  (exists merged meta,
      fst run = Ok (Some merged, Some meta)
      /\ index_name (index merged) = Some (LStr "index")
      /\ is_DatetimeIndex (index merged) = true
      /\ columns merged = [LStr "0"; LStr "1"]
      /\ len meta = 2%nat)
  /\ open_conns (snd run) = []
  /\ In (SqlClose DEFAULT_DB_FILENAME) (trace (snd run)).
Proof.
  vm_compute. split; [| split].
  - eexists _, _. repeat split.
  - reflexivity.
  - do 4 right. now left.
Qed.

(** A first call on a path without a file creates the empty database and
    fails; so does the second call. *)
Example load_missing_file_twice :
  let E := example_env [] example_now in
  let first := load_data_from_db E DEFAULT_DB_FILENAME (fresh_world no_files) in
  let second := load_data_from_db E DEFAULT_DB_FILENAME (snd first) in
  fst first = Ok (None, None)
  /\ fs (snd first) DEFAULT_DB_FILENAME = Database []
  /\ fst second = Ok (None, None).
Proof.
  vm_compute. repeat split.
Qed.

(** Validation of a cache table against the columns an analysis needs. *)
Example validate_examples :
  let df := frame_of_table (mkTable [("index", "INTEGER"); ("0", "REAL")]
                                    [[VInt 0; VFloat 5 (-1)]] false) in
  let w := fresh_world no_files in
  fst (validate_dataframe (Some df) (Some [LStr "0"]) w) = Ok true
  /\ fst (validate_dataframe (Some df) (Some [LStr "0"; LStr "7"]) w) = Ok false
  /\ stdout (snd (validate_dataframe (Some df) (Some [LStr "0"; LStr "7"]) w))
     = ["Missing required columns: ['7']"]
  /\ fst (validate_dataframe (Some df) None w) = Ok true
  /\ fst (validate_dataframe (Some (mkFrame (RangeIndex 0) [])) None w) = Ok false
  /\ fst (validate_dataframe None (Some []) w) = Ok false.
Proof.
  vm_compute. repeat split.
Qed.

(* ================================================================= *)
(** * Further properties *)

(** ** safe_api_request: how a call ends and how long it sleeps *)

Lemma total_sleep_app (l1 l2 : list event) :
  (total_sleep (l1 ++ l2) == total_sleep l1 + total_sleep l2)%Q.
Proof.
  induction l1 as [| e l1 IH]; cbn [app total_sleep].
  - now rewrite Qplus_0_l.
  - destruct e; try exact IH. rewrite IH. apply Qplus_assoc.
Qed.

Lemma total_sleep_pacing (c : bool) (k : nat) :
  (total_sleep (pacing c k) == inject_Z (if c then 3 * Z.of_nat k else 0))%Q.
Proof.
  unfold pacing. destruct c; cbn [andb].
  - destruct (0 <? Z.of_nat k) eqn:Hk; cbn [total_sleep].
    + apply Qplus_0_r.
    + apply Z.ltb_ge in Hk. replace (Z.of_nat k) with 0 by lia. reflexivity.
  - reflexivity.
Qed.

Section RunEndings.
Variable E : Env.
Variable req : request.
Variable is_coingecko : bool.
Variable max_retries : Z.

Let run := attempts_run E req is_coingecko max_retries.

(** The seconds slept when every attempt is answered 429 and no backoff is
    refused. *)
Lemma run_total_sleep k n g r T :
  run k n g r T ->
  Z.of_nat (k + n) <= BACKOFF_ATTEMPTS ->
  (forall j, (j < n)%nat ->
     exists resp, network E (g + j) req = Ok resp /\ status_code resp = 429) ->
  r = None
  /\ (total_sleep T
      == inject_Z (RATE_LIMIT_RETRY_DELAY * 2 ^ Z.of_nat k * (2 ^ Z.of_nat n - 1)
                   + (if is_coingecko then 3 * Z.of_nat (list_sum (seq k n)) else 0)))%Q.
Proof.
  intros H. run_cases H; intros Hfew Hall.
  - split; [reflexivity |]. cbn [total_sleep seq list_sum].
    match goal with
    | |- (_ == inject_Z ?z)%Q =>
        replace z with 0 by (cbn; destruct is_coingecko; lia)
    end.
    reflexivity.
  - exfalso. pose proof PACING_ATTEMPTS_pos.
    assert (BACKOFF_ATTEMPTS < PACING_ATTEMPTS) by reflexivity. lia.
  - destruct IH as [-> IH].
    { lia. }
    { intros j Hj. specialize (Hall (S j) ltac:(lia)).
      now rewrite Nat.add_succ_r in Hall. }
    split; [reflexivity |].
    rewrite total_sleep_app, total_sleep_pacing. cbn [total_sleep].
    rewrite IH, <- !inject_Z_plus.
    apply inject_Z_injective.
    change (list_sum (seq k (S n))) with (k + list_sum (seq (S k) n))%nat.
    rewrite !Nat2Z.inj_succ, !Z.pow_succ_r by lia.
    rewrite Nat2Z.inj_add.
    destruct is_coingecko; ring.
  - exfalso. lia.
  - destruct (Hall 0%nat ltac:(lia)) as (resp & Hr & _).
    rewrite Nat.add_0_r in Hr. congruence.
  - destruct (Hall 0%nat ltac:(lia)) as (resp & Hr & Hs).
    rewrite Nat.add_0_r, Hnet in Hr. injection Hr as <-. contradiction.
Qed.
End RunEndings.

(** X1.  When [safe_api_request] returns a response, that response is the
    answer to the last request of the call, and the only thing the call does
    afterwards is the cooldown sleep of [COINGECKO_FREE_TIER_DELAY] for the
    secondary provider, nothing for the primary one. *)
Theorem safe_api_request_returns_last_answer
    (E : Env) (url : string) (max_retries : Z) (is_coingecko : bool)
    (api_key : option string) (params : option (list (string * string))) (w : world) :
  exists r T w',
    safe_api_request E url max_retries is_coingecko api_key params w = (Ok r, w')
    /\ trace w' = trace w ++ T
    /\ forall resp,
         r = Some resp ->
         exists pre,
           T = pre ++ HttpGet (mkRequest url (headers_for api_key) params) (Ok resp)
                 :: (if is_coingecko then [Sleep COINGECKO_FREE_TIER_DELAY] else []).
Proof.
  destruct (safe_api_request_run E url max_retries is_coingecko api_key params w)
    as (r & T & w' & Hrun & Htr & _ & _ & Hruns).
  exists r, T, w'. split; [exact Hrun |]. split; [exact Htr |].
  intros resp Hr.
  exact (run_returns_last _ _ _ _ _ _ _ _ _ Hruns resp Hr).
Qed.

(** X2.  A fault at the last attempt ends the call: nothing is slept after
    it and [None] is returned. *)
Theorem safe_api_request_no_sleep_after_last_fault
    (E : Env) (url : string) (max_retries : Z) (is_coingecko : bool)
    (api_key : option string) (params : option (list (string * string))) (w : world) :
  exists r T w',
    safe_api_request E url max_retries is_coingecko api_key params w = (Ok r, w')
    /\ trace w' = trace w ++ T
    /\ forall pre rq e post,
         T = pre ++ HttpGet rq (Raise e) :: post ->
         Z.of_nat (count_gets pre) = max_retries - 1 ->
         post = [] /\ r = None.
Proof.
  destruct (safe_api_request_run E url max_retries is_coingecko api_key params w)
    as (r & T & w' & Hrun & Htr & _ & _ & Hruns).
  exists r, T, w'. split; [exact Hrun |]. split; [exact Htr |].
  intros pre rq e post Heq Hlast.
  assert (Hpost : post = []).
  { assert (Hmax : max_retries = Z.of_nat (0 + Z.to_nat max_retries)) by lia.
    apply (run_last_handled _ _ _ _ _ _ _ _ _ Hmax Hruns _ _ _ _ Heq) with (e := e);
      [cbn; lia | reflexivity]. }
  split; [exact Hpost |]. subst post.
  destruct r as [resp |]; [| reflexivity]. exfalso.
  destruct (run_returns_last _ _ _ _ _ _ _ _ _ Hruns resp eq_refl) as (pre' & HT).
  rewrite HT in Heq. unfold cooldown in Heq.
  destruct is_coingecko.
  - change (pre' ++ HttpGet (mkRequest url (headers_for api_key) params) (Ok resp)
                 :: [Sleep COINGECKO_FREE_TIER_DELAY])
      with (pre' ++ [HttpGet (mkRequest url (headers_for api_key) params) (Ok resp)]
                 ++ [Sleep COINGECKO_FREE_TIER_DELAY]) in Heq.
    rewrite app_assoc in Heq. apply app_inj_tail in Heq. destruct Heq as [_ Heq].
    discriminate.
  - apply app_inj_tail in Heq. destruct Heq as [_ Heq]. discriminate.
Qed.

(** X3.  A call makes at most [max_retries] requests, and when it returns
    [None] it has used up its budget of requests: [max_retries] of them
    (none when [max_retries] is negative), for the secondary provider no
    more than the [PACING_ATTEMPTS] attempts whose pacing sleep
    [time.sleep] takes. *)
Theorem safe_api_request_exhausts_budget
    (E : Env) (url : string) (max_retries : Z) (is_coingecko : bool)
    (api_key : option string) (params : option (list (string * string))) (w : world) :
  exists r T w',
    safe_api_request E url max_retries is_coingecko api_key params w = (Ok r, w')
    /\ trace w' = trace w ++ T
    /\ Z.of_nat (count_gets T) <= Z.max 0 max_retries
    /\ (r = None ->
        Z.of_nat (count_gets T) = Z.max 0 (request_budget is_coingecko max_retries)).
Proof.
  destruct (safe_api_request_run E url max_retries is_coingecko api_key params w)
    as (r & T & w' & Hrun & Htr & _ & _ & Hruns).
  exists r, T, w'. split; [exact Hrun |]. split; [exact Htr |].
  destruct (run_count _ _ _ _ _ _ _ _ _ Hruns) as [Hle Heq].
  pose proof (remaining_budget_le is_coingecko 0 (Z.to_nat max_retries)).
  pose proof (remaining_budget_top is_coingecko max_retries) as Htop.
  split; [lia |]. intros Hr. rewrite (Heq Hr). exact Htop.
Qed.

(** X4.  When every attempt of the budget is answered 429 and the budget is
    at most [BACKOFF_ATTEMPTS], so that no backoff is refused, the call
    returns [None] after sleeping
    [RATE_LIMIT_RETRY_DELAY * (2^max_retries - 1)] seconds of backoff, plus,
    for the secondary provider, [3 * (0 + 1 + ... + (max_retries - 1))]
    seconds of pacing. *)
Theorem safe_api_request_total_backoff
    (E : Env) (url : string) (max_retries : Z) (is_coingecko : bool)
    (api_key : option string) (params : option (list (string * string))) (w : world) :
  max_retries <= BACKOFF_ATTEMPTS ->
  (forall j, Z.of_nat j < max_retries ->
     exists resp,
       network E (gets w + j) (mkRequest url (headers_for api_key) params) = Ok resp
       /\ status_code resp = 429) ->
  exists T w',
    safe_api_request E url max_retries is_coingecko api_key params w = (Ok None, w')
    /\ trace w' = trace w ++ T
    /\ (total_sleep T
        == inject_Z (RATE_LIMIT_RETRY_DELAY * (2 ^ Z.max 0 max_retries - 1)
                     + (if is_coingecko
                        then 3 * Z.of_nat (list_sum (seq 0 (Z.to_nat max_retries)))
                        else 0)))%Q.
Proof.
  intros Hfew Hall.
  destruct (safe_api_request_run E url max_retries is_coingecko api_key params w)
    as (r & T & w' & Hrun & Htr & _ & _ & Hruns).
  destruct (run_total_sleep _ _ _ _ _ _ _ _ _ Hruns) as [-> Hsum].
  { assert (0 <= BACKOFF_ATTEMPTS) by (unfold BACKOFF_ATTEMPTS; lia). lia. }
  { intros j Hj. apply Hall. lia. }
  exists T, w'. split; [exact Hrun |]. split; [exact Htr |].
  rewrite Hsum. apply inject_Z_injective.
  replace (Z.of_nat (Z.to_nat max_retries)) with (Z.max 0 max_retries) by lia.
  change (2 ^ Z.of_nat 0) with 1. ring.
Qed.

Lemma safe_api_request_total_backoff_witness :
  let E := example_env [Ok rate_limited_response; Ok rate_limited_response;
                        Ok rate_limited_response] example_now in
  3 <= BACKOFF_ATTEMPTS
  /\ (forall j, Z.of_nat j < 3 ->
     exists resp,
       network E (gets (fresh_world no_files) + j)
         (mkRequest "https://yields.llama.fi/pools" (headers_for None) None) = Ok resp
       /\ status_code resp = 429)
  /\ exists T w',
       safe_api_request E "https://yields.llama.fi/pools" 3 false None None
         (fresh_world no_files) = (Ok None, w')
       /\ trace w' = trace (fresh_world no_files) ++ T
       /\ (total_sleep T == inject_Z 35)%Q.
Proof.
  intros E.
  assert (Hfew : 3 <= BACKOFF_ATTEMPTS) by (unfold BACKOFF_ATTEMPTS; lia).
  assert (Hall : forall j, Z.of_nat j < 3 ->
     exists resp,
       network E (gets (fresh_world no_files) + j)
         (mkRequest "https://yields.llama.fi/pools" (headers_for None) None) = Ok resp
       /\ status_code resp = 429).
  { intros [| [| [| j]]] Hj; try lia; exists rate_limited_response; split; reflexivity. }
  split; [exact Hfew |]. split; [exact Hall |].
  exact (safe_api_request_total_backoff E "https://yields.llama.fi/pools" 3 false None None
           (fresh_world no_files) Hfew Hall).
Defined.

(** X5.  Every request of a call goes to [url] with [params], and carries
    the header [x-cg-pro-api-key] with the key exactly when a non-empty key
    was given: a call without a key, or with the empty string as key, sends
    no header at all. *)
Theorem safe_api_request_headers
    (E : Env) (url : string) (max_retries : Z) (is_coingecko : bool)
    (api_key : option string) (params : option (list (string * string))) (w : world) :
  exists r T w',
    safe_api_request E url max_retries is_coingecko api_key params w = (Ok r, w')
    /\ trace w' = trace w ++ T
    /\ forall pre rq o post,
         T = pre ++ HttpGet rq o :: post ->
         req_url rq = url
         /\ req_params rq = params
         /\ req_headers rq = match api_key with
                             | Some (String c key) => [("x-cg-pro-api-key", String c key)]
                             | _ => []
                             end.
Proof.
  destruct (safe_api_request_run E url max_retries is_coingecko api_key params w)
    as (r & T & w' & Hrun & Htr & _ & _ & Hruns).
  exists r, T, w'. split; [exact Hrun |]. split; [exact Htr |].
  intros pre rq o post Heq.
  destruct (run_requests _ _ _ _ _ _ _ _ _ Hruns _ _ _ _ Heq) as (-> & _ & _).
  repeat split. destruct api_key as [[| c key] |]; reflexivity.
Qed.

(* ================================================================= *)
(** ** fetch_pool_chart_data: requests, failures and the window *)

Lemma quiet_ret {A} (a : A) : quiet (ret a).
Proof. intros w. cbn. auto. Qed.

Lemma quiet_raise {A} (e : exn) : quiet (@raise A e).
Proof. intros w. cbn. auto. Qed.

Lemma quiet_lift {A} (r : res A) : quiet (lift r).
Proof. intros w. cbn. auto. Qed.

Lemma quiet_print (line : string) : quiet (print line).
Proof. intros w. cbn. auto. Qed.

Lemma quiet_bind {A B} (m : M A) (k : A -> M B) :
  quiet m -> (forall a, quiet (k a)) -> quiet (bind m k).
Proof.
  intros Hm Hk w. unfold bind. specialize (Hm w).
  destruct (m w) as [[a | e] w1]; cbn [snd] in *.
  - destruct (Hk a w1) as (H1 & H2 & H3 & H4).
    destruct Hm as (G1 & G2 & G3 & G4).
    rewrite H1, H2, H3, H4. auto.
  - exact Hm.
Qed.

Lemma quiet_try_except {A} (m : M A) (h : exn -> M A) :
  quiet m -> (forall e, quiet (h e)) -> quiet (try_except m h).
Proof.
  intros Hm Hh w. unfold try_except. specialize (Hm w).
  destruct (m w) as [[a | e] w1]; cbn [snd] in *.
  - exact Hm.
  - destruct (Hh e w1) as (H1 & H2 & H3 & H4).
    destruct Hm as (G1 & G2 & G3 & G4).
    rewrite H1, H2, H3, H4. auto.
Qed.

#[local] Hint Resolve quiet_ret quiet_raise quiet_lift quiet_print : trace.

Lemma quiet_process_timestamp_column (E : Env) (df : DataFrame) (pool_name : string) :
  quiet (_process_timestamp_column E df pool_name).
Proof.
  unfold _process_timestamp_column.
  destruct (normalize_timestamps E _).
  - apply quiet_bind; auto with trace.
  - apply quiet_bind; auto with trace.
Qed.

Lemma quiet_chart_frame (E : Env) (display_name : string) (days : Z) (data : value) :
  quiet (chart_frame E display_name days data).
Proof.
  unfold chart_frame.
  destruct data as [| | | | | [| first more] |];
    try (apply quiet_bind; auto with trace).
  intros df. destruct (has_column (LStr "timestamp") df).
  - apply quiet_bind; [apply quiet_process_timestamp_column |].
    intros [out |]; auto with trace.
    apply quiet_bind; auto with trace.
    intros cutoff. apply quiet_bind; auto with trace.
    intros mask. apply quiet_bind; auto with trace.
  - apply quiet_bind; auto with trace.
Qed.

(** What is left of the call once the response is there. *)
Lemma quiet_after_response (E : Env) (display_name : string) (days : Z) (resp : response) :
  quiet (if status_code resp =? 200
         then data <- response_json E resp ;;
              chart_frame E display_name days (unwrap_data data)
         else print ("Error fetching chart data for " ++ display_name ++ ": "
                     ++ str_int (status_code resp)) ;;
              ret None).
Proof.
  destruct (status_code resp =? 200).
  - apply quiet_bind.
    + unfold response_json. destruct (json resp); auto with trace.
    + intros data. apply quiet_chart_frame.
  - apply quiet_bind; auto with trace.
Qed.

Lemma last_line_say (line : string) (w : world) : last_line (say line w) = Some line.
Proof.
  unfold last_line, say. cbn [stdout]. now rewrite rev_app_distr.
Qed.

(** The requests and the sleep of [get_chart_response], whatever the
    network answers. *)
Lemma get_chart_response_trace (E : Env) (display_name url : string) (w : world) :
  let req := mkRequest url [] None in
  let run := get_chart_response E display_name url w in
  fs (snd run) = fs w
  /\ open_conns (snd run) = open_conns w
  /\ ((trace (snd run) = trace w ++ [HttpGet req (network E (gets w) req)]
       /\ fst run = network E (gets w) req
       /\ forall limited, network E (gets w) req = Ok limited -> status_code limited <> 429)
      \/ (exists limited,
            network E (gets w) req = Ok limited
            /\ status_code limited = 429
            /\ fst run = network E (S (gets w)) req
            /\ trace (snd run)
               = trace w ++ [HttpGet req (Ok limited);
                             Sleep (inject_Z RATE_LIMIT_RETRY_DELAY);
                             HttpGet req (network E (S (gets w)) req)])).
Proof.
  intros req run. unfold run, get_chart_response.
  rewrite bind_eq. unfold requests_get. fold req. cbv beta.
  destruct (network E (gets w) req) as [resp | e] eqn:Hnet.
  - destruct (status_code resp =? 429) eqn:Hst.
    + rewrite bind_eq. unfold print. rewrite bind_eq.
      rewrite time_sleep_fits by reflexivity.
      cbn [gets say emit fst snd fs open_conns trace stdout].
      split; [reflexivity |]. split; [reflexivity |].
      right. exists resp. apply Z.eqb_eq in Hst.
      split; [reflexivity |]. split; [exact Hst |]. split; [reflexivity |].
      rewrite <- !app_assoc. reflexivity.
    + cbn [ret fst snd fs open_conns trace gets stdout].
      split; [reflexivity |]. split; [reflexivity |].
      left. split; [reflexivity |]. split; [reflexivity |].
      intros limited Hl. injection Hl as <-. now apply Z.eqb_neq.
  - cbn [ret fst snd fs open_conns trace gets stdout].
    split; [reflexivity |]. split; [reflexivity |].
    left. split; [reflexivity |]. split; [reflexivity |].
    intros limited Hl. discriminate.
Qed.

(** A handler that always returns makes the whole [try] return. *)
Lemma try_except_returns {A} (m : M A) (h : exn -> M A) (w : world) :
  (forall e w', exists a, fst (h e w') = Ok a) ->
  exists a, fst (try_except m h w) = Ok a.
Proof.
  intros Hh. unfold try_except.
  destruct (m w) as [[a | e] w1]; [cbn; eauto | apply Hh].
Qed.

(** The call, split at the response. *)
Lemma fetch_unfold (E : Env) (pool_id : string) (pool_name : option string)
      (days : Z) (w : world) :
  let dn := display_name_of pool_id pool_name in
  fetch_pool_chart_data E pool_id pool_name days w =
  match get_chart_response E dn (chart_url pool_id)
          (say ("Fetching data for " ++ dn ++ "...") w) with
  | (Ok resp, w1) =>
      try_except
        (if status_code resp =? 200
         then data <- response_json E resp ;;
              chart_frame E dn days (unwrap_data data)
         else print ("Error fetching chart data for " ++ dn ++ ": "
                     ++ str_int (status_code resp)) ;;
              ret None)
        (fun e => print ("Error fetching chart data for " ++ dn ++ ": "
                         ++ exn_str e) ;; ret None)
        w1
  | (Raise e, w1) =>
      (Ok None, say ("Error fetching chart data for " ++ dn ++ ": " ++ exn_str e) w1)
  end.
Proof.
  intros dn. unfold fetch_pool_chart_data. fold dn.
  unfold try_except. rewrite bind_eq. unfold print at 1.
  rewrite bind_eq.
  destruct (get_chart_response E dn (chart_url pool_id) _) as [[resp | e] w1];
    reflexivity.
Qed.

(** The call returns, and all it does besides printing is done by
    [get_chart_response]. *)
Lemma fetch_after_response (E : Env) (pool_id : string) (pool_name : option string)
      (days : Z) (w : world) :
  let dn := display_name_of pool_id pool_name in
  let got := get_chart_response E dn (chart_url pool_id)
               (say ("Fetching data for " ++ dn ++ "...") w) in
  let run := fetch_pool_chart_data E pool_id pool_name days w in
  (exists r, fst run = Ok r)
  /\ trace (snd run) = trace (snd got)
  /\ fs (snd run) = fs (snd got)
  /\ open_conns (snd run) = open_conns (snd got)
  /\ (forall e, fst got = Raise e ->
        fst run = Ok None
        /\ last_line (snd run)
           = Some ("Error fetching chart data for " ++ dn ++ ": " ++ exn_str e)%string).
Proof.
  intros dn got run. unfold run. rewrite fetch_unfold. fold dn. fold got.
  destruct got as [[resp | e] w1]; cbn [fst snd].
  - pose proof (quiet_try_except _ _ (quiet_after_response E dn days resp)
                  (fun e => quiet_bind _ _
                              (quiet_print ("Error fetching chart data for " ++ dn ++ ": "
                                            ++ exn_str e))
                              (fun _ => quiet_ret None)) w1) as Hq.
    assert (Hok : exists r, fst (try_except
        (if status_code resp =? 200
         then data <- response_json E resp ;;
              chart_frame E dn days (unwrap_data data)
         else print ("Error fetching chart data for " ++ dn ++ ": "
                     ++ str_int (status_code resp)) ;;
              ret None)
        (fun e => print ("Error fetching chart data for " ++ dn ++ ": "
                         ++ exn_str e) ;; ret None) w1) = Ok r).
    { apply try_except_returns. intros e w2. cbn. eauto. }
    destruct Hq as (H1 & _ & H3 & H4).
    split; [exact Hok |]. split; [exact H1 |]. split; [exact H3 |]. split; [exact H4 |].
    discriminate.
  - split; [eauto |]. do 3 (split; [reflexivity |]).
    intros e' He. injection He as <-. split; [reflexivity | apply last_line_say].
Qed.

Lemma get_chart_response_fails (E : Env) (display_name url : string) (w : world) (e : exn) :
  request_failed E url (gets w) e ->
  fst (get_chart_response E display_name url w) = Raise e.
Proof.
  intros Hfail.
  destruct (get_chart_response_trace E display_name url w)
    as (_ & _ & [(_ & Hrun & Hnot) | (limited & Hnet & Hst & Hrun & _)]).
  - rewrite Hrun. destruct Hfail as [Hf | (limited & Hnet & Hst & _)]; [exact Hf |].
    exfalso. exact (Hnot limited Hnet Hst).
  - rewrite Hrun. destruct Hfail as [Hf | (limited' & Hnet' & _ & Hf)]; [congruence |].
    exact Hf.
Qed.

(** The call once [get_chart_response] has come back with [resp]. *)
Lemma fetch_with_response (E : Env) (pool_id : string) (pool_name : option string)
      (days : Z) (w : world) (resp : response) :
  answered E (chart_url pool_id) (gets w) resp ->
  let dn := display_name_of pool_id pool_name in
  exists w1,
    fetch_pool_chart_data E pool_id pool_name days w =
    try_except
      (if status_code resp =? 200
       then data <- response_json E resp ;;
            chart_frame E dn days (unwrap_data data)
       else print ("Error fetching chart data for " ++ dn ++ ": "
                   ++ str_int (status_code resp)) ;;
            ret None)
      (fun e => print ("Error fetching chart data for " ++ dn ++ ": "
                       ++ exn_str e) ;; ret None)
      w1.
Proof.
  intros Hans dn.
  destruct (get_chart_response_run E dn (chart_url pool_id)
              (say ("Fetching data for " ++ dn ++ "...") w) resp Hans)
    as (w1 & lines & Hget & _).
  exists w1. rewrite fetch_unfold. fold dn. now rewrite Hget.
Qed.

(** X6.  A call never raises, leaves files and connections alone, and makes
    one request, or, when the first answer is a 429, that request, one sleep
    of [RATE_LIMIT_RETRY_DELAY] seconds and a second request: never more,
    whatever the second answer is. *)
Theorem fetch_pool_chart_data_single_retry
    (E : Env) (pool_id : string) (pool_name : option string) (days : Z) (w : world) :
  let req := chart_request pool_id in
  let run := fetch_pool_chart_data E pool_id pool_name days w in
  (exists r, fst run = Ok r)
  /\ fs (snd run) = fs w
  /\ open_conns (snd run) = open_conns w
  /\ ((trace (snd run) = trace w ++ [HttpGet req (network E (gets w) req)]
       /\ forall limited,
            network E (gets w) req = Ok limited -> status_code limited <> 429)
      \/ (exists limited,
            network E (gets w) req = Ok limited
            /\ status_code limited = 429
            /\ trace (snd run)
               = trace w ++ [HttpGet req (Ok limited);
                             Sleep (inject_Z RATE_LIMIT_RETRY_DELAY);
                             HttpGet req (network E (S (gets w)) req)])).
Proof.
  intros req run.
  destruct (fetch_after_response E pool_id pool_name days w)
    as (Hok & Htr & Hfs & Hoc & _).
  destruct (get_chart_response_trace E (display_name_of pool_id pool_name)
              (chart_url pool_id)
              (say ("Fetching data for " ++ display_name_of pool_id pool_name ++ "...") w))
    as (Gfs & Goc & Gtr).
  cbn [say gets trace fs open_conns] in Gfs, Goc, Gtr.
  split; [exact Hok |].
  split; [unfold run; rewrite Hfs; exact Gfs |].
  split; [unfold run; rewrite Hoc; exact Goc |].
  unfold run. rewrite Htr.
  destruct Gtr as [(G1 & _ & G3) | (limited & G1 & G2 & _ & G4)].
  - left. split; [exact G1 | exact G3].
  - right. exists limited. auto.
Qed.

(** X7.  When the request raises (at once, or on the retry after a 429), the
    call returns [None] and its last line is the error line with the display
    name and the message of the exception. *)
Theorem fetch_pool_chart_data_transport_fault
    (E : Env) (pool_id : string) (pool_name : option string) (days : Z) (w : world)
    (e : exn) :
  request_failed E (chart_url pool_id) (gets w) e ->
  fst (fetch_pool_chart_data E pool_id pool_name days w) = Ok None
  /\ last_line (snd (fetch_pool_chart_data E pool_id pool_name days w))
     = Some ("Error fetching chart data for " ++ display_name_of pool_id pool_name
             ++ ": " ++ exn_str e)%string.
Proof.
  intros Hfail.
  destruct (fetch_after_response E pool_id pool_name days w) as (_ & _ & _ & _ & Herr).
  apply Herr. apply get_chart_response_fails. exact Hfail.
Qed.

Lemma fetch_pool_chart_data_transport_fault_witness :
  let E := example_env [Ok rate_limited_response] example_now in
  request_failed E (chart_url "aa70268e") (gets (fresh_world no_files))
    (Exn "ConnectionError" "Connection refused")
  /\ fst (fetch_pool_chart_data E "aa70268e" (Some "") 30 (fresh_world no_files)) = Ok None
  /\ last_line (snd (fetch_pool_chart_data E "aa70268e" (Some "") 30 (fresh_world no_files)))
     = Some "Error fetching chart data for aa70268e: Connection refused".
Proof.
  intros E.
  assert (Hfail : request_failed E (chart_url "aa70268e") (gets (fresh_world no_files))
                    (Exn "ConnectionError" "Connection refused")).
  { right. exists rate_limited_response. repeat split. }
  split; [exact Hfail |].
  exact (fetch_pool_chart_data_transport_fault E "aa70268e" (Some "") 30
           (fresh_world no_files) _ Hfail).
Defined.

(** X8.  When the answer that counts has a status other than 200 (a second
    429 included), the call returns [None] and its last line is the error
    line with the display name and the status code. *)
Theorem fetch_pool_chart_data_error_status
    (E : Env) (pool_id : string) (pool_name : option string) (days : Z) (w : world)
    (resp : response) :
  answered E (chart_url pool_id) (gets w) resp ->
  status_code resp <> 200 ->
  fst (fetch_pool_chart_data E pool_id pool_name days w) = Ok None
  /\ last_line (snd (fetch_pool_chart_data E pool_id pool_name days w))
     = Some ("Error fetching chart data for " ++ display_name_of pool_id pool_name
             ++ ": " ++ str_int (status_code resp))%string.
Proof.
  intros Hans Hst.
  destruct (fetch_with_response E pool_id pool_name days w resp Hans) as (w1 & ->).
  apply Z.eqb_neq in Hst. rewrite Hst.
  unfold try_except. rewrite bind_eq. unfold print at 1. cbn [ret fst snd].
  split; [reflexivity | apply last_line_say].
Qed.

Lemma fetch_pool_chart_data_error_status_witness :
  let E := example_env [Ok rate_limited_response; Ok rate_limited_response] example_now in
  answered E (chart_url "aa70268e") (gets (fresh_world no_files)) rate_limited_response
  /\ status_code rate_limited_response <> 200
  /\ fst (fetch_pool_chart_data E "aa70268e" (Some "USDC") 30 (fresh_world no_files))
     = Ok None
  /\ last_line (snd (fetch_pool_chart_data E "aa70268e" (Some "USDC") 30
                       (fresh_world no_files)))
     = Some "Error fetching chart data for USDC: 429".
Proof.
  intros E.
  assert (Hans : answered E (chart_url "aa70268e") (gets (fresh_world no_files))
                   rate_limited_response).
  { right. exists rate_limited_response. repeat split. }
  assert (Hst : status_code rate_limited_response <> 200) by discriminate.
  split; [exact Hans |]. split; [exact Hst |].
  exact (fetch_pool_chart_data_error_status E "aa70268e" (Some "USDC") 30
           (fresh_world no_files) rate_limited_response Hans Hst).
Defined.

(** X9.  When a 200 answer has a body that is not JSON, the exception of
    [response.json()] is caught: the call returns [None] and its last line
    is the error line with the display name and the message the decoder
    gives for that body. *)
Theorem fetch_pool_chart_data_invalid_json
    (E : Env) (pool_id : string) (pool_name : option string) (days : Z) (w : world)
    (resp : response) :
  answered E (chart_url pool_id) (gets w) resp ->
  status_code resp = 200 ->
  json resp = None ->
  fst (fetch_pool_chart_data E pool_id pool_name days w) = Ok None
  /\ last_line (snd (fetch_pool_chart_data E pool_id pool_name days w))
     = Some ("Error fetching chart data for " ++ display_name_of pool_id pool_name
             ++ ": " ++ json_error E (text resp))%string.
Proof.
  intros Hans Hst Hjson.
  destruct (fetch_with_response E pool_id pool_name days w resp Hans) as (w1 & ->).
  apply Z.eqb_eq in Hst. rewrite Hst.
  unfold try_except. rewrite bind_eq. unfold response_json. rewrite Hjson.
  unfold raise at 1. rewrite bind_eq. unfold print at 1. cbn [ret fst snd].
  split; [reflexivity | apply last_line_say].
Qed.

Lemma fetch_pool_chart_data_invalid_json_witness :
  let E := example_env [Ok (mkResponse 200 "<html>502 Bad Gateway</html>" None)]
                       example_now in
  answered E (chart_url "aa70268e") (gets (fresh_world no_files))
    (mkResponse 200 "<html>502 Bad Gateway</html>" None)
  /\ fst (fetch_pool_chart_data E "aa70268e" None 30 (fresh_world no_files)) = Ok None
  /\ last_line (snd (fetch_pool_chart_data E "aa70268e" None 30 (fresh_world no_files)))
     = Some "Error fetching chart data for aa70268e: Expecting value: line 1 column 1 (char 0)".
Proof.
  intros E.
  assert (Hans : answered E (chart_url "aa70268e") (gets (fresh_world no_files))
                   (mkResponse 200 "<html>502 Bad Gateway</html>" None)).
  { left. split; [reflexivity | discriminate]. }
  split; [exact Hans |].
  exact (fetch_pool_chart_data_invalid_json E "aa70268e" None 30 (fresh_world no_files)
           _ Hans eq_refl eq_refl).
Defined.

(** X10.  When the body of a 200 answer, once unwrapped, is not a list with
    at least one element (an empty list, an object without [data], a
    number), the call returns [None] and its last line says so with the
    display name. *)
Theorem fetch_pool_chart_data_no_records
    (E : Env) (pool_id : string) (pool_name : option string) (days : Z) (w : world)
    (resp : response) (body : value) :
  answered E (chart_url pool_id) (gets w) resp ->
  status_code resp = 200 ->
  json resp = Some body ->
  no_records body ->
  fst (fetch_pool_chart_data E pool_id pool_name days w) = Ok None
  /\ last_line (snd (fetch_pool_chart_data E pool_id pool_name days w))
     = Some ("Unexpected data format for " ++ display_name_of pool_id pool_name)%string.
Proof.
  intros Hans Hst Hjson Hnone.
  enough (Hrun : exists w1,
            fetch_pool_chart_data E pool_id pool_name days w
            = (Ok None,
               say ("Unexpected data format for " ++ display_name_of pool_id pool_name) w1))
    by (destruct Hrun as (w1 & ->); split; [reflexivity | apply last_line_say]).
  destruct (fetch_with_response E pool_id pool_name days w resp Hans) as (w1 & ->).
  exists w1.
  apply Z.eqb_eq in Hst. rewrite Hst.
  unfold try_except. rewrite bind_eq. unfold response_json. rewrite Hjson.
  unfold ret at 1. unfold no_records in Hnone. unfold chart_frame.
  destruct (unwrap_data body) as [| | | | | [| first more] |];
    try contradiction; reflexivity.
Qed.

Lemma fetch_pool_chart_data_no_records_witness :
  let E := example_env [Ok (chart_response [])] example_now in
  answered E (chart_url "aa70268e") (gets (fresh_world no_files)) (chart_response [])
  /\ no_records (VDict [("status", VStr "success"); ("data", VList [])])
  /\ fst (fetch_pool_chart_data E "aa70268e" (Some "USDC") 30 (fresh_world no_files))
     = Ok None
  /\ last_line (snd (fetch_pool_chart_data E "aa70268e" (Some "USDC") 30
                       (fresh_world no_files)))
     = Some "Unexpected data format for USDC".
Proof.
  intros E.
  assert (Hans : answered E (chart_url "aa70268e") (gets (fresh_world no_files))
                   (chart_response [])).
  { left. split; [reflexivity | discriminate]. }
  assert (Hnone : no_records (VDict [("status", VStr "success"); ("data", VList [])]))
    by exact I.
  split; [exact Hans |]. split; [exact Hnone |].
  exact (fetch_pool_chart_data_no_records E "aa70268e" (Some "USDC") 30
           (fresh_world no_files) (chart_response []) _ Hans eq_refl eq_refl Hnone).
Defined.

(** X11.  When the records of a 200 answer have no field [timestamp], the
    call returns [None] and its last line says so with the display name. *)
Theorem fetch_pool_chart_data_no_timestamp
    (E : Env) (pool_id : string) (pool_name : option string) (days : Z) (w : world)
    (records : list value) (df : DataFrame) :
  serves_records E (chart_url pool_id) (gets w) records ->
  records <> [] ->
  DataFrame_of_list records = Ok df ->
  has_column (LStr "timestamp") df = false ->
  fst (fetch_pool_chart_data E pool_id pool_name days w) = Ok None
  /\ last_line (snd (fetch_pool_chart_data E pool_id pool_name days w))
     = Some ("No timestamp found in data for " ++ display_name_of pool_id pool_name)%string.
Proof.
  intros (resp & body & Hans & Hst & Hjson & Hbody) Hne Hdf Hts.
  enough (Hrun : exists w1,
            fetch_pool_chart_data E pool_id pool_name days w
            = (Ok None,
               say ("No timestamp found in data for "
                    ++ display_name_of pool_id pool_name) w1))
    by (destruct Hrun as (w1 & ->); split; [reflexivity | apply last_line_say]).
  destruct (fetch_with_response E pool_id pool_name days w resp Hans) as (w1 & ->).
  exists w1.
  apply Z.eqb_eq in Hst. rewrite Hst.
  unfold try_except. rewrite bind_eq. unfold response_json. rewrite Hjson.
  unfold ret at 1. rewrite Hbody. unfold chart_frame.
  destruct records as [| first more]; [contradiction |].
  rewrite bind_eq. unfold lift at 1. rewrite Hdf, Hts. reflexivity.
Qed.

Lemma fetch_pool_chart_data_no_timestamp_witness :
  let E := example_env [Ok (chart_response undated_records)] example_now in
  serves_records E (chart_url "aa70268e") (gets (fresh_world no_files)) undated_records
  /\ undated_records <> []
  /\ DataFrame_of_list undated_records = Ok (frame_of_records undated_records)
  /\ has_column (LStr "timestamp") (frame_of_records undated_records) = false
  /\ fst (fetch_pool_chart_data E "aa70268e" (Some "USDC") 30 (fresh_world no_files))
     = Ok None
  /\ last_line (snd (fetch_pool_chart_data E "aa70268e" (Some "USDC") 30
                       (fresh_world no_files)))
     = Some "No timestamp found in data for USDC".
Proof.
  intros E.
  assert (Hserved : serves_records E (chart_url "aa70268e") (gets (fresh_world no_files))
                      undated_records).
  { exists (chart_response undated_records),
      (VDict [("status", VStr "success"); ("data", VList undated_records)]).
    repeat split. left. split; [reflexivity | discriminate]. }
  assert (Hne : undated_records <> []) by discriminate.
  assert (Hdf : DataFrame_of_list undated_records = Ok (frame_of_records undated_records))
    by reflexivity.
  assert (Hts : has_column (LStr "timestamp") (frame_of_records undated_records) = false)
    by reflexivity.
  repeat (split; [assumption |]).
  exact (fetch_pool_chart_data_no_timestamp E "aa70268e" (Some "USDC") 30
           (fresh_world no_files) undated_records _ Hserved Hne Hdf Hts).
Defined.

Lemma select_nil {A} (mask : list bool) : select mask (@nil A) = [].
Proof. destruct mask; reflexivity. Qed.

(** Selecting by a stricter test from what a laxer test selected is
    selecting by the stricter test. *)
Lemma select_narrow {A B} (p q : A -> bool) (ts : list A) :
  (forall t, p t = true -> q t = true) ->
  forall xs : list B,
    select (map p (select (map q ts) ts)) (select (map q ts) xs) = select (map p ts) xs.
Proof.
  intros Hpq. induction ts as [| t ts IH]; intros xs.
  - reflexivity.
  - destruct xs as [| x xs].
    + cbn [map select]. destruct (q t); cbn [map select]; now rewrite ?select_nil.
    + cbn [map select]. destruct (q t) eqn:Hq.
      * cbn [map select]. destruct (p t); now rewrite IH.
      * destruct (p t) eqn:Hp; [rewrite (Hpq t Hp) in Hq; discriminate |]. apply IH.
Qed.

(** The start of a window, when [datetime] can hold it. *)
Lemma cutoff_date_value (E : Env) (days cutoff : Z) :
  cutoff_date E days = Ok cutoff ->
  cutoff = clock E - days * NS_PER_DAY
  /\ - TIMEDELTA_MAX_DAYS <= days <= TIMEDELTA_MAX_DAYS
  /\ DATETIME_MIN <= cutoff <= DATETIME_MAX.
Proof.
  unfold cutoff_date.
  destruct (days <? - TIMEDELTA_MAX_DAYS) eqn:H1; [discriminate |].
  destruct (TIMEDELTA_MAX_DAYS <? days) eqn:H2; [discriminate |].
  cbn [orb].
  destruct (clock E - days * NS_PER_DAY <? DATETIME_MIN) eqn:H3; [discriminate |].
  destruct (DATETIME_MAX <? clock E - days * NS_PER_DAY) eqn:H4; [discriminate |].
  cbn [orb]. intros H. injection H as <-.
  apply Z.ltb_ge in H1, H2, H3, H4. lia.
Qed.

(** X12.  Under the conditions of a successful fetch, and for two windows
    whose starts [datetime] can hold, asking for fewer days gives the table
    that the selection [index >= now - days] makes of the table for more
    days: the narrower window never shows a record that the wider one lacks,
    or in another order. *)
Theorem fetch_pool_chart_data_narrower_window
    (E : Env) (pool_id : string) (pool_name : option string) (days1 days2 : Z) (w : world)
    (records : list value) (df : DataFrame) (dates : DatetimeArray) (cutoff1 cutoff2 : Z) :
  serves_records E (chart_url pool_id) (gets w) records ->
  DataFrame_of_list records = Ok df ->
  has_column (LStr "timestamp") df = true ->
  normalize_timestamps E (column_cells (LStr "timestamp") df) = Some dates ->
  cutoff_date E days1 = Ok cutoff1 ->
  cutoff_date E days2 = Ok cutoff2 ->
  days1 <= days2 ->
  exists out1 out2,
    fst (fetch_pool_chart_data E pool_id pool_name days1 w) = Ok (Some out1)
    /\ fst (fetch_pool_chart_data E pool_id pool_name days2 w) = Ok (Some out2)
    /\ out1 = select_rows (map (not_before cutoff1) (index_stamps out2)) out2.
Proof.
  intros Hserved Hdf Hts Hdates Hc1 Hc2 Hdays.
  destruct (fetch_served_run E pool_id pool_name days1 w records df Hserved Hdf Hts)
    as (w1 & lines1 & _ & _ & Hrun1).
  destruct (fetch_served_run E pool_id pool_name days2 w records df Hserved Hdf Hts)
    as (w2 & lines2 & _ & _ & Hrun2).
  rewrite Hrun1, Hrun2, Hdates, Hc1, Hc2.
  cbv zeta. cbn [fst].
  eexists _, _. split; [reflexivity |]. split; [reflexivity |].
  assert (Hpq : forall t, not_before cutoff1 t = true -> not_before cutoff2 t = true).
  { intros [t |]; cbn; [| discriminate]. intros H. apply Z.leb_le in H. apply Z.leb_le.
    destruct (cutoff_date_value E days1 cutoff1 Hc1) as (-> & _).
    destruct (cutoff_date_value E days2 cutoff2 Hc2) as (-> & _).
    unfold NS_PER_DAY in *. lia. }
  unfold select_rows, dated, index_stamps, select_array.
  cbn [index cols select_index stamps tz]. unfold select_array. cbn [stamps tz].
  f_equal.
  - now rewrite (select_narrow _ _ _ Hpq).
  - rewrite map_map. apply map_ext. intros [l c]. cbn [fst snd]. f_equal.
    destruct c as [vals | [ts z]]; cbn [select_column]; unfold select_array;
      cbn [stamps tz]; now rewrite (select_narrow _ _ _ Hpq).
Qed.

Lemma fetch_pool_chart_data_narrower_window_witness :
  let E := example_env [Ok (chart_response unordered_records)] example_now in
  let w := fresh_world no_files in
  let df := frame_of_records unordered_records in
  serves_records E (chart_url "aa70268e") (gets w) unordered_records
  /\ DataFrame_of_list unordered_records = Ok df
  /\ has_column (LStr "timestamp") df = true
  /\ normalize_timestamps E (column_cells (LStr "timestamp") df)
     = Some (mkDatetimeArray [Some 1700086400000000000; Some 1699920000000000000;
                              Some 1699920000000000000] None)
  /\ cutoff_date E 0 = Ok 1700000000000000000
  /\ cutoff_date E 30 = Ok 1697408000000000000
  /\ 0 <= 30
  /\ exists out1 out2,
       fst (fetch_pool_chart_data E "aa70268e" (Some "USDC") 0 w) = Ok (Some out1)
       /\ fst (fetch_pool_chart_data E "aa70268e" (Some "USDC") 30 w) = Ok (Some out2)
       /\ out1 = select_rows (map (not_before 1700000000000000000) (index_stamps out2)) out2.
Proof.
  intros E w df.
  assert (Hserved : serves_records E (chart_url "aa70268e") (gets w) unordered_records).
  { exists (chart_response unordered_records),
      (VDict [("status", VStr "success"); ("data", VList unordered_records)]).
    repeat split. left. split; [reflexivity | discriminate]. }
  assert (Hdf : DataFrame_of_list unordered_records = Ok df) by reflexivity.
  assert (Hts : has_column (LStr "timestamp") df = true) by reflexivity.
  assert (Hdates : normalize_timestamps E (column_cells (LStr "timestamp") df)
                   = Some (mkDatetimeArray [Some 1700086400000000000;
                                            Some 1699920000000000000;
                                            Some 1699920000000000000] None))
    by reflexivity.
  assert (Hc1 : cutoff_date E 0 = Ok 1700000000000000000) by reflexivity.
  assert (Hc2 : cutoff_date E 30 = Ok 1697408000000000000) by reflexivity.
  assert (Hdays : 0 <= 30) by lia.
  repeat (split; [assumption |]).
  exact (fetch_pool_chart_data_narrower_window E "aa70268e" (Some "USDC") 0 30 w
           unordered_records df _ _ _ Hserved Hdf Hts Hdates Hc1 Hc2 Hdays).
Defined.

(* ================================================================= *)
(** ** load_data_from_db: what else a call does *)

Lemma last_line_snoc (lines : list string) (line : string) :
  match rev (lines ++ [line]) with
  | [] => None
  | l :: _ => Some l
  end = Some line.
Proof.
  now rewrite rev_app_distr.
Qed.

Lemma load_unreadable (E : Env) (path : string) (w : world) (msg : string) :
  unreadable (fs w path) = Some msg ->
  exists w',
    load_data_from_db E path w = (Ok (None, None), w')
    /\ fs w' = fs w
    /\ last_line w' = Some ("Error loading data from database: " ++ msg)%string.
Proof.
  intros H. destruct w as [out tr g files conns]. cbn [fs] in H.
  unfold load_data_from_db.
  destruct (files path) as [m | | | tables | tables] eqn:Hs; try discriminate;
    injection H as <-; crank Hs; eexists; (split; [reflexivity |]);
    (split; [reflexivity |]); unfold last_line; cbn [stdout exn_str];
    apply last_line_snoc.
Qed.

(** A store in which a statement finds [pool_data]: the call returns what
    [load_result] says and closes its connection. *)
Lemma load_found (E : Env) (path : string) (w : world)
      (tables : list (string * sql_table)) :
  readable (fs w path) = Some tables ->
  find_table "pool_data" tables <> None ->
  exists w',
    load_data_from_db E path w = (Ok (load_result E tables), w')
    /\ open_conns w' = open_conns w.
Proof.
  intros Hread Hf.
  assert (Hs : fs w path = Database tables \/ fs w path = ReadOnly tables).
  { destruct (fs w path) as [msg | | | ts | ts]; try discriminate.
    - injection Hread as <-. contradiction.
    - injection Hread as <-. now left.
    - injection Hread as <-. now right. }
  destruct (load_data_from_db_close_paths E path w tables Hs) as (w' & Hrun & Hoc & _).
  exists w'. split; [exact Hrun | exact (Hoc Hf)].
Qed.

(** X13.  When a statement finds [pool_data] in the store and no
    [pool_metadata], the call still returns the time series, with an empty
    metadata table beside it, and closes the connection. *)
Theorem load_data_from_db_missing_metadata
    (E : Env) (db_filename : string) (w : world) (tables : list (string * sql_table))
    (tbl : sql_table) :
  readable (fs w db_filename) = Some tables ->
  find_table "pool_data" tables = Some tbl ->
  find_table "pool_metadata" tables = None ->
  exists merged,
    fst (load_data_from_db E db_filename w) = Ok (Some merged, Some (mkFrame (RangeIndex 0) []))
    /\ open_conns (snd (load_data_from_db E db_filename w)) = open_conns w.
Proof.
  intros Hs Hdata Hmeta.
  destruct (load_found E db_filename w tables Hs) as (w' & Hrun & Hoc); [congruence |].
  destruct (read_result_found tables tbl Hdata) as (m & Hm).
  rewrite Hrun. cbn [fst snd]. unfold load_result, metadata_of.
  rewrite Hm, Hmeta.
  exists (coerced E m). split; [reflexivity | exact Hoc].
Qed.

Lemma load_data_from_db_missing_metadata_witness :
  let w := fresh_world (with_store (Database cache_without_metadata)) in
  readable (fs w DEFAULT_DB_FILENAME) = Some cache_without_metadata
  /\ find_table "pool_metadata" cache_without_metadata = None
  /\ exists merged,
       fst (load_data_from_db (example_env [] example_now) DEFAULT_DB_FILENAME w)
       = Ok (Some merged, Some (mkFrame (RangeIndex 0) []))
       /\ open_conns (snd (load_data_from_db (example_env [] example_now)
                             DEFAULT_DB_FILENAME w)) = open_conns w.
Proof.
  intros w.
  split; [reflexivity |]. split; [reflexivity |].
  exact (load_data_from_db_missing_metadata (example_env [] example_now) DEFAULT_DB_FILENAME
           w cache_without_metadata _ eq_refl eq_refl eq_refl).
Defined.

(** X14.  When the index read from [pool_data], by the first read or by the
    second, cannot be converted to dates, the call goes on: it returns the
    table with the index as read, and the metadata table, and closes the
    connection. *)
Theorem load_data_from_db_index_kept_unparsed
    (E : Env) (db_filename : string) (w : world) (tables : list (string * sql_table))
    (tbl : sql_table) (raw : DataFrame) (err : parse_error) :
  readable (fs w db_filename) = Some tables ->
  find_table "pool_data" tables = Some tbl ->
  (In "index" (map fst (tcols tbl))
   /\ set_index (LStr "index") (frame_of_table tbl) = Ok raw)
  \/ (exists first rest,
        ~ In "index" (map fst (tcols tbl))
        /\ map fst (tcols tbl) = first :: rest
        /\ set_index (LStr first) (frame_of_table tbl) = Ok raw) ->
  to_datetime E (index_cells (index raw)) = inl err ->
  exists meta,
    fst (load_data_from_db E db_filename w) = Ok (Some raw, Some meta)
    /\ open_conns (snd (load_data_from_db E db_filename w)) = open_conns w.
Proof.
  intros Hs Hdata Hraw Herr.
  destruct (load_found E db_filename w tables Hs) as (w' & Hrun & Hoc); [congruence |].
  rewrite Hrun. cbn [fst snd].
  exists (metadata_of tables). split; [| exact Hoc].
  assert (Hread : read_result tables = Some raw).
  { unfold read_result. rewrite Hdata.
    destruct Hraw as [[_ Hset] | (first & rest & Hnin & Hnames & Hset)].
    - now rewrite Hset.
    - destruct (set_index (LStr "index") (frame_of_table tbl)) as [raw0 | e0] eqn:Hix.
      { exfalso. apply Hnin. apply set_index_names. eauto. }
      unfold promote_first.
      pose proof (columns_frame_of_table tbl) as Hc.
      rewrite <- map_map, Hnames in Hc. cbn [map] in Hc.
      rewrite Hc, Hset. reflexivity. }
  unfold load_result. rewrite Hread. unfold coerced. rewrite Herr.
  now destruct (is_DatetimeIndex (index raw)).
Qed.

Lemma load_data_from_db_index_kept_unparsed_witness :
  let E := example_env [] example_now in
  let w := fresh_world (with_store (Database labelled_cache)) in
  let raw := mkFrame (ObjIndex (Some (LStr "row")) [VStr "row-one"; VStr "row-two"])
                     [(LStr "0", ObjCol [VFloat 5 (-1); VFloat 3 (-1)])] in
  readable (fs w DEFAULT_DB_FILENAME) = Some labelled_cache
  /\ to_datetime E (index_cells (index raw)) = inl (ParseValueError "non convertible value")
  /\ exists meta,
       fst (load_data_from_db E DEFAULT_DB_FILENAME w) = Ok (Some raw, Some meta)
       /\ open_conns (snd (load_data_from_db E DEFAULT_DB_FILENAME w)) = open_conns w.
Proof.
  intros E w raw.
  split; [reflexivity |]. split; [reflexivity |].
  apply (load_data_from_db_index_kept_unparsed E DEFAULT_DB_FILENAME w
           labelled_cache _ raw (ParseValueError "non convertible value") eq_refl eq_refl);
    [| reflexivity].
  right. exists "row", ["0"]. split; [| split; reflexivity].
  cbn. intros [H | [H | []]]; discriminate.
Defined.

(** X15.  On a store that opens as a database the call fails exactly when
    no statement finds [pool_data] in it; otherwise it returns both tables
    and the connection it opened is closed again. *)
Theorem load_data_from_db_succeeds_and_closes
    (E : Env) (db_filename : string) (w : world) (tables : list (string * sql_table)) :
  readable (fs w db_filename) = Some tables ->
  (fst (load_data_from_db E db_filename w) = Ok (None, None)
   <-> find_table "pool_data" tables = None)
  /\ (find_table "pool_data" tables <> None ->
      (exists merged meta,
          fst (load_data_from_db E db_filename w) = Ok (Some merged, Some meta))
      /\ open_conns (snd (load_data_from_db E db_filename w)) = open_conns w).
Proof.
  intros Hs.
  destruct (load_data_from_db_reads E db_filename w) as (T & _ & Hcase).
  rewrite Hs in Hcase. destruct Hcase as [Hrun _].
  destruct (find_table "pool_data" tables) as [tbl |] eqn:Hf.
  - destruct (read_result_found tables tbl Hf) as (m & Hm).
    destruct (load_found E db_filename w tables Hs) as (w' & Hrun' & Hoc); [congruence |].
    rewrite Hrun'. cbn [fst snd]. unfold load_result. rewrite Hm. split.
    + split; discriminate.
    + intros _. split; [eauto | exact Hoc].
  - rewrite Hrun. unfold load_result, read_result. rewrite Hf.
    split; [tauto | congruence].
Qed.

Lemma load_data_from_db_succeeds_and_closes_witness :
  let E := example_env [] example_now in
  let w := fresh_world (with_store (Database refreshed_cache)) in
  readable (fs w DEFAULT_DB_FILENAME) = Some refreshed_cache
  /\ (fst (load_data_from_db E DEFAULT_DB_FILENAME w) = Ok (None, None)
      <-> find_table "pool_data" refreshed_cache = None).
Proof.
  intros E w. split; [reflexivity |].
  exact (proj1 (load_data_from_db_succeeds_and_closes E DEFAULT_DB_FILENAME w
                  refreshed_cache eq_refl)).
Defined.

(** X16.  When the store cannot be opened, or is not a database, the call
    returns [(None, None)], its last line is the error line with SQLite's
    message, and no file is changed. *)
Theorem load_data_from_db_unreadable_store
    (E : Env) (db_filename : string) (w : world) (msg : string) :
  unreadable (fs w db_filename) = Some msg ->
  fst (load_data_from_db E db_filename w) = Ok (None, None)
  /\ fs (snd (load_data_from_db E db_filename w)) = fs w
  /\ last_line (snd (load_data_from_db E db_filename w))
     = Some ("Error loading data from database: " ++ msg)%string.
Proof.
  intros H. destruct (load_unreadable E db_filename w msg H) as (w' & -> & Hfs & Hline).
  auto.
Qed.

Lemma load_data_from_db_unreadable_store_witness :
  let w := fresh_world (with_store NotADatabase) in
  unreadable (fs w DEFAULT_DB_FILENAME) = Some "file is not a database"
  /\ fst (load_data_from_db (example_env [] example_now) DEFAULT_DB_FILENAME w)
     = Ok (None, None)
  /\ fs (snd (load_data_from_db (example_env [] example_now) DEFAULT_DB_FILENAME w)) = fs w
  /\ last_line (snd (load_data_from_db (example_env [] example_now) DEFAULT_DB_FILENAME w))
     = Some "Error loading data from database: file is not a database".
Proof.
  intros w. split; [reflexivity |].
  exact (load_data_from_db_unreadable_store (example_env [] example_now)
           DEFAULT_DB_FILENAME w "file is not a database" eq_refl).
Defined.


(* ================================================================= *)
(** ** purge_database *)

Ltac crank_purge H H1 H2 :=
  repeat (progress (rewrite ?H, ?H1, ?H2;
    cbv beta iota zeta delta
      [purge_database try_except bind ret print say sqlite3_connect drop_table_if_exists
       vacuum conn_commit conn_close tables_of emit stdout trace gets fs open_conns];
    unfold set_store; rewrite ?String.eqb_refl)).

Lemma same_table_sym (a b : string) : same_table a b = same_table b a.
Proof.
  unfold same_table. apply String.eqb_sym.
Qed.

Lemma same_table_trans (a b c : string) :
  same_table a b = true -> same_table b c = true -> same_table a c = true.
Proof.
  unfold same_table. intros H1 H2. apply String.eqb_eq in H1, H2.
  apply String.eqb_eq. congruence.
Qed.

(** Dropping a table takes away what a statement finds under its name, and
    nothing else. *)
Lemma find_table_drop (name gone : string) (tables : list (string * sql_table)) :
  find_table name (drop_table gone tables)
  = if same_table name gone then None else find_table name tables.
Proof.
  unfold drop_table. induction tables as [| [n t] tables IH]; cbn [filter find_table fst].
  - now destruct (same_table name gone).
  - destruct (same_table n gone) eqn:Hn; cbn [negb find_table].
    + rewrite IH. destruct (same_table name gone) eqn:Hd; [reflexivity |].
      destruct (same_table n name) eqn:Hnn; [| reflexivity].
      rewrite same_table_sym in Hnn.
      rewrite (same_table_trans _ _ _ Hnn Hn) in Hd. discriminate.
    + destruct (same_table n name) eqn:Hnn.
      * destruct (same_table name gone) eqn:Hd; [| reflexivity].
        rewrite (same_table_trans _ _ _ Hnn Hd) in Hn. discriminate.
      * exact IH.
Qed.

Lemma find_table_dropped (name gone : string) (tables tables' : list (string * sql_table)) :
  dropped gone tables = Ok tables' ->
  find_table name tables'
  = if same_table name gone then None else find_table name tables.
Proof.
  unfold dropped. destruct (find_table gone tables) as [t |] eqn:Hf.
  - destruct (tview t); [discriminate |]. intros H. injection H as <-.
    apply find_table_drop.
  - intros H. injection H as <-.
    destruct (same_table name gone) eqn:Hs; [| reflexivity].
    clear - Hf Hs. induction tables as [| [n t] tables IH]; [reflexivity |].
    cbn in *. destruct (same_table n gone) eqn:Hn; [discriminate |].
    destruct (same_table n name) eqn:Hnn.
    + rewrite (same_table_trans _ _ _ Hnn Hs) in Hn. discriminate.
    + now apply IH.
Qed.

Lemma dropped_absent (gone : string) (tables : list (string * sql_table)) :
  find_table gone tables = None -> dropped gone tables = Ok tables.
Proof.
  unfold dropped. now intros ->.
Qed.

Lemma dropped_raises (gone : string) (tables : list (string * sql_table)) (e : exn) :
  dropped gone tables = Raise e ->
  exists t, find_table gone tables = Some t /\ tview t = true.
Proof.
  unfold dropped. destruct (find_table gone tables) as [t |]; [| discriminate].
  destruct (tview t) eqn:Hv; [eauto | discriminate].
Qed.

Lemma purged_tables_twice (tables : list (string * sql_table)) :
  purged_tables (fst (purged_tables tables)) = purged_tables tables.
Proof.
  unfold purged_tables.
  destruct (dropped "pool_data" tables) as [t1 | e1] eqn:H1; cbn [fst].
  - assert (F1 : find_table "pool_data" t1 = None)
      by (rewrite (find_table_dropped _ _ _ _ H1); reflexivity).
    destruct (dropped "pool_metadata" t1) as [t2 | e2] eqn:H2; cbn [fst].
    + assert (F2 : find_table "pool_data" t2 = None)
        by (rewrite (find_table_dropped _ _ _ _ H2); exact F1).
      assert (F3 : find_table "pool_metadata" t2 = None)
        by (rewrite (find_table_dropped _ _ _ _ H2); reflexivity).
      now rewrite (dropped_absent _ _ F2), (dropped_absent _ _ F3).
    + now rewrite (dropped_absent _ _ F1), H2.
  - now rewrite H1.
Qed.

Lemma purged_twice (s : store_state) : purged (purged s) = purged s.
Proof.
  destruct s; cbn [purged]; try reflexivity.
  - now rewrite purged_tables_twice.
Qed.

(** What a purge does, by the state of the store. *)
Lemma purge_database_run (path : string) (w : world) :
  exists w',
    purge_database path w = (Ok tt, w')
    /\ (forall p, fs w' p = if String.eqb p path then purged (fs w path) else fs w p)
    /\ (if purge_succeeds (fs w path)
        then open_conns w' = open_conns w
             /\ last_line w' = Some "Database purged successfully"
        else exists msg,
               last_line w' = Some ("Warning: Could not purge database: " ++ msg)%string)
    /\ (forall msg,
          unreadable (fs w path) = Some msg ->
          last_line w' = Some ("Warning: Could not purge database: " ++ msg)%string).
Proof.
  destruct w as [out tr g files conns]. cbn [fs open_conns].
  destruct (files path) as [msg | | | tables | tables] eqn:Hs;
    cbn [unreadable purged purge_succeeds].
  - crank_purge Hs Hs Hs. eexists. split; [reflexivity |]. split; [| split].
    + intros p. cbn [fs]. destruct (String.eqb p path) eqn:Hp; [| reflexivity].
      apply String.eqb_eq in Hp. now subst.
    + eexists. unfold last_line. cbn [stdout exn_str]. apply last_line_snoc.
    + intros m Hm. injection Hm as <-.
      unfold last_line. cbn [stdout exn_str]. apply last_line_snoc.
  - repeat (progress (crank_purge Hs Hs Hs; cbn [dropped find_table])).
    eexists. split; [reflexivity |]. split; [| split].
    + intros p. cbn [fs]. now destruct (String.eqb p path).
    + cbn [open_conns remove_first]. rewrite String.eqb_refl. split; [reflexivity |].
      unfold last_line. cbn [stdout]. apply last_line_snoc.
    + discriminate.
  - crank_purge Hs Hs Hs. eexists. split; [reflexivity |]. split; [| split].
    + intros p. cbn [fs]. destruct (String.eqb p path) eqn:Hp; [| reflexivity].
      apply String.eqb_eq in Hp. now subst.
    + eexists. unfold last_line. cbn [stdout exn_str]. apply last_line_snoc.
    + intros m Hm. injection Hm as <-.
      unfold last_line. cbn [stdout exn_str]. apply last_line_snoc.
  - unfold purged_tables.
    destruct (dropped "pool_data" tables) as [t1 | e1] eqn:H1;
      [destruct (dropped "pool_metadata" t1) as [t2 | e2] eqn:H2 |];
      cbn [fst snd]; crank_purge Hs H1 H2;
      (eexists; split; [reflexivity |]; split; [| split; [| discriminate]]).
    + intros p. cbn [fs]. now destruct (String.eqb p path).
    + cbn [open_conns remove_first]. rewrite String.eqb_refl. split; [reflexivity |].
      unfold last_line. cbn [stdout]. apply last_line_snoc.
    + intros p. cbn [fs]. now destruct (String.eqb p path).
    + eexists. unfold last_line. cbn [stdout exn_str]. apply last_line_snoc.
    + intros p. cbn [fs]. destruct (String.eqb p path) eqn:Hp; [| reflexivity].
      apply String.eqb_eq in Hp. now subst.
    + eexists. unfold last_line. cbn [stdout exn_str]. apply last_line_snoc.
  - destruct (dropped "pool_data" tables) as [t1 | e1] eqn:H1;
      [destruct (find_table "pool_data" tables) as [d |] eqn:F1;
       [| destruct (dropped "pool_metadata" tables) as [t2 | e2] eqn:H2;
          [destruct (find_table "pool_metadata" tables) as [m |] eqn:F2 |]] |];
      crank_purge Hs H1 H2; rewrite ?F1, ?F2; crank_purge Hs H1 H2;
      rewrite ?F1, ?F2; crank_purge Hs H1 H2;
      (eexists; split; [reflexivity |]; split; [| split; [| discriminate]]).
    all: try (intros p; cbn [fs]; destruct (String.eqb p path) eqn:Hp; [| reflexivity];
              apply String.eqb_eq in Hp; now subst).
    all: eexists; unfold last_line; cbn [stdout exn_str readonly_error]; apply last_line_snoc.
Qed.

(** A purge that ends with the success line has gone through all of its
    statements. *)
Lemma purge_reports_success (path : string) (w : world) :
  last_line (snd (purge_database path w)) = Some "Database purged successfully" ->
  purge_succeeds (fs w path) = true.
Proof.
  destruct (purge_database_run path w) as (w' & -> & _ & Hend & _). cbn [snd].
  destruct (purge_succeeds (fs w path)); [reflexivity |].
  destruct Hend as (msg & ->). discriminate.
Qed.

Lemma purge_succeeds_tables (s : store_state) :
  purge_succeeds s = true ->
  exists tables tables',
    readable s = Some tables
    /\ purged s = Database tables'
    /\ forall name,
         find_table name tables'
         = if same_table name "pool_data" || same_table name "pool_metadata"
           then None
           else find_table name tables.
Proof.
  destruct s as [msg | | | tables | tables]; cbn [purge_succeeds purged readable];
    try discriminate.
  - intros _. exists [], []. repeat split. intros name. now destruct (_ || _).
  - unfold purged_tables.
    destruct (dropped "pool_data" tables) as [t1 | e1] eqn:H1; [| discriminate].
    destruct (dropped "pool_metadata" t1) as [t2 | e2] eqn:H2; [| discriminate].
    intros _. exists tables, t2. cbn [fst]. repeat split.
    intros name.
    rewrite (find_table_dropped _ _ _ _ H2), (find_table_dropped _ _ _ _ H1).
    destruct (same_table name "pool_metadata"), (same_table name "pool_data"); reflexivity.
Qed.



(** X19.  A read of the cache right after a purge that ended with the
    success line finds no [pool_data]: it returns [(None, None)], never
    tables from before the purge. *)
Theorem purge_database_then_load
    (E : Env) (db_filename : string) (w : world) :
  last_line (snd (purge_database db_filename w)) = Some "Database purged successfully" ->
  fst (load_data_from_db E db_filename (snd (purge_database db_filename w)))
  = Ok (None, None).
Proof.
  intros Hline.
  pose proof (purge_reports_success db_filename w Hline) as Hok.
  destruct (purge_database_run db_filename w) as (w1 & -> & Hfs & _).
  cbn [snd].
  destruct (load_data_from_db_run E db_filename w1) as (w2 & -> & _).
  cbn [fst]. f_equal.
  specialize (Hfs db_filename). rewrite String.eqb_refl in Hfs. rewrite Hfs.
  destruct (purge_succeeds_tables _ Hok) as (tables & tables' & _ & -> & Hfind).
  cbn [load_outcome]. unfold load_result, read_result. now rewrite Hfind.
Qed.

Lemma purge_database_then_load_witness :
  let w := fresh_world (with_store (Database refreshed_cache)) in
  last_line (snd (purge_database DEFAULT_DB_FILENAME w)) = Some "Database purged successfully"
  /\ fst (load_data_from_db (example_env [] example_now) DEFAULT_DB_FILENAME
            (snd (purge_database DEFAULT_DB_FILENAME w)))
     = Ok (None, None).
Proof.
  intros w.
  assert (Hline : last_line (snd (purge_database DEFAULT_DB_FILENAME w))
                  = Some "Database purged successfully") by reflexivity.
  split; [exact Hline |].
  exact (purge_database_then_load (example_env [] example_now) DEFAULT_DB_FILENAME w Hline).
Defined.

(** X20.  Purging twice leaves every file as purging once does, and both
    calls return. *)
Theorem purge_database_idempotent (db_filename : string) (w : world) (p : string) :
  let once := purge_database db_filename w in
  let twice := purge_database db_filename (snd once) in
  fst once = Ok tt
  /\ fst twice = Ok tt
  /\ fs (snd twice) p = fs (snd once) p.
Proof.
  intros once twice. unfold twice, once.
  destruct (purge_database_run db_filename w) as (w1 & -> & Hfs1 & _).
  cbn [fst snd].
  destruct (purge_database_run db_filename w1) as (w2 & -> & Hfs2 & _).
  cbn [fst snd]. split; [reflexivity |]. split; [reflexivity |].
  rewrite Hfs2, !Hfs1, String.eqb_refl, purged_twice.
  now destruct (String.eqb p db_filename).
Qed.

(** X21.  When the store cannot be opened, or is not a database, the purge
    still returns: the exception is swallowed, the last line is the warning
    with SQLite's message, and no file is changed. *)
Theorem purge_database_failure (db_filename : string) (w : world) (msg : string) :
  unreadable (fs w db_filename) = Some msg ->
  let run := purge_database db_filename w in
  fst run = Ok tt
  /\ last_line (snd run) = Some ("Warning: Could not purge database: " ++ msg)%string
  /\ forall p, fs (snd run) p = fs w p.
Proof.
  intros Hs run. unfold run.
  destruct (purge_database_run db_filename w) as (w' & -> & Hfs & _ & Hend).
  cbn [fst snd].
  split; [reflexivity |]. split; [exact (Hend msg Hs) |].
  intros p. rewrite Hfs.
  destruct (String.eqb p db_filename) eqn:Hp; [| reflexivity].
  apply String.eqb_eq in Hp. subst p.
  destruct (fs w db_filename); try discriminate; reflexivity.
Qed.

Lemma purge_database_failure_witness :
  let w := fresh_world (with_store (Unopenable "unable to open database file")) in
  unreadable (fs w DEFAULT_DB_FILENAME) = Some "unable to open database file"
  /\ fst (purge_database DEFAULT_DB_FILENAME w) = Ok tt
  /\ last_line (snd (purge_database DEFAULT_DB_FILENAME w))
     = Some "Warning: Could not purge database: unable to open database file".
Proof.
  intros w.
  pose proof (purge_database_failure DEFAULT_DB_FILENAME w "unable to open database file"
                eq_refl) as (Hok & Hline & _).
  split; [reflexivity |]. split; [exact Hok | exact Hline].
Defined.

(** A cache file that may only be read: the purge is refused at its first
    statement and leaves its connection open, and the cache is still there
    for the next read. *)
Example purge_read_only_cache :
  let w := fresh_world (with_store (ReadOnly refreshed_cache)) in
  let run := purge_database DEFAULT_DB_FILENAME w in
  fst run = Ok tt
  /\ last_line (snd run)
     = Some "Warning: Could not purge database: attempt to write a readonly database"
  /\ fs (snd run) DEFAULT_DB_FILENAME = ReadOnly refreshed_cache
  /\ open_conns (snd run) = [DEFAULT_DB_FILENAME]
  /\ exists merged meta,
       fst (load_data_from_db (example_env [] example_now) DEFAULT_DB_FILENAME (snd run))
       = Ok (Some merged, Some meta).
Proof.
  vm_compute. repeat split. eexists _, _. reflexivity.
Qed.

(** A cache whose [pool_data] is a view: [DROP TABLE] refuses it, and the
    view is still read afterwards. *)
Example purge_viewed_cache :
  let w := fresh_world (with_store (Database viewed_cache)) in
  let run := purge_database DEFAULT_DB_FILENAME w in
  fst run = Ok tt
  /\ last_line (snd run)
     = Some "Warning: Could not purge database: use DROP VIEW to delete view pool_data"
  /\ fs (snd run) DEFAULT_DB_FILENAME = Database viewed_cache
  /\ exists merged meta,
       fst (load_data_from_db (example_env [] example_now) DEFAULT_DB_FILENAME (snd run))
       = Ok (Some merged, Some meta).
Proof.
  vm_compute. repeat split. eexists _, _. reflexivity.
Qed.

(* ================================================================= *)
(** ** validate_dataframe: what it prints *)

(** X22.  For required columns named in ASCII, [validate_dataframe] prints
    one line exactly when a frame that is neither [None] nor empty lacks a
    required column, and that line lists the missing columns, and only
    those, in the order they were asked for, each as [repr] writes it.  In
    every other case it prints nothing.  It never sleeps, requests or
    touches the store. *)
Theorem validate_dataframe_reports_missing
    (df : option DataFrame) (required_columns : option (list label)) (w : world) :
  forallb ascii_label (required_of required_columns) = true ->
  let run := validate_dataframe df required_columns w in
  let missing :=
    match df with
    | Some d => if empty d then []
                else filter (fun col => negb (has_column col d)) (required_of required_columns)
    | None => []
    end in
  stdout (snd run)
  = stdout w ++ match missing with
                | [] => []
                | _ :: _ => [("Missing required columns: ["
                              ++ join ", " (map repr_label missing) ++ "]")%string]
                end
  /\ trace (snd run) = trace w
  /\ fs (snd run) = fs w
  /\ open_conns (snd run) = open_conns w.
Proof.
  intros _ run missing. unfold run, missing, validate_dataframe.
  destruct df as [d |]; [| cbn; now rewrite app_nil_r].
  destruct (empty d); [cbn; now rewrite app_nil_r |].
  destruct required_columns as [[| c cs] |]; cbn [required_of];
    try (cbn; now rewrite app_nil_r).
  destruct (filter (fun col => negb (has_column col d)) (c :: cs)) as [| m ms].
  - cbn. now rewrite app_nil_r.
  - rewrite bind_eq. unfold print at 1. cbn. auto.
Qed.

Lemma validate_dataframe_reports_missing_witness :
  let df := frame_of_records undated_records in
  let required := Some [LStr "apy"; LStr "timestamp"; LStr "pool\id"; LInt 7] in
  forallb ascii_label (required_of required) = true
  /\ stdout (snd (validate_dataframe (Some df) required (fresh_world no_files)))
     = ["Missing required columns: ['timestamp', 'pool\\id', 7]"].
Proof.
  intros df required.
  pose proof (validate_dataframe_reports_missing (Some df) required (fresh_world no_files)
                eq_refl) as (Hout & _).
  split; [reflexivity | exact Hout].
Defined.

(** [repr] writes a name that holds a single quote between double quotes. *)
Example repr_str_quotes :
  repr_str "it's" = String double_quote ("it's" ++ String double_quote "")
  /\ repr_str "apy" = "'apy'".
Proof.
  split; reflexivity.
Qed.
